(** * Asynchronous job lifecycle of the article-generation frontend

    A shallow embedding of the two React hooks that submit work to the
    backend and poll a task until it finishes:

    - [useArticleRequest] (requestArticle / pollTaskStatus /
      handleArticleResponse), the generation hook;
    - [useFeedback] (sendFeedback / pollFeedbackTask /
      handleFeedbackResponse), the feedback hook;

    together with the two form handlers that call them
    (ArticleRequestForm.handleSubmit, FeedbackModal.handleSubmit).

    The hooks are asynchronous JavaScript.  Their bodies are embedded as
    finite trees of actions ([Task]): a synchronous effect, an awaited
    HTTP call with its continuation, a [setTimeout] with its callback, or
    the call of an async function whose promise nobody awaits.  A small
    single-threaded event loop ([run]) executes a task against a backend
    and yields the trace of observable events in program order.

    The last part covers what the hooks hand to the forms: the response
    handlers, the panels and the article text of ArticleRequestForm,
    the feedback modal, and the earlier copy of the generation hook that
    is kept after ArticleRequestForm.jsx. *)

From Stdlib Require Import List String Ascii Bool Arith Lia.
Import ListNotations.
Local Open Scope string_scope.
Local Open Scope list_scope.

(* ================================================================== *)
(** ** JavaScript values used by the hooks *)

(** [a || d] on a possibly missing string: a missing or empty string is
    falsy. *)
Definition truthy (o : option string) : bool :=
  match o with
  | Some s => negb (s =? "")
  | None => false
  end.

Definition or_default (o : option string) (d : string) : string :=
  match o with
  | Some s => if s =? "" then d else s
  | None => d
  end.

(** [a || b || ...] over possibly missing strings: the first truthy one. *)
Fixpoint first_truthy (l : list (option string)) (d : string) : string :=
  match l with
  | [] => d
  | o :: l' => if truthy o then or_default o d else first_truthy l' d
  end.

(** A JavaScript object with string fields, as a list of bindings; a
    field may be bound to [undefined] ([None]). *)
Definition JsObj := list (string * option string).

Definition obj_get (o : JsObj) (k : string) : option string :=
  match find (fun kv => fst kv =? k) o with
  | Some kv => snd kv
  | None => None
  end.

(** [{...o, k: v}]: a later binding of a key replaces the earlier one. *)
Definition obj_set (o : JsObj) (k : string) (v : option string) : JsObj :=
  filter (fun kv => negb (fst kv =? k)) o ++ [(k, v)].

(** [Array.prototype.join]. *)
Fixpoint join (sep : string) (l : list string) : string :=
  match l with
  | [] => ""
  | [s] => s
  | s :: l' => (s ++ sep ++ join sep l')%string
  end.

(** *** White space

    A [string] holds the UTF-8 encoding of the JavaScript string, so a
    character outside the ASCII range takes two to four bytes.  The
    operations of the hooks on strings (comparison, concatenation,
    splitting at line feeds) act on the bytes as they act on the
    characters; [trim] is the one that has to know the characters. *)

(** The number of bytes of the character that begins with byte [c]. *)
Definition width (c : ascii) : nat :=
  let n := nat_of_ascii c in
  if Nat.ltb n 192 then 1
  else if Nat.ltb n 224 then 2
  else if Nat.ltb n 240 then 3
  else 4.

(** The characters of a string, each as its bytes, when [more] bytes of
    the first character are still to come. *)
Fixpoint characters (more : nat) (l : list ascii) : list (list ascii) :=
  match l with
  | [] => []
  | c :: l' =>
      let more' :=
        match more with
        | O => Nat.pred (width c)
        | S m => m
        end in
      match more', characters more' l' with
      | S _, ch :: chs => (c :: ch) :: chs
      | _, chs => [c] :: chs
      end
  end.

(** The white space and the line terminators of ECMAScript, which
    [String.prototype.trim] strips: TAB, LF, VT, FF, CR, SP, U+00A0,
    U+1680, U+2000 to U+200A, U+2028, U+2029, U+202F, U+205F, U+3000
    and U+FEFF; the last entry is U+00A0 as one byte, for a string given
    in Latin-1. *)
Definition white_space : list (list nat) :=
  [[9]; [10]; [11]; [12]; [13]; [32];
   [194; 160];
   [225; 154; 128];
   [226; 128; 128]; [226; 128; 129]; [226; 128; 130]; [226; 128; 131];
   [226; 128; 132]; [226; 128; 133]; [226; 128; 134]; [226; 128; 135];
   [226; 128; 136]; [226; 128; 137]; [226; 128; 138];
   [226; 128; 168]; [226; 128; 169];
   [226; 128; 175];
   [226; 129; 159];
   [227; 128; 128];
   [239; 187; 191];
   [160]].

Fixpoint same_bytes (l1 l2 : list nat) : bool :=
  match l1, l2 with
  | [], [] => true
  | a :: l1', b :: l2' => Nat.eqb a b && same_bytes l1' l2'
  | _, _ => false
  end.

Definition is_space (ch : list ascii) : bool :=
  existsb (same_bytes (map nat_of_ascii ch)) white_space.

Fixpoint ltrim (l : list (list ascii)) : list (list ascii) :=
  match l with
  | [] => []
  | ch :: l' => if is_space ch then ltrim l' else l
  end.

(** [String.prototype.trim] *)
Definition trim (s : string) : string :=
  string_of_list_ascii
    (List.concat (rev (ltrim (rev (ltrim
       (characters 0 (list_ascii_of_string s))))))).

(* ================================================================== *)
(** ** Wire data *)

(** The [data] object of a submission response, which is also the shape
    of the [result] embedded in a task status: [handleArticleResponse]
    and [handleFeedbackResponse] are applied to either. *)
Record ResponseData := {
  rd_success : bool;                 (* result.success *)
  rd_error : option string;          (* result.error *)
  rd_async : bool;                   (* data.async *)
  rd_task_id : option string;        (* data.task_id *)
  rd_article_data : option JsObj;
  rd_article : option JsObj;
  rd_article_id : option string;
  rd_request_id : option string;
  rd_validation : option string;
  rd_generation_time : option string;
  rd_from_cache : option string;
  rd_feedback_applied : option string
}.

(** [response.data.data] of the status endpoint. *)
Record TaskData := {
  td_status : string;
  td_result : option ResponseData;
  td_error : option string
}.

(** The body of an error response, [err.response.data]. *)
Record ErrBody := {
  eb_message : option string;
  eb_detail : option string;
  eb_error : option string;
  eb_data : list string        (* Object.values(data.data).flat() *)
}.

(** A thrown value: [err.message] and [err.response?.data]. *)
Record JsError := {
  err_message : option string;
  err_response : option ErrBody
}.

(** [new Error(msg)]. *)
Definition new_Error (msg : string) : JsError :=
  {| err_message := Some msg; err_response := None |}.

Definition response_message (e : JsError) : option string :=
  match err_response e with
  | Some b => eb_message b
  | None => None
  end.

Definition response_detail (e : JsError) : option string :=
  match err_response e with
  | Some b => eb_detail b
  | None => None
  end.

(** What [await api.post(...)] yields: it throws, or it returns an
    envelope [{success, message, data}].  A body that is no such
    envelope makes the hook throw while it reads the body, inside the
    same [try]: [PostThrow] stands for that case as well. *)
Inductive SubmitReply :=
| PostThrow (err : JsError)
| PostBody (success : bool) (message : option string) (data : ResponseData).

(** What [await api.get(`tasks/${taskId}/status/`)] yields: it throws,
    or it returns an envelope [{success, data}].  A body that is no such
    envelope makes the hook throw while it reads the body, inside the
    same [try]: [StatusThrow] stands for that case as well. *)
Inductive StatusReply :=
| StatusThrow (err : JsError)
| StatusBody (success : bool) (data : TaskData).

(** The request bodies of the two submission endpoints. *)
Record GenerationPayload := {
  gp_input_type : string;
  gp_input_value : string;
  gp_instruction : string;
  gp_force_refresh : bool;
  gp_async : bool
}.

Record FeedbackPayload := {
  fp_article_id : string;
  fp_feedback : string * string;     (* { [backendSection]: feedbackText } *)
  fp_async_processing : bool
}.

Inductive Payload :=
| PGeneration (p : GenerationPayload)
| PFeedback (p : FeedbackPayload).

(** The argument of [requestArticle]; a missing field is [None]. *)
Record RequestData := {
  rq_input_type : string;
  rq_input_value : string;
  rq_instruction : option string;
  rq_force_refresh : option bool;
  rq_async : option bool
}.

(* ================================================================== *)
(** ** Observable events and tasks *)

(** How a promise created with [new Promise] settles. *)
Inductive Settlement :=
| Fulfilled (v : option JsObj)
| Rejected (e : JsError).

Inductive Event :=
| SetLoading (b : bool)
| SetError (e : option string)
| SetArticle (a : option JsObj)
| SetSubmitted (b : bool)
| SetSuccess (b : bool)
| SetFeedbackText (s : string)
| OnFeedbackApplied (a : JsObj)
| OnClose
| HttpPost (endpoint : string) (body : Payload)
| HttpGet (url : string)
| TimerSet (ms : nat)                  (* setTimeout(cb, ms) *)
| SetAttempts (n : nat)                (* attempts++ stores n *)
| Settle (s : Settlement)              (* resolve(v) / reject(e) *)
| Returned (fn : string) (v : option JsObj)  (* the promise of async fn settles *)
| OutOfFuel.

(** The body of an async function or of a callback:
    - [Stop]: the body ends;
    - [Act e k]: a synchronous effect, then [k];
    - [AwaitPost ep body k]: [await api.post(ep, body)], the request is
      sent and the body is suspended until the reply, on which [k] goes on
      (a rejected call is a reply too, so [k] holds the [catch] block);
    - [AwaitGet url k]: [await api.get(url)], likewise;
    - [SetTimeout cb ms k]: [setTimeout(cb, ms)], then [k];
    - [Call callee k]: [callee()] without [await], then [k]. *)
Inductive Task :=
| Stop
| Act (e : Event) (k : Task)
| AwaitPost (endpoint : string) (body : Payload) (k : SubmitReply -> Task)
| AwaitGet (url : string) (k : StatusReply -> Task)
| SetTimeout (cb : Task) (ms : nat) (k : Task)
| Call (callee : Task) (k : Task).

(** [await f(); k] for an async function [f] whose promise settles when
    its body ends: [k] runs after the body of [f], but not after the
    callbacks and the un-awaited calls that [f] started. *)
Fixpoint seq (t k : Task) : Task :=
  match t with
  | Stop => k
  | Act e t' => Act e (seq t' k)
  | AwaitPost ep b c => AwaitPost ep b (fun r => seq (c r) k)
  | AwaitGet u c => AwaitGet u (fun r => seq (c r) k)
  | SetTimeout cb ms t' => SetTimeout cb ms (seq t' k)
  | Call c t' => Call c (seq t' k)
  end.

Fixpoint acts (l : list Event) (k : Task) : Task :=
  match l with
  | [] => k
  | e :: l' => Act e (acts l' k)
  end.

(* ================================================================== *)
(** ** The event loop *)

(** A suspended computation: waiting for an HTTP reply or for a timer. *)
Inductive Suspended :=
| OnPost (k : SubmitReply -> Task)
| OnGet (k : StatusReply -> Task)
| OnTimer (ms : nat) (cb : Task).

(** Run a task until it ends or suspends.  A [Call]ed task runs up to
    its first suspension, then the caller goes on. *)
Fixpoint run_sync (t : Task) : list Event * list Suspended :=
  match t with
  | Stop => ([], [])
  | Act e k => let '(tr, s) := run_sync k in (e :: tr, s)
  | AwaitPost ep b k => ([HttpPost ep b], [OnPost k])
  | AwaitGet u k => ([HttpGet u], [OnGet k])
  | SetTimeout cb ms k =>
      let '(tr, s) := run_sync k in (TimerSet ms :: tr, OnTimer ms cb :: s)
  | Call c k =>
      let '(tr1, s1) := run_sync c in
      let '(tr2, s2) := run_sync k in
      (tr1 ++ tr2, s1 ++ s2)
  end.

(** The backend: the reply to the submission and the reply to the n-th
    status query (counted from 0). *)
Record Backend := {
  submit_reply : SubmitReply;
  status_reply : nat -> StatusReply
}.

(** Suspended computations are resumed first in, first out, one per
    turn of the loop; [answered] counts the status queries answered so
    far.  The result is the trace and what is still suspended when the
    fuel is used up.  (The hooks never have more than one request or
    timer of a poll run outstanding, so the order of arrival of replies
    does not matter to them.) *)
Fixpoint event_loop (fuel : nat) (be : Backend) (answered : nat)
    (pending : list Suspended) : list Event * list Suspended :=
  match pending with
  | [] => ([], [])
  | p :: rest =>
      match fuel with
      | O => ([], pending)
      | S fuel' =>
          let '(t, answered') :=
            match p with
            | OnPost k => (k (submit_reply be), answered)
            | OnGet k => (k (status_reply be answered), S answered)
            | OnTimer _ cb => (cb, answered)
            end in
          let '(tr, s) := run_sync t in
          let '(tr', rem) := event_loop fuel' be answered' (rest ++ s) in
          (tr ++ tr', rem)
      end
  end.

Definition run (fuel : nat) (be : Backend) (t : Task)
    : list Event * list Suspended :=
  let '(tr, s) := run_sync t in
  let '(tr', rem) := event_loop fuel be 0 s in
  (tr ++ tr', rem).

Definition trace (fuel : nat) (be : Backend) (t : Task) : list Event :=
  fst (run fuel be t).

(** The run is over: nothing is suspended any more. *)
Definition quiescent (fuel : nat) (be : Backend) (t : Task) : bool :=
  match snd (run fuel be t) with
  | [] => true
  | _ => false
  end.

(* ================================================================== *)
(** ** The generation hook (useArticleRequest) *)

Module ArticleRequest.

Definition msg_invalid_article := "Invalid article data received".
Definition msg_completed_with_errors := "Task completed with errors".
Definition msg_execution_failed := "Task execution failed".
Definition msg_timed_out :=
  "Task timed out - please try again with a shorter URL or simpler content".
Definition msg_unknown_status := "Unknown task status - please try again".
Definition msg_status_check_failed := "Failed to check task status".
Definition msg_unreachable :=
  "Failed to check task status - please try again".
Definition msg_generation_failed := "Article generation failed".
Definition msg_request_failed := "Failed to generate article".

(** handleArticleResponse *)
Definition handleArticleResponse (responseData : ResponseData) : Task :=
  match rd_article_data responseData with
  | Some article_data =>
      let articleData :=
        obj_set (obj_set (obj_set (obj_set (obj_set article_data
          "article_id" (rd_article_id responseData))
          "request_id" (rd_request_id responseData))
          "validation" (rd_validation responseData))
          "generation_time" (rd_generation_time responseData))
          "from_cache" (rd_from_cache responseData) in
      Act (SetArticle (Some articleData)) (Act (SetLoading false) Stop)
  | None =>
      Act (SetError (Some msg_invalid_article)) (Act (SetLoading false) Stop)
  end.

Section PollTaskStatus.
Variables (taskId : string) (maxAttempts interval : nat).

Definition status_url : string :=
  ("tasks/" ++ taskId ++ "/status/")%string.

(** The body of [poll] after [await api.get(...)].  [attempts] is the
    closure variable of pollTaskStatus, [again n] is what
    [setTimeout(poll, interval)] will run once [attempts] holds [n]. *)
Definition poll_cycle (again : nat -> Task) (attempts : nat)
    (reply : StatusReply) : Task :=
  match reply with
  | StatusBody true taskData =>
      if td_status taskData =? "completed" then
        match td_result taskData with
        | Some result =>
            if rd_success result then handleArticleResponse result
            else
              Act (SetError (Some (or_default (rd_error result)
                                     msg_completed_with_errors)))
                (Act (SetLoading false) Stop)
        | None =>
            Act (SetError (Some msg_completed_with_errors))
              (Act (SetLoading false) Stop)
        end
      else if td_status taskData =? "failed" then
        Act (SetError (Some (or_default (td_error taskData)
                               msg_execution_failed)))
          (Act (SetLoading false) Stop)
      else if (td_status taskData =? "processing")
              || (td_status taskData =? "pending") then
        let attempts := S attempts in
        Act (SetAttempts attempts)
          (if Nat.ltb attempts maxAttempts then
             SetTimeout (again attempts) interval Stop
           else
             Act (SetError (Some msg_timed_out))
               (Act (SetLoading false) Stop))
      else
        let attempts := S attempts in
        Act (SetAttempts attempts)
          (if Nat.ltb attempts maxAttempts then
             SetTimeout (again attempts) interval Stop
           else
             Act (SetError (Some msg_unknown_status))
               (Act (SetLoading false) Stop))
  | StatusBody false _ =>
      Act (SetError (Some msg_status_check_failed))
        (Act (SetLoading false) Stop)
  | StatusThrow _ =>
      let attempts := S attempts in
      Act (SetAttempts attempts)
        (if Nat.ltb attempts maxAttempts then
           SetTimeout (again attempts) interval Stop
         else
           Act (SetError (Some msg_unreachable))
             (Act (SetLoading false) Stop))
  end.

(** [poll], unfolded at most [fuel] more times by its own timer. *)
Fixpoint poll (fuel : nat) (attempts : nat) : Task :=
  AwaitGet status_url
    (poll_cycle
       (fun n => match fuel with
                 | S fuel' => poll fuel' n
                 | O => Act OutOfFuel Stop
                 end)
       attempts).

(** pollTaskStatus: [let attempts = 0; ...; poll();].  The call of
    [poll] is not awaited. *)
Definition pollTaskStatus : Task :=
  Call (poll maxAttempts 0) Stop.

End PollTaskStatus.

Definition default_maxAttempts : nat := 60.
Definition default_interval : nat := 3000.

Definition build_payload (requestData : RequestData) : GenerationPayload :=
  {| gp_input_type := rq_input_type requestData;
     gp_input_value := rq_input_value requestData;
     gp_instruction := or_default (rq_instruction requestData) "";
     gp_force_refresh :=
       match rq_force_refresh requestData with
       | Some b => b
       | None => false
       end;
     gp_async :=
       match rq_async requestData with
       | Some false => false
       | _ => true
       end |}.

(** requestArticle *)
Definition requestArticle (requestData : RequestData) : Task :=
  Act (SetLoading true) (Act (SetError None) (Act (SetArticle None)
    (AwaitPost "generate/" (PGeneration (build_payload requestData))
       (fun response =>
          match response with
          | PostBody true _ responseData =>
              if rd_async responseData && truthy (rd_task_id responseData)
              then
                (* await pollTaskStatus(responseData.task_id) *)
                seq (pollTaskStatus
                       (or_default (rd_task_id responseData) "")
                       default_maxAttempts default_interval) Stop
              else handleArticleResponse responseData
          | PostBody false message _ =>
              Act (SetError (Some (or_default message msg_generation_failed)))
                (Act (SetLoading false) Stop)
          | PostThrow err =>
              Act (SetError (Some (first_truthy
                     [response_message err; response_detail err;
                      err_message err] msg_request_failed)))
                (Act (SetLoading false) Stop)
          end)))).

(** A call of requestArticle, with the moment its promise settles. *)
Definition requestArticle_call (requestData : RequestData) : Task :=
  seq (requestArticle requestData) (Act (Returned "requestArticle" None) Stop).

Definition msg_invalid_url := "Please enter a valid URL".

(** ArticleRequestForm.handleSubmit; requestArticle is not awaited. *)
Definition handleSubmit (rawContent instruction : string) : Task :=
  if trim rawContent =? "" then
    Act (SetError (Some msg_invalid_url)) Stop
  else
    Act (SetError None)
      (Call (requestArticle_call
               {| rq_input_type := "url";
                  rq_input_value := trim rawContent;
                  rq_instruction := Some (trim instruction);
                  rq_force_refresh := Some false;
                  rq_async := Some true |})
         (Act (SetSubmitted true) Stop)).

End ArticleRequest.

(* ================================================================== *)
(** ** The feedback hook (useFeedback) *)

Module Feedback.

Definition msg_invalid_article := "Invalid article data received from server".
Definition msg_completed_with_errors := "Task completed with errors".
Definition msg_execution_failed := "Task execution failed".
Definition msg_timed_out := "Feedback task timed out - please try again".
Definition msg_unknown_status (status : string) : string :=
  ("Unknown task status: " ++ status)%string.
Definition msg_status_check_failed := "Failed to check task status".
Definition msg_feedback_failed := "Feedback application failed".
Definition msg_apply_failed := "Failed to apply feedback".

(** handleFeedbackResponse: the events it performs and its result. *)
Definition handleFeedbackResponse (responseData : ResponseData)
    : list Event * option JsObj :=
  let feedback_applied :=
    Some (or_default (rd_feedback_applied responseData) "true") in
  match rd_article responseData, truthy (rd_article_id responseData) with
  | Some article, true =>
      let field k := Some (or_default (obj_get article k) "") in
      ([], Some
        (obj_set (obj_set (obj_set (obj_set (obj_set (obj_set (obj_set article
           "article_id" (rd_article_id responseData))
           "feedback_applied" feedback_applied)
           "headline" (field "headline"))
           "project_details" (field "project_details"))
           "participants" (field "participants"))
           "lots" (field "lots"))
           "organizations" (field "organizations")))
  | _, _ =>
      match rd_article_data responseData with
      | Some article_data =>
          ([], Some
            (obj_set (obj_set article_data
               "article_id" (rd_article_id responseData))
               "feedback_applied" feedback_applied))
      | None => ([SetError (Some msg_invalid_article)], None)
      end
  end.

Section PollFeedbackTask.
Variables (taskId : string) (maxAttempts interval : nat).
(** What awaits the promise returned by pollFeedbackTask. *)
Variable k : Settlement -> Task.

Definition status_url : string :=
  ("tasks/" ++ taskId ++ "/status/")%string.

Definition resolve (v : option JsObj) : Task :=
  Act (Settle (Fulfilled v)) (k (Fulfilled v)).

Definition reject (e : JsError) : Task :=
  Act (Settle (Rejected e)) (k (Rejected e)).

(** The body of [poll] after [await api.get(...)]. *)
Definition poll_cycle (again : nat -> Task) (attempts : nat)
    (reply : StatusReply) : Task :=
  match reply with
  | StatusBody true taskData =>
      if td_status taskData =? "completed" then
        match td_result taskData with
        | Some result =>
            if rd_success result then
              let '(evs, v) := handleFeedbackResponse result in
              acts evs (resolve v)
            else
              let errorMsg :=
                or_default (rd_error result) msg_completed_with_errors in
              Act (SetError (Some errorMsg)) (reject (new_Error errorMsg))
        | None =>
            let errorMsg := msg_completed_with_errors in
            Act (SetError (Some errorMsg)) (reject (new_Error errorMsg))
        end
      else if td_status taskData =? "failed" then
        let errorMsg := or_default (td_error taskData) msg_execution_failed in
        Act (SetError (Some errorMsg)) (reject (new_Error errorMsg))
      else if td_status taskData =? "processing" then
        let attempts := S attempts in
        Act (SetAttempts attempts)
          (if Nat.ltb attempts maxAttempts then
             SetTimeout (again attempts) interval Stop
           else
             Act (SetError (Some msg_timed_out))
               (reject (new_Error msg_timed_out)))
      else
        let unknownMsg := msg_unknown_status (td_status taskData) in
        Act (SetError (Some unknownMsg)) (reject (new_Error unknownMsg))
  | StatusBody false _ =>
      Act (SetError (Some msg_status_check_failed))
        (reject (new_Error msg_status_check_failed))
  | StatusThrow err =>
      let pollMsg :=
        or_default (response_message err) msg_status_check_failed in
      Act (SetError (Some pollMsg)) (reject err)
  end.

Fixpoint poll (fuel : nat) (attempts : nat) : Task :=
  AwaitGet status_url
    (poll_cycle
       (fun n => match fuel with
                 | S fuel' => poll fuel' n
                 | O => Act OutOfFuel Stop
                 end)
       attempts).

(** pollFeedbackTask: [return new Promise((resolve, reject) => {...;
    poll();})].  The executor starts [poll]; the promise settles when
    [resolve] or [reject] is called. *)
Definition pollFeedbackTask : Task :=
  Call (poll maxAttempts 0) Stop.

End PollFeedbackTask.

Definition default_maxAttempts : nat := 15.
Definition default_interval : nat := 2000.

(** The text of a built-in function as a property key, as the current
    engines print it. *)
Definition native_function (name : string) : string :=
  ("function " ++ name ++ "() { [native code] }")%string.

(** The functions that the object literal [sectionMapping] inherits
    from Object.prototype under their own names. *)
Definition inherited_functions : list string :=
  ["toString"; "toLocaleString"; "valueOf"; "hasOwnProperty";
   "isPrototypeOf"; "propertyIsEnumerable"; "__defineGetter__";
   "__defineSetter__"; "__lookupGetter__"; "__lookupSetter__"].

(** [sectionMapping[section] || section], as the key of the posted
    [feedback] object.  For a name that [sectionMapping] inherits, the
    lookup yields the inherited member, which is truthy, and the key is
    its text. *)
Definition backendSection (section : string) : string :=
  if section =? "headline" then "headline"
  else if section =? "project_details" then "details"
  else if section =? "participants" then "participants"
  else if section =? "lots" then "lots"
  else if section =? "organizations" then "organizations"
  else if section =? "constructor" then native_function "Object"
  else if section =? "__proto__" then "[object Object]"
  else if existsb (String.eqb section) inherited_functions
       then native_function section
  else section.

Definition build_payload (articleId section feedbackText : string)
    : FeedbackPayload :=
  {| fp_article_id := articleId;
     fp_feedback := (backendSection section, feedbackText);
     fp_async_processing := false |}.

(** The message computed by the [catch] block of sendFeedback. *)
Definition catch_message (err : JsError) : string :=
  match err_response err with
  | Some data =>
      let errorMessage :=
        first_truthy [eb_message data; eb_detail data; eb_error data]
          msg_apply_failed in
      match eb_data data with
      | [] => errorMessage
      | validationErrors => join ", " validationErrors
      end
  | None => or_default (err_message err) msg_apply_failed
  end.

Section SendFeedback.
Variables (articleId section feedbackText : string).
(** What awaits the promise returned by sendFeedback. *)
Variable ret : option JsObj -> Task.

(** [finally { setLoading(false) }], then the function returns. *)
Definition finally_return (v : option JsObj) : Task :=
  Act (SetLoading false) (ret v).

Definition catch (err : JsError) : Task :=
  Act (SetError (Some (catch_message err))) (finally_return None).

(** sendFeedback *)
Definition sendFeedback : Task :=
  Act (SetLoading true) (Act (SetError None)
    (AwaitPost "feedback/"
       (PFeedback (build_payload articleId section feedbackText))
       (fun response =>
          match response with
          | PostBody true _ responseData =>
              if rd_async responseData && truthy (rd_task_id responseData)
              then
                (* return await pollFeedbackTask(responseData.task_id) *)
                pollFeedbackTask
                  (or_default (rd_task_id responseData) "")
                  default_maxAttempts default_interval
                  (fun s => match s with
                            | Fulfilled v => finally_return v
                            | Rejected e => catch e
                            end)
              else
                let '(evs, v) := handleFeedbackResponse responseData in
                acts evs (finally_return v)
          | PostBody false message _ =>
              Act (SetError (Some (or_default message msg_feedback_failed)))
                (finally_return None)
          | PostThrow err => catch err
          end))).

End SendFeedback.

(** A call of sendFeedback, with the moment its promise settles. *)
Definition sendFeedback_call (articleId section feedbackText : string)
    : Task :=
  sendFeedback articleId section feedbackText
    (fun v => Act (Returned "sendFeedback" v) Stop).

Definition msg_required := "Article ID and feedback text are required".

(** FeedbackModal.handleSubmit; [articleId] is a prop and may be
    missing.  sendFeedback catches every error itself, so the [catch]
    of handleSubmit is never entered. *)
Definition handleSubmit (articleId : option string)
    (section feedbackText : string) : Task :=
  if negb (truthy articleId) || (trim feedbackText =? "") then
    Act (SetError (Some msg_required)) Stop
  else
    Act (SetSuccess false) (Act (SetError None)
      (sendFeedback (or_default articleId "") section (trim feedbackText)
         (fun updatedArticle =>
            Act (Returned "sendFeedback" updatedArticle)
              match updatedArticle with
              | Some a =>
                  Act (SetSuccess true) (Act (OnFeedbackApplied a)
                    (SetTimeout
                       (Act (SetSuccess false) (Act (SetFeedbackText "")
                          (Act OnClose Stop)))
                       2000 Stop))
              | None => Stop
              end))).

End Feedback.

(* ================================================================== *)
(** ** The earlier generation hook

    The source tree holds a second, earlier copy of useArticleRequest
    (after ArticleRequestForm.jsx).  Its poller names "processing" only,
    has no branch for other statuses and does not poll again after a
    transport error. *)

Module LegacyArticleRequest.

Definition msg_timed_out := "Task timed out - please try again".

(** handleArticleResponse *)
Definition handleArticleResponse (responseData : ResponseData) : Task :=
  match rd_article_data responseData with
  | Some article_data =>
      let articleData :=
        obj_set (obj_set (obj_set (obj_set (obj_set article_data
          "article_id" (rd_article_id responseData))
          "request_id" (rd_request_id responseData))
          "validation" (rd_validation responseData))
          "generation_time" (rd_generation_time responseData))
          "from_cache" (rd_from_cache responseData) in
      Act (SetArticle (Some articleData)) Stop
  | None => Act (SetError (Some "Invalid article data received")) Stop
  end.

Section PollTaskStatus.
Variables (taskId : string) (maxAttempts interval : nat).

Definition status_url : string :=
  ("tasks/" ++ taskId ++ "/status/")%string.

Definition poll_cycle (again : nat -> Task) (attempts : nat)
    (reply : StatusReply) : Task :=
  match reply with
  | StatusBody true taskData =>
      if td_status taskData =? "completed" then
        match td_result taskData with
        | Some result =>
            if rd_success result then handleArticleResponse result
            else
              Act (SetError (Some (or_default (rd_error result)
                                     "Task completed with errors"))) Stop
        | None => Act (SetError (Some "Task completed with errors")) Stop
        end
      else if td_status taskData =? "failed" then
        Act (SetError (Some (or_default (td_error taskData)
                               "Task execution failed"))) Stop
      else if td_status taskData =? "processing" then
        let attempts := S attempts in
        Act (SetAttempts attempts)
          (if Nat.ltb attempts maxAttempts then
             SetTimeout (again attempts) interval Stop
           else Act (SetError (Some msg_timed_out)) Stop)
      else Stop
  | StatusBody false _ =>
      Act (SetError (Some "Failed to check task status")) Stop
  | StatusThrow _ =>
      Act (SetError (Some "Failed to check task status")) Stop
  end.

Fixpoint poll (fuel : nat) (attempts : nat) : Task :=
  AwaitGet status_url
    (poll_cycle
       (fun n => match fuel with
                 | S fuel' => poll fuel' n
                 | O => Act OutOfFuel Stop
                 end)
       attempts).

Definition pollTaskStatus : Task :=
  Call (poll maxAttempts 0) Stop.

End PollTaskStatus.

Definition default_maxAttempts : nat := 30.
Definition default_interval : nat := 2000.

End LegacyArticleRequest.

(* ================================================================== *)
(** ** Both pollers side by side *)

Inductive JobKind := Generation | Feedback.

(** One poll cycle of either hook.  A feedback poll run on its own has
    nothing waiting for its promise. *)
Definition poll_cycle (kind : JobKind) (maxAttempts interval : nat)
    (again : nat -> Task) (attempts : nat) (reply : StatusReply) : Task :=
  match kind with
  | Generation =>
      ArticleRequest.poll_cycle maxAttempts interval again attempts reply
  | Feedback =>
      Feedback.poll_cycle maxAttempts interval (fun _ => Stop)
        again attempts reply
  end.

Definition poll (kind : JobKind) (taskId : string)
    (maxAttempts interval fuel attempts : nat) : Task :=
  match kind with
  | Generation =>
      ArticleRequest.poll taskId maxAttempts interval fuel attempts
  | Feedback =>
      Feedback.poll taskId maxAttempts interval (fun _ => Stop) fuel attempts
  end.

(** A poll run: pollTaskStatus(taskId, maxAttempts, interval) or
    pollFeedbackTask(taskId, maxAttempts, interval). *)
Definition poll_run (kind : JobKind) (taskId : string)
    (maxAttempts interval : nat) : Task :=
  match kind with
  | Generation => ArticleRequest.pollTaskStatus taskId maxAttempts interval
  | Feedback =>
      Feedback.pollFeedbackTask taskId maxAttempts interval (fun _ => Stop)
  end.

Definition status_url (taskId : string) : string :=
  ("tasks/" ++ taskId ++ "/status/")%string.

(** What [setTimeout(poll, interval)] runs when [fuel] unfoldings of
    [poll] are left. *)
Definition again (kind : JobKind) (taskId : string)
    (maxAttempts interval fuel : nat) (n : nat) : Task :=
  match fuel with
  | S fuel' => poll kind taskId maxAttempts interval fuel' n
  | O => Act OutOfFuel Stop
  end.

(** How a terminal cycle of each hook ends after [setError(msg)]. *)
Definition ending (kind : JobKind) (msg : string) : list Event :=
  match kind with
  | Generation => [SetLoading false]
  | Feedback => [Settle (Rejected (new_Error msg))]
  end.

(** What a cycle that found an embedded success does with the result. *)
Definition decode_events (kind : JobKind) (result : ResponseData)
    : list Event :=
  match kind with
  | Generation => fst (run_sync (ArticleRequest.handleArticleResponse result))
  | Feedback =>
      let '(evs, v) := Feedback.handleFeedbackResponse result in
      evs ++ [Settle (Fulfilled v)]
  end.

Definition timeout_message (kind : JobKind) : string :=
  match kind with
  | Generation => ArticleRequest.msg_timed_out
  | Feedback => Feedback.msg_timed_out
  end.

(** [taskData.result && taskData.result.success] and
    [taskData.result?.error]. *)
Definition embedded_success (taskData : TaskData) : bool :=
  match td_result taskData with
  | Some result => rd_success result
  | None => false
  end.

Definition embedded_error (taskData : TaskData) : option string :=
  match td_result taskData with
  | Some result => rd_error result
  | None => None
  end.

(* ------------------------------------------------------------------ *)
(** *** Reading a trace *)

Definition is_query (e : Event) : bool :=
  match e with
  | HttpGet _ => true
  | _ => false
  end.

Definition is_network_call (e : Event) : bool :=
  match e with
  | HttpGet _ | HttpPost _ _ => true
  | _ => false
  end.

(** The number of status queries issued. *)
Definition queries (tr : list Event) : nat :=
  List.length (filter is_query tr).

Definition network_calls (tr : list Event) : nat :=
  List.length (filter is_network_call tr).

(** The values stored into [attempts], in order. *)
Fixpoint attempt_values (tr : list Event) : list nat :=
  match tr with
  | [] => []
  | SetAttempts n :: tr' => n :: attempt_values tr'
  | _ :: tr' => attempt_values tr'
  end.

(** The article was delivered: setArticle(article) in the generation
    hook, resolve(article) in the feedback hook. *)
Definition is_success_event (e : Event) : bool :=
  match e with
  | SetArticle (Some _) => true
  | Settle (Fulfilled (Some _)) => true
  | _ => false
  end.

Definition succeeded (tr : list Event) : bool := existsb is_success_event tr.

Definition is_out_of_fuel (e : Event) : bool :=
  match e with
  | OutOfFuel => true
  | _ => false
  end.

(** Events that a cycle ending the run may perform when [attempts] held
    the given value at its start. *)
Definition is_cycle_end_event (attempts : nat) (e : Event) : bool :=
  match e with
  | SetError (Some _) | SetArticle (Some _) | SetLoading false | Settle _ => true
  | SetAttempts n => Nat.eqb n (S attempts)
  | _ => false
  end.

(** The events of a cycle and whether it ends the run, read off the
    cycle itself. *)
Definition cycle_events (kind : JobKind) (maxAttempts interval attempts : nat)
    (reply : StatusReply) : list Event :=
  fst (run_sync (poll_cycle kind maxAttempts interval (fun _ => Stop)
                   attempts reply)).

Definition ends_run (kind : JobKind) (maxAttempts interval attempts : nat)
    (reply : StatusReply) : bool :=
  match snd (run_sync (poll_cycle kind maxAttempts interval (fun _ => Stop)
                         attempts reply)) with
  | [] => true
  | _ => false
  end.

(** The events that follow the first query of a poll run, cycle by
    cycle, when [poll] may still be unfolded [fuel] times. *)
Fixpoint cycles (kind : JobKind) (taskId : string) (maxAttempts interval : nat)
    (be : Backend) (fuel attempts answered : nat) : list Event :=
  let reply := status_reply be answered in
  if ends_run kind maxAttempts interval attempts reply then
    cycle_events kind maxAttempts interval attempts reply
  else
    SetAttempts (S attempts) :: TimerSet interval ::
    match fuel with
    | S fuel' =>
        HttpGet (status_url taskId) ::
        cycles kind taskId maxAttempts interval be fuel' (S attempts)
          (S answered)
    | O => [OutOfFuel]
    end.

(* ------------------------------------------------------------------ *)
(** *** Comparing the two pollers *)

(** Replies on which the two hooks take the same branch: a failed
    envelope, or one of the statuses both of them name. *)
Definition benign (reply : StatusReply) : bool :=
  match reply with
  | StatusThrow _ => false
  | StatusBody false _ => true
  | StatusBody true taskData =>
      (td_status taskData =? "completed")
      || (td_status taskData =? "failed")
      || (td_status taskData =? "processing")
  end.

(** The last events of a generation run and of a feedback run tell the
    same outcome. *)
Inductive same_outcome : list Event -> list Event -> Prop :=
| same_decoded (result : ResponseData) :
    same_outcome (decode_events Generation result)
                 (decode_events Feedback result)
| same_failed (msg : string) :
    same_outcome (SetError (Some msg) :: ending Generation msg)
                 (SetError (Some msg) :: ending Feedback msg)
| same_timeout (n : nat) :
    same_outcome
      (SetAttempts n :: SetError (Some (timeout_message Generation))
         :: ending Generation (timeout_message Generation))
      (SetAttempts n :: SetError (Some (timeout_message Feedback))
         :: ending Feedback (timeout_message Feedback)).

(** Events of a run that is still polling. *)
Definition is_polling_event (e : Event) : bool :=
  match e with
  | HttpGet _ | SetAttempts _ | TimerSet _ => true
  | _ => false
  end.

(* ------------------------------------------------------------------ *)
(** *** Submitting from the forms *)

(** What the user submits: the fields of the article form, or the
    article of the feedback modal with the chosen section and the text. *)
Inductive JobRequest :=
| GenerationRequest (rawContent instruction : string)
| FeedbackRequest (articleId : option string) (section feedbackText : string).

(** The required fields: a source reference for a generation, an article
    identifier and a revision text for a feedback. *)
Definition valid (request : JobRequest) : bool :=
  match request with
  | GenerationRequest rawContent _ => negb (trim rawContent =? "")
  | FeedbackRequest articleId _ feedbackText =>
      truthy articleId && negb (trim feedbackText =? "")
  end.

Definition submit (request : JobRequest) : Task :=
  match request with
  | GenerationRequest rawContent instruction =>
      ArticleRequest.handleSubmit rawContent instruction
  | FeedbackRequest articleId section feedbackText =>
      Feedback.handleSubmit articleId section feedbackText
  end.

Definition invalid_input_message (request : JobRequest) : string :=
  match request with
  | GenerationRequest _ _ => ArticleRequest.msg_invalid_url
  | FeedbackRequest _ _ _ => Feedback.msg_required
  end.

(** The asynchronous-execution flag of a request body. *)
Definition prefers_async (body : Payload) : bool :=
  match body with
  | PGeneration p => gp_async p
  | PFeedback p => fp_async_processing p
  end.

(** The bodies posted during a run. *)
Fixpoint posted (tr : list Event) : list Payload :=
  match tr with
  | [] => []
  | HttpPost _ body :: tr' => body :: posted tr'
  | _ :: tr' => posted tr'
  end.

(* ------------------------------------------------------------------ *)
(** *** What a cycle does *)

(** The cycle stores the incremented counter and sets the timer that
    runs [next]: polling goes on after [interval]. *)
Definition cycle_retries (kind : JobKind) (maxAttempts interval : nat)
    (next : nat -> Task) (attempts : nat) (reply : StatusReply) : Prop :=
  run_sync (poll_cycle kind maxAttempts interval next attempts reply) =
  ([SetAttempts (S attempts); TimerSet interval],
   [OnTimer interval (next (S attempts))]).

(** The cycle performs [evs] and leaves nothing pending: the run is
    over. *)
Definition cycle_ends_with (kind : JobKind) (maxAttempts interval : nat)
    (next : nat -> Task) (attempts : nat) (reply : StatusReply)
    (evs : list Event) : Prop :=
  run_sync (poll_cycle kind maxAttempts interval next attempts reply) =
  (evs, []).

(** The [else] branch of the status dispatch of pollTaskStatus: none of
    the four statuses the backend documents. *)
Definition unknown_status (status : string) : bool :=
  negb (status =? "completed") && negb (status =? "failed")
  && negb (status =? "processing") && negb (status =? "pending").

Definition is_transport_error (reply : StatusReply) : bool :=
  match reply with
  | StatusThrow _ => true
  | StatusBody _ _ => false
  end.

(* ------------------------------------------------------------------ *)
(** *** What a reply does to a run *)

(** In the run [tr], query number [i] (counted from 0) is the last one:
    up to it the run has only polled, storing the counter values 1 to
    [i], and after it come the events [evs] and nothing more. *)
Definition run_ends_at (taskId : string) (tr : list Event) (i : nat)
    (evs : list Event) : Prop :=
  exists pre,
    tr = pre ++ HttpGet (status_url taskId) :: evs
    /\ queries pre = i
    /\ forallb is_polling_event pre = true
    /\ attempt_values pre = List.seq 1 i.

(** In the run [tr], query number [i] is followed by the store of the
    incremented counter, the timer of [interval] and the next query. *)
Definition run_goes_on_at (taskId : string) (interval : nat)
    (tr : list Event) (i : nat) : Prop :=
  exists pre post,
    tr = pre ++ HttpGet (status_url taskId) :: SetAttempts (S i)
           :: TimerSet interval :: HttpGet (status_url taskId) :: post
    /\ queries pre = i
    /\ forallb is_polling_event pre = true
    /\ attempt_values pre = List.seq 1 i.

(* ------------------------------------------------------------------ *)
(** *** Sample data *)

(** A submission answered with [{async: true, task_id}]. *)
Definition deferred (taskId : string) : SubmitReply :=
  PostBody true None
    {| rd_success := false; rd_error := None; rd_async := true;
       rd_task_id := Some taskId; rd_article_data := None;
       rd_article := None; rd_article_id := None; rd_request_id := None;
       rd_validation := None; rd_generation_time := None;
       rd_from_cache := None; rd_feedback_applied := None |}.

(** A finished task whose result carries an article. *)
Definition article_result : ResponseData :=
  {| rd_success := true; rd_error := None; rd_async := false;
     rd_task_id := None;
     rd_article_data := Some [("headline", Some "Tender awarded")];
     rd_article := None; rd_article_id := Some "7"; rd_request_id := None;
     rd_validation := None; rd_generation_time := None;
     rd_from_cache := None; rd_feedback_applied := None |}.

(** A finished task whose result reports an error. *)
Definition failed_result : ResponseData :=
  {| rd_success := false; rd_error := Some "scrape failed"; rd_async := false;
     rd_task_id := None; rd_article_data := None; rd_article := None;
     rd_article_id := None; rd_request_id := None; rd_validation := None;
     rd_generation_time := None; rd_from_cache := None;
     rd_feedback_applied := None |}.

Definition with_status (status : string) : StatusReply :=
  StatusBody true
    {| td_status := status; td_result := None; td_error := None |}.

Definition completed_with (result : ResponseData) : StatusReply :=
  StatusBody true
    {| td_status := "completed"; td_result := Some result;
       td_error := None |}.

Definition network_error : JsError := new_Error "Network Error".

(** A backend that defers the submission to task t1 and answers every
    status query alike. *)
Definition always (reply : StatusReply) : Backend :=
  {| submit_reply := deferred "t1"; status_reply := fun _ => reply |}.

(** Task t1 is processing on the first two queries and completed with
    an article on the third. *)
Definition two_then_done : Backend :=
  {| submit_reply := deferred "t1";
     status_reply := fun n =>
       if Nat.ltb n 2 then with_status "processing"
       else completed_with article_result |}.

(** Task t1 is processing on the first two queries; the third is
    answered with [reply]. *)
Definition two_then (reply : StatusReply) : Backend :=
  {| submit_reply := deferred "t1";
     status_reply := fun n =>
       if Nat.ltb n 2 then with_status "processing" else reply |}.

(** U+00A0, the no-break space. *)
Definition no_break_space : string :=
  String (ascii_of_nat 194) (String (ascii_of_nat 160) "").

Definition url_request : RequestData :=
  {| rq_input_type := "url"; rq_input_value := "https://example.org/tender";
     rq_instruction := None; rq_force_refresh := None; rq_async := None |}.

(* ------------------------------------------------------------------ *)
(** *** The outcome of a run *)

(** How a poll run tells its outcome: the generation hook sets the
    article or the error of its state, the feedback hook settles its
    promise. *)
Definition is_outcome_event (kind : JobKind) (e : Event) : bool :=
  match kind, e with
  | Generation, SetArticle (Some _) => true
  | Generation, SetError (Some _) => true
  | Feedback, Settle _ => true
  | _, _ => false
  end.

Definition outcomes (kind : JobKind) (tr : list Event) : nat :=
  List.length (filter (is_outcome_event kind) tr).

(** The events of requestArticle up to the moment its promise settles,
    when the submission is deferred to task [taskId]. *)
Definition deferred_prefix (requestData : RequestData) (taskId : string)
    : list Event :=
  [SetLoading true; SetError None; SetArticle None;
   HttpPost "generate/"
     (PGeneration (ArticleRequest.build_payload requestData));
   HttpGet (status_url taskId);
   Returned "requestArticle" None].

(** The submission was deferred: [responseData.async &&
    responseData.task_id] in a successful envelope. *)
Definition is_deferred (reply : SubmitReply) : bool :=
  match reply with
  | PostBody true _ responseData =>
      rd_async responseData && truthy (rd_task_id responseData)
  | _ => false
  end.

Definition deferred_task (reply : SubmitReply) : string :=
  match reply with
  | PostBody _ _ responseData => or_default (rd_task_id responseData) ""
  | PostThrow _ => ""
  end.

Definition is_return (e : Event) : bool :=
  match e with
  | Returned _ _ => true
  | _ => false
  end.

(** How often the promise of a hook function settled. *)
Definition returns (tr : list Event) : nat :=
  List.length (filter is_return tr).

Definition is_loading_off (e : Event) : bool :=
  match e with
  | SetLoading false => true
  | _ => false
  end.

(** How often [setLoading(false)] was called. *)
Definition loading_off (tr : list Event) : nat :=
  List.length (filter is_loading_off tr).

(** The settlements of the promise of pollFeedbackTask, in order. *)
Fixpoint settlements (tr : list Event) : list Settlement :=
  match tr with
  | [] => []
  | Settle s :: tr' => s :: settlements tr'
  | _ :: tr' => settlements tr'
  end.

(** What sendFeedback does once the promise of pollFeedbackTask has
    settled: the [catch] block on a rejection, then [finally], then the
    return. *)
Definition after_poll (s : Settlement) : list Event :=
  match s with
  | Fulfilled v => [SetLoading false; Returned "sendFeedback" v]
  | Rejected e =>
      [SetError (Some (Feedback.catch_message e)); SetLoading false;
       Returned "sendFeedback" None]
  end.

(** The events of sendFeedback up to its first status query, when the
    submission is deferred to task [taskId]. *)
Definition feedback_prefix (articleId section feedbackText taskId : string)
    : list Event :=
  [SetLoading true; SetError None;
   HttpPost "feedback/"
     (PFeedback (Feedback.build_payload articleId section feedbackText));
   HttpGet (status_url taskId)].

(* ================================================================== *)
(** ** Further definitions for the response handlers *)

(** The fields that handleArticleResponse takes from the response
    itself, overriding fields of the same name in [article_data]. *)
Definition metadata_keys : list string :=
  ["article_id"; "request_id"; "validation"; "generation_time";
   "from_cache"].

(** The section fields that handleFeedbackResponse fills in. *)
Definition section_keys : list string :=
  ["headline"; "project_details"; "participants"; "lots"; "organizations"].

(** How often [setError] was called with a message. *)
Definition is_error (e : Event) : bool :=
  match e with
  | SetError (Some _) => true
  | _ => false
  end.

Definition errors (tr : list Event) : nat :=
  List.length (filter is_error tr).

(** An error message, when one is set, is not the empty string (an
    empty message is falsy and the forms would show nothing). *)
Definition error_shown (e : Event) : bool :=
  match e with
  | SetError (Some m) => negb (m =? "")
  | _ => true
  end.

(** A status query, when one is issued, goes to the given URL. *)
Definition query_to (url : string) (e : Event) : bool :=
  match e with
  | HttpGet u => u =? url
  | _ => true
  end.

(** The delays of the timers set, in order. *)
Fixpoint timers (tr : list Event) : list nat :=
  match tr with
  | [] => []
  | TimerSet ms :: tr' => ms :: timers tr'
  | _ :: tr' => timers tr'
  end.

(** What requestArticle does when the submission is answered at once:
    it tells the outcome, sets loading to false and returns. *)
Definition immediate_generation (requestData : RequestData)
    (reply : SubmitReply) : list Event :=
  [SetLoading true; SetError None; SetArticle None;
   HttpPost "generate/"
     (PGeneration (ArticleRequest.build_payload requestData))]
  ++ match reply with
     | PostThrow err =>
         [SetError (Some (first_truthy
                      [response_message err; response_detail err;
                       err_message err] ArticleRequest.msg_request_failed));
          SetLoading false]
     | PostBody false message _ =>
         [SetError (Some (or_default message
                            ArticleRequest.msg_generation_failed));
          SetLoading false]
     | PostBody true _ responseData =>
         fst (run_sync (ArticleRequest.handleArticleResponse responseData))
     end
  ++ [Returned "requestArticle" None].

(** What sendFeedback does when the submission is answered at once. *)
Definition immediate_feedback (articleId section feedbackText : string)
    (reply : SubmitReply) : list Event :=
  [SetLoading true; SetError None;
   HttpPost "feedback/"
     (PFeedback (Feedback.build_payload articleId section feedbackText))]
  ++ match reply with
     | PostThrow err =>
         [SetError (Some (Feedback.catch_message err)); SetLoading false;
          Returned "sendFeedback" None]
     | PostBody false message _ =>
         [SetError (Some (or_default message Feedback.msg_feedback_failed));
          SetLoading false; Returned "sendFeedback" None]
     | PostBody true _ responseData =>
         fst (Feedback.handleFeedbackResponse responseData)
         ++ [SetLoading false;
             Returned "sendFeedback"
               (snd (Feedback.handleFeedbackResponse responseData))]
     end.

Definition is_post (e : Event) : bool :=
  match e with
  | HttpPost _ _ => true
  | _ => false
  end.

(** The number of submissions posted. *)
Definition posts (tr : list Event) : nat :=
  List.length (filter is_post tr).

(** The promise of pollFeedbackTask is fulfilled with an article only
    by a cycle that set no error; it is fulfilled with null or rejected
    only by a cycle that set one. *)
Definition settled_with_error (s : Settlement) (tr : list Event) : Prop :=
  match s with
  | Fulfilled (Some _) => errors tr = 0
  | _ => errors tr = 1
  end.


(** The feedback modal reports a success: it shows the success message,
    hands the article to its parent or closes itself. *)
Definition is_modal_success (e : Event) : bool :=
  match e with
  | SetSuccess true => true
  | OnFeedbackApplied _ => true
  | OnClose => true
  | _ => false
  end.

(** What FeedbackModal.handleSubmit does after sendFeedback has
    returned [v]. *)
Definition after_submit (v : option JsObj) : list Event :=
  match v with
  | Some a =>
      [SetSuccess true; OnFeedbackApplied a; TimerSet 2000;
       SetSuccess false; SetFeedbackText ""; OnClose]
  | None => []
  end.

(* ================================================================== *)
(** ** What the article form shows

    The state that ArticleRequestForm renders from: [loading], [error]
    and [article] of the generation hook and its own [submitted]. *)

Record FormView := {
  st_loading : bool;
  st_error : option string;
  st_article : option JsObj;
  st_submitted : bool
}.

(** The state after one event; events of other components leave it as
    it is. *)
Definition apply_event (st : FormView) (e : Event) : FormView :=
  match e with
  | SetLoading b =>
      {| st_loading := b; st_error := st_error st;
         st_article := st_article st; st_submitted := st_submitted st |}
  | SetError m =>
      {| st_loading := st_loading st; st_error := m;
         st_article := st_article st; st_submitted := st_submitted st |}
  | SetArticle a =>
      {| st_loading := st_loading st; st_error := st_error st;
         st_article := a; st_submitted := st_submitted st |}
  | SetSubmitted b =>
      {| st_loading := st_loading st; st_error := st_error st;
         st_article := st_article st; st_submitted := b |}
  | _ => st
  end.

Definition view_after (st : FormView) (tr : list Event) : FormView :=
  fold_left apply_event tr st.

Definition has_article (st : FormView) : bool :=
  match st_article st with
  | Some _ => true
  | None => false
  end.

(** [{!submitted && (...)}]: the request form. *)
Definition form_panel (st : FormView) : bool := negb (st_submitted st).

(** [{submitted && loading && (...)}] *)
Definition loading_panel (st : FormView) : bool :=
  st_submitted st && st_loading st.

(** [{submitted && error && !loading && (...)}] *)
Definition error_panel (st : FormView) : bool :=
  st_submitted st && truthy (st_error st) && negb (st_loading st).

(** [{submitted && article && !loading && !error && (...)}] *)
Definition article_panel (st : FormView) : bool :=
  st_submitted st && has_article st && negb (st_loading st)
  && negb (truthy (st_error st)).

(** The event by which the generation hook tells an outcome that the
    form can show: an article, or an error message that is not empty. *)
Definition is_shown_outcome (e : Event) : bool :=
  match e with
  | SetArticle (Some _) => true
  | SetError (Some m) => negb (m =? "")
  | _ => false
  end.

(** Events that change what the article form renders from. *)
Definition is_view_event (e : Event) : bool :=
  match e with
  | SetLoading _ | SetError _ | SetArticle _ | SetSubmitted _ => true
  | _ => false
  end.

Definition view_quiet (tr : list Event) : bool :=
  forallb (fun e => negb (is_view_event e)) tr.

(* ================================================================== *)
(** ** The article text of the form

    [renderArticleContent] and [getCombinedArticleContent] of
    ArticleRequestForm.jsx; the article panel shows
    [renderArticleContent(getCombinedArticleContent())].  The fields of
    the article are strings here, as the backend sends them. *)

(** The line feed of the string literals ["\n"]. *)
Definition LF : ascii := ascii_of_nat 10.

Definition nl : string := String LF "".

(** [s.split("\n")]. *)
Fixpoint split_lines (s : string) : list string :=
  match s with
  | EmptyString => [""]
  | String c s' =>
      if Ascii.eqb c LF then "" :: split_lines s'
      else match split_lines s' with
           | l :: ls => String c l :: ls
           | [] => [String c ""]
           end
  end.

(** A rendered [<p key={index}>{paragraph}</p>]. *)
Record Paragraph := {
  p_key : nat;
  p_text : string
}.

(** [lines.map((paragraph, index) => ...)] from [index] on: [null] for a
    blank line, a paragraph otherwise. *)
Fixpoint render_lines (index : nat) (lines : list string)
  : list (option Paragraph) :=
  match lines with
  | [] => []
  | paragraph :: rest =>
      (if trim paragraph =? "" then None
       else Some {| p_key := index; p_text := paragraph |})
      :: render_lines (S index) rest
  end.

(** renderArticleContent *)
Definition renderArticleContent (content : option string)
  : option (list (option Paragraph)) :=
  if negb (truthy content) then None
  else Some (render_lines 0 (split_lines (or_default content ""))).

(** One [if (article.f) combinedContent.push(prefix + article.f)]. *)
Definition push_field (article : JsObj) (field prefix : string)
  (combinedContent : list string) : list string :=
  if truthy (obj_get article field)
  then combinedContent ++ [(prefix ++ or_default (obj_get article field) "")%string]
  else combinedContent.

(** getCombinedArticleContent *)
Definition getCombinedArticleContent (article : option JsObj)
  : option string :=
  match article with
  | None => None
  | Some article =>
      let combinedContent := [] in
      let combinedContent := push_field article "content" "" combinedContent in
      let combinedContent :=
        push_field article "summary" (nl ++ nl ++ "SUMMARY:" ++ nl) combinedContent in
      let combinedContent :=
        push_field article "project_details"
          (nl ++ nl ++ "PROJECT DETAILS:" ++ nl) combinedContent in
      let combinedContent :=
        push_field article "participants"
          (nl ++ nl ++ "PARTICIPANTS:" ++ nl) combinedContent in
      let combinedContent :=
        push_field article "organizations"
          (nl ++ nl ++ "ORGANIZATIONS:" ++ nl) combinedContent in
      let combinedContent :=
        push_field article "lots" (nl ++ nl ++ "LOTS:" ++ nl) combinedContent in
      let combinedContent :=
        push_field article "key_points"
          (nl ++ nl ++ "KEY POINTS:" ++ nl) combinedContent in
      Some (join "" combinedContent)
  end.

(** The sections of the combined text after the main content, with the
    heading each one is announced by. *)
Definition headed_sections : list (string * string) :=
  [("summary", "SUMMARY:"); ("project_details", "PROJECT DETAILS:");
   ("participants", "PARTICIPANTS:"); ("organizations", "ORGANIZATIONS:");
   ("lots", "LOTS:"); ("key_points", "KEY POINTS:")].

Definition text_fields : list string :=
  "content" :: map fst headed_sections.

(** The texts of the rendered paragraphs, in order. *)
Fixpoint paragraph_texts (entries : list (option Paragraph)) : list string :=
  match entries with
  | [] => []
  | Some p :: rest => p_text p :: paragraph_texts rest
  | None :: rest => paragraph_texts rest
  end.

Definition no_line_feed (s : string) : bool :=
  forallb (fun c => negb (Ascii.eqb c LF)) (list_ascii_of_string s).

(** The text one field contributes to the combined article. *)
Definition field_text (article : JsObj) (field prefix : string) : string :=
  if truthy (obj_get article field)
  then (prefix ++ or_default (obj_get article field) "")%string
  else "".

(** A line that is rendered: it is not blank. *)
Definition nonblank (line : string) : bool := negb (trim line =? "").

(** A text that is empty or begins a new line. *)
Definition opens_line (s : string) : Prop :=
  s = "" \/ exists r, s = (nl ++ r)%string.

(** The paragraphs of one headed section: its heading, then the
    non-blank lines of its text; nothing when the article has no such
    section. *)
Definition section_paragraphs (article : JsObj) (section : string * string)
    : list string :=
  if truthy (obj_get article (fst section))
  then snd section
       :: filter nonblank
            (split_lines (or_default (obj_get article (fst section)) ""))
  else [].

(** What the article panel is to show: the non-blank lines of the main
    content, then the sections in the order of the source. *)
Definition article_paragraphs (article : JsObj) : list string :=
  filter nonblank (split_lines (or_default (obj_get article "content") ""))
  ++ flat_map (section_paragraphs article) headed_sections.

(** The text that the sections [l] contribute to the combined text. *)
Fixpoint sections_text (article : JsObj) (l : list (string * string))
    : string :=
  match l with
  | [] => ""
  | section :: l' =>
      (field_text article (fst section) (nl ++ nl ++ snd section ++ nl)
       ++ sections_text article l')%string
  end.

(* ================================================================== *)
(** ** The submission of the earlier generation hook

    [requestArticle] of the copy of useArticleRequest stored after
    ArticleRequestForm.jsx: the three branches of the [try] block are
    followed by [finally { setLoading(false) }]. *)

Module LegacyRequest.

(** requestArticle *)
Definition requestArticle (requestData : RequestData) : Task :=
  Act (SetLoading true) (Act (SetError None) (Act (SetArticle None)
    (AwaitPost "generate/"
       (PGeneration (ArticleRequest.build_payload requestData))
       (fun response =>
          seq
            match response with
            | PostBody true _ responseData =>
                if rd_async responseData && truthy (rd_task_id responseData)
                then
                  (* await pollTaskStatus(responseData.task_id) *)
                  seq (LegacyArticleRequest.pollTaskStatus
                         (or_default (rd_task_id responseData) "")
                         LegacyArticleRequest.default_maxAttempts
                         LegacyArticleRequest.default_interval) Stop
                else LegacyArticleRequest.handleArticleResponse responseData
            | PostBody false message _ =>
                Act (SetError (Some (or_default message
                                       "Article generation failed"))) Stop
            | PostThrow err =>
                Act (SetError (Some (first_truthy
                       [response_message err; response_detail err;
                        err_message err] "Failed to generate article"))) Stop
            end
            (* finally *)
            (Act (SetLoading false) Stop))))).

End LegacyRequest.

(** The events with which the earlier hook starts a deferred
    submission: up to the first status query and the [finally] block. *)
Definition legacy_deferred_prefix (requestData : RequestData)
  (taskId : string) : list Event :=
  [SetLoading true; SetError None; SetArticle None;
   HttpPost "generate/"
     (PGeneration (ArticleRequest.build_payload requestData));
   HttpGet (LegacyArticleRequest.status_url taskId);
   SetLoading false].

Definition is_set_loading (e : Event) : bool :=
  match e with
  | SetLoading _ => true
  | _ => false
  end.

(** An outcome of the generation hooks: an article or an error. *)
Definition is_generation_outcome (e : Event) : bool :=
  match e with
  | SetArticle (Some _) | SetError (Some _) => true
  | _ => false
  end.

(** A task none of whose events, now or after any reply, satisfies
    [P]. *)
Inductive avoids (P : Event -> bool) : Task -> Prop :=
| avoids_Stop : avoids P Stop
| avoids_Act e k : P e = false -> avoids P k -> avoids P (Act e k)
| avoids_AwaitPost ep b k :
    P (HttpPost ep b) = false -> (forall r, avoids P (k r)) ->
    avoids P (AwaitPost ep b k)
| avoids_AwaitGet u k :
    P (HttpGet u) = false -> (forall r, avoids P (k r)) ->
    avoids P (AwaitGet u k)
| avoids_SetTimeout cb ms k :
    P (TimerSet ms) = false -> avoids P cb -> avoids P k ->
    avoids P (SetTimeout cb ms k)
| avoids_Call c k : avoids P c -> avoids P k -> avoids P (Call c k).

Definition suspended_avoids (P : Event -> bool) (s : Suspended) : Prop :=
  match s with
  | OnPost k => forall r, avoids P (k r)
  | OnGet k => forall r, avoids P (k r)
  | OnTimer _ cb => avoids P cb
  end.

(* ================================================================== *)
(** * Properties *)

(** ** The event loop *)

Lemma run_sync_acts (evs : list Event) (t : Task) :
  run_sync (acts evs t) = (evs ++ fst (run_sync t), snd (run_sync t)).
Proof.
  induction evs as [|e evs IH]; simpl.
  - destruct (run_sync t); reflexivity.
  - rewrite IH. reflexivity.
Qed.

Lemma event_loop_nil (fuel : nat) (be : Backend) (i : nat) :
  event_loop fuel be i [] = ([], []).
Proof. destruct fuel; reflexivity. Qed.

(** One turn of the loop on a single pending status query. *)
Lemma event_loop_get (fuel : nat) (be : Backend) (i : nat)
    (k : StatusReply -> Task) :
  event_loop (S fuel) be i [OnGet k] =
  (fst (run_sync (k (status_reply be i)))
     ++ fst (event_loop fuel be (S i) (snd (run_sync (k (status_reply be i))))),
   snd (event_loop fuel be (S i) (snd (run_sync (k (status_reply be i)))))).
Proof.
  simpl. destruct (run_sync (k (status_reply be i))) as [tr s]. simpl.
  destruct (event_loop fuel be (S i) s). reflexivity.
Qed.

(** One turn of the loop on a single pending timer. *)
Lemma event_loop_timer (fuel : nat) (be : Backend) (i ms : nat) (cb : Task) :
  event_loop (S fuel) be i [OnTimer ms cb] =
  (fst (run_sync cb) ++ fst (event_loop fuel be i (snd (run_sync cb))),
   snd (event_loop fuel be i (snd (run_sync cb)))).
Proof.
  simpl. destruct (run_sync cb) as [tr s]. simpl.
  destruct (event_loop fuel be i s). reflexivity.
Qed.

(** One turn of the loop on a single pending submission. *)
Lemma event_loop_post (fuel : nat) (be : Backend) (i : nat)
    (k : SubmitReply -> Task) :
  event_loop (S fuel) be i [OnPost k] =
  (fst (run_sync (k (submit_reply be)))
     ++ fst (event_loop fuel be i (snd (run_sync (k (submit_reply be))))),
   snd (event_loop fuel be i (snd (run_sync (k (submit_reply be)))))).
Proof.
  simpl. destruct (run_sync (k (submit_reply be))) as [tr s]. simpl.
  destruct (event_loop fuel be i s). reflexivity.
Qed.

(** ** One poll cycle *)

Lemma poll_unfold (kind : JobKind) (taskId : string)
    (maxAttempts interval fuel attempts : nat) :
  poll kind taskId maxAttempts interval fuel attempts =
  AwaitGet (status_url taskId)
    (poll_cycle kind maxAttempts interval
       (again kind taskId maxAttempts interval fuel) attempts).
Proof. destruct kind, fuel; reflexivity. Qed.

Ltac split_status td :=
  destruct (td_status td =? "completed") eqn:?;
  [ destruct (td_result td) as [result|] eqn:?;
    [ destruct (rd_success result) eqn:? | ]
  | destruct (td_status td =? "failed") eqn:?;
    [ | destruct (td_status td =? "processing") eqn:?;
        [ | destruct (td_status td =? "pending") eqn:? ] ] ].

Ltac split_budget :=
  match goal with
  | |- context [Nat.ltb ?a ?b] => destruct (Nat.ltb a b) eqn:?
  | _ => idtac
  end.

(** A cycle either ends the run with its own events, or stores the
    incremented counter and sets the timer that polls again. *)
Lemma cycle_shape (kind : JobKind) (maxAttempts interval : nat)
    (next : nat -> Task) (attempts : nat) (reply : StatusReply) :
  run_sync (poll_cycle kind maxAttempts interval next attempts reply) =
  if ends_run kind maxAttempts interval attempts reply
  then (cycle_events kind maxAttempts interval attempts reply, [])
  else ([SetAttempts (S attempts); TimerSet interval],
        [OnTimer interval (next (S attempts))]).
Proof.
  unfold ends_run, cycle_events, poll_cycle,
    ArticleRequest.poll_cycle, Feedback.poll_cycle.
  destruct kind, reply as [err | [|] td]; try reflexivity.
  - simpl. split_budget; reflexivity.
  - split_status td; simpl; split_budget; try reflexivity.
    unfold ArticleRequest.handleArticleResponse.
    destruct (rd_article_data result); reflexivity.
  - split_status td; simpl; split_budget; try reflexivity.
    all: destruct (Feedback.handleFeedbackResponse result) as [evs v];
      rewrite run_sync_acts; reflexivity.
Qed.

Lemma cycle_events_end (kind : JobKind) (maxAttempts interval attempts : nat)
    (reply : StatusReply) :
  ends_run kind maxAttempts interval attempts reply = true ->
  forallb (is_cycle_end_event attempts)
    (cycle_events kind maxAttempts interval attempts reply) = true.
Proof.
  unfold ends_run, cycle_events, poll_cycle,
    ArticleRequest.poll_cycle, Feedback.poll_cycle.
  destruct kind, reply as [err | [|] td]; try reflexivity.
  - simpl. split_budget; simpl; rewrite ?Nat.eqb_refl; try reflexivity. discriminate.
  - split_status td; simpl; split_budget; simpl; rewrite ?Nat.eqb_refl;
      try reflexivity; try discriminate.
    unfold ArticleRequest.handleArticleResponse.
    destruct (rd_article_data result); reflexivity.
  - split_status td; simpl; split_budget; simpl; rewrite ?Nat.eqb_refl;
      try reflexivity; try discriminate.
    all: unfold Feedback.handleFeedbackResponse;
      destruct (rd_article result), (truthy (rd_article_id result)),
        (rd_article_data result); reflexivity.
Qed.

Lemma retry_budget (kind : JobKind) (maxAttempts interval attempts : nat)
    (reply : StatusReply) :
  ends_run kind maxAttempts interval attempts reply = false ->
  S attempts < maxAttempts.
Proof.
  unfold ends_run, poll_cycle, ArticleRequest.poll_cycle, Feedback.poll_cycle.
  destruct kind, reply as [err | [|] td]; try discriminate.
  - simpl. split_budget; simpl; try discriminate. intros _. now apply Nat.ltb_lt.
  - split_status td; simpl; split_budget; simpl; try discriminate;
      try (intros _; now apply Nat.ltb_lt).
    unfold ArticleRequest.handleArticleResponse.
    destruct (rd_article_data result); discriminate.
  - split_status td; simpl; split_budget; simpl; try discriminate;
      try (intros _; now apply Nat.ltb_lt).
    all: destruct (Feedback.handleFeedbackResponse result) as [evs v];
      rewrite run_sync_acts; discriminate.
Qed.

Section PollRun.
Variables (kind : JobKind) (taskId : string) (maxAttempts interval : nat).
Variable be : Backend.

Lemma cycles_unfold (fuel attempts answered : nat) :
  cycles kind taskId maxAttempts interval be fuel attempts answered =
  if ends_run kind maxAttempts interval attempts (status_reply be answered)
  then cycle_events kind maxAttempts interval attempts
         (status_reply be answered)
  else
    SetAttempts (S attempts) :: TimerSet interval ::
    match fuel with
    | S fuel' =>
        HttpGet (status_url taskId) ::
        cycles kind taskId maxAttempts interval be fuel' (S attempts)
          (S answered)
    | O => [OutOfFuel]
    end.
Proof. destruct fuel; reflexivity. Qed.

(** The event loop on a pending status query produces the cycles. *)
Lemma poll_loop (fuel loop_fuel attempts answered : nat) :
  2 * fuel + 2 <= loop_fuel ->
  event_loop loop_fuel be answered
    [OnGet (poll_cycle kind maxAttempts interval
              (again kind taskId maxAttempts interval fuel) attempts)] =
  (cycles kind taskId maxAttempts interval be fuel attempts answered, []).
Proof.
  revert loop_fuel attempts answered.
  induction fuel as [|fuel IH]; intros loop_fuel attempts answered Hfuel.
  - destruct loop_fuel as [|[|n]]; try lia.
    rewrite event_loop_get, cycle_shape, cycles_unfold.
    destruct (ends_run _ _ _ _ _); cbn [fst snd].
    + rewrite event_loop_nil. cbn [fst snd]. now rewrite app_nil_r.
    + rewrite event_loop_timer. cbn [again run_sync fst snd].
      rewrite event_loop_nil. reflexivity.
  - destruct loop_fuel as [|[|n]]; try lia.
    rewrite event_loop_get, cycle_shape, cycles_unfold.
    destruct (ends_run _ _ _ _ _); cbn [fst snd].
    + rewrite event_loop_nil. cbn [fst snd]. now rewrite app_nil_r.
    + rewrite event_loop_timer. cbn [again]. rewrite poll_unfold.
      cbn [run_sync fst snd]. rewrite IH by lia. reflexivity.
Qed.

(** A complete poll run: the first query, then the cycles. *)
Lemma poll_run_trace (loop_fuel : nat) :
  2 * maxAttempts + 2 <= loop_fuel ->
  run loop_fuel be (poll_run kind taskId maxAttempts interval) =
  (HttpGet (status_url taskId)
     :: cycles kind taskId maxAttempts interval be maxAttempts 0 0, []).
Proof.
  intros Hfuel. unfold run.
  assert (Hs : run_sync (poll_run kind taskId maxAttempts interval) =
               ([HttpGet (status_url taskId)],
                [OnGet (poll_cycle kind maxAttempts interval
                   (again kind taskId maxAttempts interval maxAttempts) 0)])).
  { pose proof (poll_unfold kind taskId maxAttempts interval maxAttempts 0) as Hp.
    destruct kind; unfold poll_run, ArticleRequest.pollTaskStatus,
      Feedback.pollFeedbackTask; cbn [run_sync]; unfold poll in Hp;
      rewrite Hp; reflexivity. }
  rewrite Hs, poll_loop by lia. reflexivity.
Qed.
End PollRun.

(** ** Reading traces *)

Lemma queries_app (tr1 tr2 : list Event) :
  queries (tr1 ++ tr2) = queries tr1 + queries tr2.
Proof. unfold queries. now rewrite filter_app, length_app. Qed.

Lemma attempt_values_app (tr1 tr2 : list Event) :
  attempt_values (tr1 ++ tr2) = attempt_values tr1 ++ attempt_values tr2.
Proof.
  induction tr1 as [|e tr1 IH]; [reflexivity|].
  destruct e; simpl; now rewrite IH.
Qed.

Lemma end_events_no_query (attempts : nat) (tr : list Event) :
  forallb (is_cycle_end_event attempts) tr = true -> queries tr = 0.
Proof.
  induction tr as [|e tr IH]; [reflexivity|]. simpl.
  intros H. apply andb_prop in H as [He Htr].
  destruct e; try discriminate; apply IH; assumption.
Qed.

Lemma end_events_attempts (attempts : nat) (tr : list Event) :
  forallb (is_cycle_end_event attempts) tr = true ->
  Forall (fun n => n = S attempts) (attempt_values tr).
Proof.
  induction tr as [|e tr IH]; [constructor|]. simpl.
  intros H. apply andb_prop in H as [He Htr].
  destruct e; try discriminate; auto.
  constructor; [now apply Nat.eqb_eq | auto].
Qed.

Lemma end_events_in_fuel (attempts : nat) (tr : list Event) :
  forallb (is_cycle_end_event attempts) tr = true ->
  existsb is_out_of_fuel tr = false.
Proof.
  induction tr as [|e tr IH]; [reflexivity|]. simpl.
  intros H. apply andb_prop in H as [He Htr].
  destruct e; try discriminate; auto.
Qed.

Section PollBounds.
Variables (kind : JobKind) (taskId : string) (maxAttempts interval : nat).
Variable be : Backend.

Lemma cycles_queries (fuel attempts answered : nat) :
  attempts < maxAttempts ->
  queries (cycles kind taskId maxAttempts interval be fuel attempts answered)
    + S attempts <= maxAttempts.
Proof.
  revert attempts answered.
  induction fuel as [|fuel IH]; intros attempts answered Hlt;
    rewrite cycles_unfold;
    destruct (ends_run _ _ _ _ _) eqn:Hend.
  - rewrite (end_events_no_query attempts) by now apply cycle_events_end.
    lia.
  - apply retry_budget in Hend. cbn. lia.
  - rewrite (end_events_no_query attempts) by now apply cycle_events_end.
    lia.
  - apply retry_budget in Hend.
    specialize (IH (S attempts) (S answered) Hend).
    change (queries (SetAttempts (S attempts) :: TimerSet interval ::
              HttpGet (status_url taskId) :: ?l))
      with (S (queries l)).
    lia.
Qed.

Lemma cycles_attempts (fuel attempts answered : nat) :
  attempts < maxAttempts ->
  Forall (fun n => n <= maxAttempts)
    (attempt_values
       (cycles kind taskId maxAttempts interval be fuel attempts answered)).
Proof.
  revert attempts answered.
  induction fuel as [|fuel IH]; intros attempts answered Hlt;
    rewrite cycles_unfold;
    destruct (ends_run _ _ _ _ _) eqn:Hend.
  - eapply Forall_impl; [|apply (end_events_attempts attempts);
      now apply cycle_events_end]. intros n ->. lia.
  - apply retry_budget in Hend. cbn. constructor; [lia | constructor].
  - eapply Forall_impl; [|apply (end_events_attempts attempts);
      now apply cycle_events_end]. intros n ->. lia.
  - apply retry_budget in Hend. cbn. constructor; [lia | now apply IH].
Qed.

Lemma cycles_in_fuel (fuel attempts answered : nat) :
  maxAttempts <= attempts + fuel + 1 ->
  existsb is_out_of_fuel
    (cycles kind taskId maxAttempts interval be fuel attempts answered)
  = false.
Proof.
  revert attempts answered.
  induction fuel as [|fuel IH]; intros attempts answered Hle;
    rewrite cycles_unfold;
    destruct (ends_run _ _ _ _ _) eqn:Hend.
  - apply (end_events_in_fuel attempts). now apply cycle_events_end.
  - apply retry_budget in Hend. lia.
  - apply (end_events_in_fuel attempts). now apply cycle_events_end.
  - cbn. apply IH. lia.
Qed.
End PollBounds.

(** ** Runs with less fuel are prefixes *)

Lemma event_loop_cons (fuel : nat) (be : Backend) (answered : nat)
    (p : Suspended) (rest : list Suspended) :
  event_loop (S fuel) be answered (p :: rest) =
  let '(t, answered') :=
    match p with
    | OnPost k => (k (submit_reply be), answered)
    | OnGet k => (k (status_reply be answered), S answered)
    | OnTimer _ cb => (cb, answered)
    end in
  let '(tr, s) := run_sync t in
  let '(tr', rem) := event_loop fuel be answered' (rest ++ s) in
  (tr ++ tr', rem).
Proof. reflexivity. Qed.

Lemma event_loop_prefix (fuel : nat) (be : Backend) :
  forall (answered : nat) (pending : list Suspended),
  exists more,
    fst (event_loop (S fuel) be answered pending) =
    fst (event_loop fuel be answered pending) ++ more.
Proof.
  induction fuel as [|fuel IH]; intros answered pending.
  - destruct pending; simpl; eexists; reflexivity.
  - destruct pending as [|p rest]; [exists []; reflexivity|].
    rewrite !event_loop_cons.
    destruct (match p with
              | OnPost k => (k (submit_reply be), answered)
              | OnGet k => (k (status_reply be answered), S answered)
              | OnTimer _ cb => (cb, answered)
              end) as [t answered'].
    destruct (run_sync t) as [tr s].
    destruct (IH answered' (rest ++ s)) as [more Hmore].
    destruct (event_loop (S fuel) be answered' (rest ++ s)) as [tr1 rem1].
    destruct (event_loop fuel be answered' (rest ++ s)) as [tr0 rem0].
    cbn [fst] in *. exists more. rewrite Hmore. now rewrite app_assoc.
Qed.

Lemma trace_prefix (fuel more_fuel : nat) (be : Backend) (t : Task) :
  exists more,
    trace (fuel + more_fuel) be t = trace fuel be t ++ more.
Proof.
  induction more_fuel as [|n [more IH]].
  - exists []. now rewrite Nat.add_0_r, app_nil_r.
  - replace (fuel + S n) with (S (fuel + n)) by lia.
    unfold trace, run in *. destruct (run_sync t) as [tr s].
    destruct (event_loop_prefix (fuel + n) be 0 s) as [more' Hmore'].
    destruct (event_loop (S (fuel + n)) be 0 s) as [tr2 rem2].
    destruct (event_loop (fuel + n) be 0 s) as [tr1 rem1].
    destruct (event_loop fuel be 0 s) as [tr0 rem0].
    cbn [fst] in *. exists (more ++ more').
    rewrite Hmore', app_assoc, IH. now rewrite <- !app_assoc.
Qed.

(** ** What one poll cycle does on a reply *)

(** In both hooks a cycle that reads an envelope with success = false
    sets the error "Failed to check task status" and ends; the attempt
    counter is not stored and no timer is set. *)
Lemma failed_envelope_cycle (kind : JobKind) (maxAttempts interval : nat)
    (next : nat -> Task) (attempts : nat) (taskData : TaskData) :
  cycle_ends_with kind maxAttempts interval next attempts
    (StatusBody false taskData)
    (SetError (Some "Failed to check task status")
       :: ending kind "Failed to check task status").
Proof. destruct kind; reflexivity. Qed.

(** In both hooks a cycle that reads the status "completed" ends and
    looks into the embedded result: without an embedded success it fails
    with the embedded error message (or "Task completed with errors");
    with one it hands the result to the response handler. *)
Lemma completed_cycle (kind : JobKind)
    (maxAttempts interval : nat) (next : nat -> Task) (attempts : nat)
    (taskData : TaskData) :
  td_status taskData = "completed" ->
  let cycle :=
    run_sync (poll_cycle kind maxAttempts interval next attempts
                (StatusBody true taskData)) in
  let errorMsg :=
    or_default (embedded_error taskData) "Task completed with errors" in
  snd cycle = []
  /\ (embedded_success taskData = false ->
      fst cycle = SetError (Some errorMsg) :: ending kind errorMsg)
  /\ (forall result, td_result taskData = Some result ->
      rd_success result = true -> fst cycle = decode_events kind result)
  /\ (succeeded (fst cycle) = true -> embedded_success taskData = true).
Proof.
  intros Hstatus. unfold embedded_error, embedded_success.
  unfold poll_cycle, ArticleRequest.poll_cycle, Feedback.poll_cycle.
  rewrite Hstatus. cbn [String.eqb Ascii.eqb Bool.eqb].
  destruct kind, (td_result taskData) as [result|];
    try destruct (rd_success result) eqn:Hs; cbn.
  all: repeat split; try reflexivity; try discriminate; try congruence.
  all: try (intros r [= <-] _).
  all: try (unfold ArticleRequest.handleArticleResponse;
            destruct (rd_article_data result); reflexivity).
  all: try (destruct (Feedback.handleFeedbackResponse result) as [evs v];
            rewrite run_sync_acts; reflexivity).
Qed.

(** A status that pollTaskStatus does not name is none of the three that
    pollFeedbackTask names. *)
Lemma unknown_status_tests (status : string) :
  unknown_status status = true ->
  (status =? "completed") = false /\ (status =? "failed") = false
  /\ (status =? "processing") = false /\ (status =? "pending") = false.
Proof.
  unfold unknown_status.
  destruct (status =? "completed"), (status =? "failed"),
    (status =? "processing"), (status =? "pending");
    try discriminate; auto.
Qed.

(** The generation hook polls again after a transport error. *)
Lemma generation_retries_transport_error (maxAttempts interval : nat)
    (next : nat -> Task) (attempts : nat) (err : JsError) :
  S attempts < maxAttempts ->
  cycle_retries Generation maxAttempts interval next attempts
    (StatusThrow err).
Proof.
  intros Hlt. apply Nat.ltb_lt in Hlt.
  unfold cycle_retries. cbn -[Nat.ltb]. now rewrite Hlt.
Qed.

Section GenerationRun.
Variables (taskId : string) (maxAttempts interval : nat).
Variable be : Backend.

(** In a generation run, a query answered with a transport error is
    followed by another query while attempts remain. *)
Lemma cycles_after_transport_error (fuel attempts : nat) :
  maxAttempts <= attempts + fuel + 1 ->
  forall i,
    i <= queries (cycles Generation taskId maxAttempts interval be fuel
                    attempts attempts) ->
    is_transport_error (status_reply be (attempts + i)) = true ->
    S (attempts + i) < maxAttempts ->
    S i <= queries (cycles Generation taskId maxAttempts interval be fuel
                      attempts attempts).
Proof.
  revert attempts.
  induction fuel as [|fuel IH]; intros attempts Hfuel i Hi Herr Hlt.
  - lia.
  - rewrite cycles_unfold in *.
    destruct i as [|i].
    + rewrite Nat.add_0_r in *.
      destruct (status_reply be attempts) as [err|]; [|discriminate].
      apply Nat.ltb_lt in Hlt.
      unfold ends_run. cbn -[Nat.ltb]. rewrite Hlt. cbn. lia.
    + destruct (ends_run _ _ _ _ _) eqn:Hend.
      * rewrite (end_events_no_query attempts) in Hi
          by now apply cycle_events_end.
        lia.
      * change (queries (SetAttempts (S attempts) :: TimerSet interval ::
                  HttpGet (status_url taskId) :: ?l))
          with (S (queries l)) in *.
        apply le_n_S. apply IH; try lia.
        now replace (S attempts + i) with (attempts + S i) by lia.
Qed.
End GenerationRun.

(** C2, as the hooks have it: after a transport error the generation
    hook stores the incremented counter and sets the timer for the next
    query while attempts remain, and fails with "Failed to check task
    status - please try again" when they are used up; in a complete
    generation run every query answered with a transport error is
    followed by another query while attempts remain.  The feedback hook
    ends its run on the first transport error: it sets the error and
    rejects, and the counter is not touched. *)
Theorem transport_error_handling (maxAttempts interval : nat)
    (next : nat -> Task) (attempts : nat) (err : JsError) :
  (S attempts < maxAttempts ->
   cycle_retries Generation maxAttempts interval next attempts
     (StatusThrow err))
  /\ (maxAttempts <= S attempts ->
      cycle_ends_with Generation maxAttempts interval next attempts
        (StatusThrow err)
        [SetAttempts (S attempts);
         SetError (Some "Failed to check task status - please try again");
         SetLoading false])
  /\ (forall taskId be fuel i,
        2 * maxAttempts + 2 <= fuel ->
        let tr := trace fuel be (poll_run Generation taskId maxAttempts
                                   interval) in
        i < queries tr ->
        is_transport_error (status_reply be i) = true ->
        S i < maxAttempts ->
        S i < queries tr)
  /\ cycle_ends_with Feedback maxAttempts interval next attempts
       (StatusThrow err)
       [SetError (Some (or_default (response_message err)
                          "Failed to check task status"));
        Settle (Rejected err)].
Proof.
  repeat split.
  - apply generation_retries_transport_error.
  - intros Hle. apply Nat.ltb_ge in Hle.
    unfold cycle_ends_with. cbn -[Nat.ltb]. now rewrite Hle.
  - intros taskId be fuel i Hfuel tr Hi Herr Hlt. subst tr.
    unfold trace in *. rewrite poll_run_trace in * by assumption.
    cbn [fst] in *.
    change (queries (HttpGet (status_url taskId) :: ?l))
      with (S (queries l)) in *.
    apply le_n_S.
    apply (cycles_after_transport_error taskId maxAttempts interval be
             maxAttempts 0); try lia; assumption.
Qed.

Lemma transport_error_handling_witness :
  1 < 3 /\
  cycle_retries Generation 3 3000 (fun _ => Stop) 0 (StatusThrow network_error).
Proof.
  split; [lia|].
  apply (transport_error_handling 3 3000 (fun _ => Stop) 0 network_error).
  lia.
Defined.

(** C2 fails for the feedback hook: with 15 attempts allowed, a
    transport error on the first status query ends the run; no timer is
    set and the counter is not incremented. *)
Lemma feedback_stops_on_transport_error :
  0 + 1 < Feedback.default_maxAttempts
  /\ run 40 (always (StatusThrow network_error))
       (poll_run Feedback "t1" Feedback.default_maxAttempts
          Feedback.default_interval)
     = ([HttpGet "tasks/t1/status/";
         SetError (Some "Failed to check task status");
         Settle (Rejected network_error)], [])
  /\ ~ cycle_retries Feedback Feedback.default_maxAttempts
         Feedback.default_interval (fun _ => Stop) 0
         (StatusThrow network_error).
Proof.
  split; [unfold Feedback.default_maxAttempts; lia|].
  split; [reflexivity|].
  unfold cycle_retries. cbn. discriminate.
Qed.

(** On a status it does not name, a cycle of the generation hook does
    what it does on "processing" while attempts remain (it stores the
    incremented counter and sets the timer for the next query), and
    fails with "Unknown task status - please try again" when they are
    used up.  A cycle of the feedback hook fails on such a status with
    "Unknown task status: <status>"; the counter is not touched. *)
Lemma unknown_status_cycle (maxAttempts interval : nat)
    (next : nat -> Task) (attempts : nat) (taskData : TaskData) :
  unknown_status (td_status taskData) = true ->
  (S attempts < maxAttempts ->
   cycle_retries Generation maxAttempts interval next attempts
     (StatusBody true taskData)
   /\ cycle_retries Generation maxAttempts interval next attempts
        (with_status "processing"))
  /\ (maxAttempts <= S attempts ->
      cycle_ends_with Generation maxAttempts interval next attempts
        (StatusBody true taskData)
        [SetAttempts (S attempts);
         SetError (Some "Unknown task status - please try again");
         SetLoading false])
  /\ cycle_ends_with Feedback maxAttempts interval next attempts
       (StatusBody true taskData)
       [SetError (Some ("Unknown task status: " ++ td_status taskData)%string);
        Settle (Rejected (new_Error
                  ("Unknown task status: " ++ td_status taskData)%string))].
Proof.
  intros Hunknown.
  apply unknown_status_tests in Hunknown as (Hc & Hf & Hp & Hq).
  unfold cycle_retries, cycle_ends_with, poll_cycle,
    ArticleRequest.poll_cycle, Feedback.poll_cycle.
  rewrite Hc, Hf, Hp, Hq. cbn -[Nat.ltb].
  split; [|split].
  - intros Hlt. apply Nat.ltb_lt in Hlt. now rewrite Hlt.
  - intros Hle. apply Nat.ltb_ge in Hle. now rewrite Hle.
  - reflexivity.
Qed.

(** C3 fails for the feedback hook: with 15 attempts allowed, the status
    "queued" on the first query ends the run; no timer is set and the
    counter is not incremented. *)
Lemma feedback_stops_on_unknown_status :
  unknown_status "queued" = true
  /\ 0 + 1 < Feedback.default_maxAttempts
  /\ run 40 (always (with_status "queued"))
       (poll_run Feedback "t1" Feedback.default_maxAttempts
          Feedback.default_interval)
     = ([HttpGet "tasks/t1/status/";
         SetError (Some "Unknown task status: queued");
         Settle (Rejected (new_Error "Unknown task status: queued"))], [])
  /\ ~ cycle_retries Feedback Feedback.default_maxAttempts
         Feedback.default_interval (fun _ => Stop) 0 (with_status "queued").
Proof.
  split; [reflexivity|].
  split; [unfold Feedback.default_maxAttempts; lia|].
  split; [reflexivity|].
  unfold cycle_retries. cbn. discriminate.
Qed.

(** What holds of C4: on "processing" both hooks, and on "pending" the
    generation hook, store the incremented counter and poll again while
    attempts remain; when the attempts are used up they fail with the
    time-out message of the hook, which is not the message of a failed
    task. *)
Lemma still_running_retries_then_times_out (kind : JobKind)
    (maxAttempts interval : nat) (next : nat -> Task) (attempts : nat)
    (taskData : TaskData) :
  td_status taskData = "processing"
  \/ (kind = Generation /\ td_status taskData = "pending") ->
  (S attempts < maxAttempts ->
   cycle_retries kind maxAttempts interval next attempts
     (StatusBody true taskData))
  /\ (maxAttempts <= S attempts ->
      cycle_ends_with kind maxAttempts interval next attempts
        (StatusBody true taskData)
        (SetAttempts (S attempts) :: SetError (Some (timeout_message kind))
           :: ending kind (timeout_message kind)))
  /\ timeout_message kind <> "Task execution failed"
  /\ timeout_message kind <> "Task completed with errors".
Proof.
  intros Hstatus.
  unfold cycle_retries, cycle_ends_with, poll_cycle,
    ArticleRequest.poll_cycle, Feedback.poll_cycle.
  repeat split.
  - intros Hlt. apply Nat.ltb_lt in Hlt.
    destruct Hstatus as [-> | [-> ->]]; [destruct kind|];
      cbn -[Nat.ltb]; now rewrite Hlt.
  - intros Hle. apply Nat.ltb_ge in Hle.
    destruct Hstatus as [-> | [-> ->]]; [destruct kind|];
      cbn -[Nat.ltb]; now rewrite Hle.
  - destruct kind; discriminate.
  - destruct kind; discriminate.
Qed.

(** C4 at the input where the feedback hook departs from it: the first
    status query of a feedback run with 15 attempts is answered
    "pending"; the run ends with "Unknown task status: pending" after
    this one query, and the counter is not incremented. *)
Theorem feedback_rejects_pending :
  run 40 (always (with_status "pending"))
    (poll_run Feedback "t1" Feedback.default_maxAttempts
       Feedback.default_interval)
  = ([HttpGet "tasks/t1/status/";
      SetError (Some "Unknown task status: pending");
      Settle (Rejected (new_Error "Unknown task status: pending"))], []).
Proof. reflexivity. Qed.

(** ** A whole poll run *)

(** Scenario D: three attempts, every query answered "pending". *)
Example generation_three_pending :
  run 8 (always (with_status "pending")) (poll_run Generation "t1" 3 3000)
  = ([HttpGet "tasks/t1/status/"; SetAttempts 1; TimerSet 3000;
      HttpGet "tasks/t1/status/"; SetAttempts 2; TimerSet 3000;
      HttpGet "tasks/t1/status/"; SetAttempts 3;
      SetError (Some ArticleRequest.msg_timed_out); SetLoading false], []).
Proof. reflexivity. Qed.

(** A poll run with enough fuel for the event loop ends, and [poll]
    is never unfolded more often than [maxAttempts] times. *)
Lemma poll_run_terminates (kind : JobKind) (taskId : string)
    (maxAttempts interval : nat) (be : Backend) (fuel : nat) :
  2 * maxAttempts + 2 <= fuel ->
  quiescent fuel be (poll_run kind taskId maxAttempts interval) = true
  /\ existsb is_out_of_fuel
       (trace fuel be (poll_run kind taskId maxAttempts interval)) = false.
Proof.
  intros Hfuel. unfold quiescent, trace.
  rewrite poll_run_trace by assumption. cbn [fst snd].
  split; [reflexivity|].
  cbn [existsb is_out_of_fuel orb]. apply cycles_in_fuel. lia.
Qed.

(** ** The two pollers compared *)

Lemma decode_events_no_query (kind : JobKind) (result : ResponseData) :
  queries (decode_events kind result) = 0.
Proof.
  destruct kind; unfold decode_events.
  - unfold ArticleRequest.handleArticleResponse.
    destruct (rd_article_data result); reflexivity.
  - unfold Feedback.handleFeedbackResponse.
    destruct (rd_article result), (truthy (rd_article_id result)),
      (rd_article_data result); reflexivity.
Qed.

Lemma same_outcome_no_query (og fb : list Event) :
  same_outcome og fb -> queries og = 0 /\ queries fb = 0.
Proof.
  intros [result | msg | n]; try (split; reflexivity).
  split; apply decode_events_no_query.
Qed.

(** On a benign reply the two hooks take the same branch. *)
Lemma benign_cycle (maxAttempts interval attempts : nat)
    (reply : StatusReply) :
  benign reply = true ->
  ends_run Generation maxAttempts interval attempts reply
  = ends_run Feedback maxAttempts interval attempts reply
  /\ (ends_run Generation maxAttempts interval attempts reply = true ->
      same_outcome
        (cycle_events Generation maxAttempts interval attempts reply)
        (cycle_events Feedback maxAttempts interval attempts reply)).
Proof.
  unfold benign, ends_run, cycle_events, poll_cycle,
    ArticleRequest.poll_cycle, Feedback.poll_cycle.
  destruct reply as [err | [|] td]; try discriminate.
  - destruct (td_status td =? "completed") eqn:Hc.
    + intros _. destruct (td_result td) as [result|].
      * destruct (rd_success result).
        -- pose proof (same_decoded result) as Hsame.
           unfold decode_events in Hsame.
           destruct (Feedback.handleFeedbackResponse result) as [evs v].
           rewrite run_sync_acts. cbn [fst snd Feedback.resolve run_sync].
           split; [|intros _; exact Hsame].
           unfold ArticleRequest.handleArticleResponse.
           destruct (rd_article_data result); reflexivity.
        -- split; [reflexivity|]. intros _. apply same_failed.
      * split; [reflexivity|]. intros _. apply same_failed.
    + destruct (td_status td =? "failed") eqn:Hf.
      * intros _. split; [reflexivity|]. intros _. apply same_failed.
      * destruct (td_status td =? "processing") eqn:Hp; [|discriminate].
        intros _. cbn -[Nat.ltb].
        destruct (Nat.ltb (S attempts) maxAttempts).
        -- split; [reflexivity|discriminate].
        -- split; [reflexivity|]. intros _. apply same_timeout.
  - intros _. split; [reflexivity|]. intros _. apply same_failed.
Qed.

Section BenignRun.
Variables (taskId : string) (maxAttempts interval : nat).
Variable be : Backend.
Hypothesis all_benign : forall i, benign (status_reply be i) = true.

Lemma benign_cycles (fuel attempts answered : nat) :
  maxAttempts <= attempts + fuel + 1 ->
  exists polling og fb,
    cycles Generation taskId maxAttempts interval be fuel attempts answered
    = polling ++ og
    /\ cycles Feedback taskId maxAttempts interval be fuel attempts answered
       = polling ++ fb
    /\ forallb is_polling_event polling = true
    /\ same_outcome og fb.
Proof.
  revert attempts answered.
  induction fuel as [|fuel IH]; intros attempts answered Hfuel;
    rewrite (cycles_unfold Generation), (cycles_unfold Feedback);
    destruct (benign_cycle maxAttempts interval attempts
                (status_reply be answered) (all_benign answered))
      as [Hsame Hout];
    rewrite <- Hsame;
    destruct (ends_run Generation _ _ _ _) eqn:Hend.
  - exists [], (cycle_events Generation maxAttempts interval attempts
                  (status_reply be answered)),
      (cycle_events Feedback maxAttempts interval attempts
         (status_reply be answered)).
    repeat split; auto.
  - apply retry_budget in Hend. lia.
  - exists [], (cycle_events Generation maxAttempts interval attempts
                  (status_reply be answered)),
      (cycle_events Feedback maxAttempts interval attempts
         (status_reply be answered)).
    repeat split; auto.
  - destruct (IH (S attempts) (S answered)) as (polling & og & fb & Hg & Hf & Hp & Ho);
      [lia|].
    exists (SetAttempts (S attempts) :: TimerSet interval
              :: HttpGet (status_url taskId) :: polling), og, fb.
    rewrite Hg, Hf. repeat split; auto.
Qed.
End BenignRun.

(** C8, as the hooks have it: when every status reply is a failed
    envelope or carries "completed", "failed" or "processing", the two
    pollers run with the same task and configuration go through the
    same queries, counter values and timers and end in the same outcome
    (the same embedded result handed to the response handler of the
    hook, the same failure message, or the time-out message of the
    hook), so they issue the same number of status queries. *)
Theorem pollers_agree_on_benign_replies (taskId : string)
    (maxAttempts interval : nat) (be : Backend) (fuel : nat) :
  (forall i, benign (status_reply be i) = true) ->
  2 * maxAttempts + 2 <= fuel ->
  exists polling og fb,
    run fuel be (poll_run Generation taskId maxAttempts interval)
    = (polling ++ og, [])
    /\ run fuel be (poll_run Feedback taskId maxAttempts interval)
       = (polling ++ fb, [])
    /\ forallb is_polling_event polling = true
    /\ same_outcome og fb
    /\ queries (polling ++ og) = queries (polling ++ fb).
Proof.
  intros Hbenign Hfuel.
  destruct (benign_cycles taskId maxAttempts interval be Hbenign
              maxAttempts 0 0) as (polling & og & fb & Hg & Hf & Hp & Ho);
    [lia|].
  exists (HttpGet (status_url taskId) :: polling), og, fb.
  rewrite !poll_run_trace by assumption. rewrite Hg, Hf.
  repeat split; auto.
  rewrite !queries_app.
  destruct (same_outcome_no_query og fb Ho) as [-> ->]. reflexivity.
Qed.

Lemma pollers_agree_on_benign_replies_witness :
  (forall i, benign (status_reply two_then_done i) = true)
  /\ 2 * 5 + 2 <= 12
  /\ exists polling og fb,
       run 12 two_then_done (poll_run Generation "t1" 5 2000)
       = (polling ++ og, [])
       /\ run 12 two_then_done (poll_run Feedback "t1" 5 2000)
          = (polling ++ fb, [])
       /\ forallb is_polling_event polling = true
       /\ same_outcome og fb
       /\ queries (polling ++ og) = queries (polling ++ fb).
Proof.
  assert (Hb : forall i, benign (status_reply two_then_done i) = true).
  { intros i. unfold two_then_done. cbn [status_reply].
    destruct (Nat.ltb i 2); reflexivity. }
  split; [exact Hb|]. split; [lia|].
  apply (pollers_agree_on_benign_replies "t1" 5 2000 two_then_done 12 Hb).
  lia.
Defined.

(** C8 fails: run with the same three attempts and the same interval
    against a backend whose status endpoint cannot be reached, the
    generation poller queries three times and the feedback poller
    once. *)
Lemma pollers_differ_on_transport_error :
  run 8 (always (StatusThrow network_error)) (poll_run Generation "t1" 3 2000)
  = ([HttpGet "tasks/t1/status/"; SetAttempts 1; TimerSet 2000;
      HttpGet "tasks/t1/status/"; SetAttempts 2; TimerSet 2000;
      HttpGet "tasks/t1/status/"; SetAttempts 3;
      SetError (Some ArticleRequest.msg_unreachable); SetLoading false], [])
  /\ run 8 (always (StatusThrow network_error)) (poll_run Feedback "t1" 3 2000)
     = ([HttpGet "tasks/t1/status/";
         SetError (Some Feedback.msg_status_check_failed);
         Settle (Rejected network_error)], [])
  /\ queries (trace 8 (always (StatusThrow network_error))
                (poll_run Generation "t1" 3 2000))
     <> queries (trace 8 (always (StatusThrow network_error))
                   (poll_run Feedback "t1" 3 2000)).
Proof.
  split; [reflexivity|]. split; [reflexivity|]. cbn. discriminate.
Qed.

(** ** A reply within a run *)

Lemma cycle_end_of (kind : JobKind) (maxAttempts interval attempts : nat)
    (reply : StatusReply) (evs : list Event) :
  cycle_ends_with kind maxAttempts interval (fun _ => Stop) attempts reply evs ->
  ends_run kind maxAttempts interval attempts reply = true
  /\ cycle_events kind maxAttempts interval attempts reply = evs.
Proof.
  unfold cycle_ends_with, ends_run, cycle_events. intros ->. split; reflexivity.
Qed.

Lemma cycle_retry_of (kind : JobKind) (maxAttempts interval attempts : nat)
    (reply : StatusReply) :
  cycle_retries kind maxAttempts interval (fun _ => Stop) attempts reply ->
  ends_run kind maxAttempts interval attempts reply = false.
Proof.
  unfold cycle_retries, ends_run. intros ->. reflexivity.
Qed.

Section ReplyInRun.
Variables (kind : JobKind) (taskId : string) (maxAttempts interval : nat).
Variable be : Backend.

(** What follows query number [attempts + j] of a run is the run from
    there on; before it the run has only polled. *)
Lemma cycles_at (j : nat) :
  forall fuel attempts,
  j <= queries (cycles kind taskId maxAttempts interval be fuel attempts
                  attempts) ->
  exists pre,
    HttpGet (status_url taskId)
      :: cycles kind taskId maxAttempts interval be fuel attempts attempts
    = pre ++ HttpGet (status_url taskId)
        :: cycles kind taskId maxAttempts interval be (fuel - j)
             (attempts + j) (attempts + j)
    /\ queries pre = j
    /\ forallb is_polling_event pre = true
    /\ attempt_values pre = List.seq (S attempts) j.
Proof.
  induction j as [|j IH]; intros fuel attempts Hj.
  - exists []. rewrite Nat.sub_0_r, Nat.add_0_r. repeat split.
  - rewrite cycles_unfold in Hj.
    destruct (ends_run kind maxAttempts interval attempts
                (status_reply be attempts)) eqn:Hend.
    { rewrite (end_events_no_query attempts) in Hj
        by now apply cycle_events_end.
      lia. }
    destruct fuel as [|fuel]; [cbn in Hj; lia|].
    change (queries (SetAttempts (S attempts) :: TimerSet interval ::
              HttpGet (status_url taskId) :: ?l))
      with (S (queries l)) in Hj.
    destruct (IH fuel (S attempts)) as (pre & Heq & Hq & Hp & Ha); [lia|].
    exists (HttpGet (status_url taskId) :: SetAttempts (S attempts)
              :: TimerSet interval :: pre).
    rewrite (cycles_unfold kind taskId maxAttempts interval be (S fuel)
               attempts attempts), Hend.
    cbn [app]. rewrite Heq.
    replace (S fuel - S j) with (fuel - j) by lia.
    replace (attempts + S j) with (S attempts + j) by lia.
    split; [reflexivity|].
    split; [change (S (queries pre) = S j); now rewrite Hq|].
    split; [exact Hp|].
    cbn [attempt_values]. rewrite Ha. reflexivity.
Qed.

Variable fuel : nat.
Hypothesis enough_fuel : 2 * maxAttempts + 2 <= fuel.

(** A complete run, cut at its query number [i]. *)
Lemma poll_run_at_query (i : nat) :
  i < queries (trace fuel be (poll_run kind taskId maxAttempts interval)) ->
  exists pre,
    trace fuel be (poll_run kind taskId maxAttempts interval)
    = pre ++ HttpGet (status_url taskId)
        :: cycles kind taskId maxAttempts interval be (maxAttempts - i) i i
    /\ queries pre = i
    /\ forallb is_polling_event pre = true
    /\ attempt_values pre = List.seq 1 i.
Proof.
  unfold trace. rewrite poll_run_trace by assumption. cbn [fst].
  change (queries (HttpGet (status_url taskId) :: ?l)) with (S (queries l)).
  intros Hi.
  destruct (cycles_at i maxAttempts 0) as (pre & Heq & Hq & Hp & Ha); [lia|].
  exists pre. cbn [Nat.add] in Heq. auto.
Qed.

(** A reply on which the cycle ends, ends the run. *)
Lemma run_ends_with_cycle (i : nat) (evs : list Event) :
  i < queries (trace fuel be (poll_run kind taskId maxAttempts interval)) ->
  cycle_ends_with kind maxAttempts interval (fun _ => Stop) i
    (status_reply be i) evs ->
  run_ends_at taskId
    (trace fuel be (poll_run kind taskId maxAttempts interval)) i evs.
Proof.
  intros Hi Hcycle.
  destruct (poll_run_at_query i Hi) as (pre & Heq & Hq & Hp & Ha).
  apply cycle_end_of in Hcycle as [Hend Hevs].
  rewrite cycles_unfold, Hend, Hevs in Heq.
  exists pre. auto.
Qed.

(** A reply on which the cycle polls again is followed by the next
    query. *)
Lemma run_goes_on_with_cycle (i : nat) :
  i < queries (trace fuel be (poll_run kind taskId maxAttempts interval)) ->
  cycle_retries kind maxAttempts interval (fun _ => Stop) i
    (status_reply be i) ->
  run_goes_on_at taskId interval
    (trace fuel be (poll_run kind taskId maxAttempts interval)) i.
Proof.
  intros Hi Hcycle.
  destruct (poll_run_at_query i Hi) as (pre & Heq & Hq & Hp & Ha).
  apply cycle_retry_of in Hcycle.
  pose proof (retry_budget _ _ _ _ _ Hcycle) as Hbudget.
  rewrite cycles_unfold, Hcycle in Heq.
  destruct (maxAttempts - i) as [|rest] eqn:Hrest; [lia|].
  exists pre. eexists. split; [exact Heq|]. auto.
Qed.

End ReplyInRun.

(** What a run that ends at query [i] has done. *)
Lemma run_ends_at_counts (taskId : string) (tr : list Event) (i : nat)
    (evs : list Event) :
  run_ends_at taskId tr i evs ->
  queries tr = S i + queries evs
  /\ attempt_values tr = List.seq 1 i ++ attempt_values evs
  /\ succeeded tr = succeeded evs.
Proof.
  intros (pre & -> & Hq & Hp & Ha).
  rewrite queries_app, attempt_values_app, Hq, Ha.
  change (queries (HttpGet (status_url taskId) :: evs))
    with (S (queries evs)).
  split; [lia|]. split; [reflexivity|].
  unfold succeeded. rewrite existsb_app. cbn [existsb is_success_event orb].
  replace (existsb is_success_event pre) with false; [reflexivity|].
  symmetry. clear Hq Ha.
  induction pre as [|e pre IH]; [reflexivity|].
  cbn [forallb] in Hp. apply andb_prop in Hp as [He Hp].
  cbn [existsb]. rewrite (IH Hp).
  destruct e; try discriminate; reflexivity.
Qed.

(** ** Claims about a reply within a poll run *)

(** C10: in a complete poll run of either hook, a status query that is
    answered with an envelope whose success is false is the last one:
    the run sets the error "Failed to check task status", ends (the
    generation hook sets loading to false, the feedback hook rejects)
    and leaves nothing pending.  The counter is not incremented by this
    reply, so the values stored are those of the earlier cycles, and no
    further query is issued whatever is left of the budget. *)
Theorem failed_envelope_ends_run (kind : JobKind) (taskId : string)
    (maxAttempts interval : nat) (be : Backend) (fuel i : nat)
    (taskData : TaskData) :
  2 * maxAttempts + 2 <= fuel ->
  let tr := trace fuel be (poll_run kind taskId maxAttempts interval) in
  i < queries tr ->
  status_reply be i = StatusBody false taskData ->
  run_ends_at taskId tr i
    (SetError (Some "Failed to check task status")
       :: ending kind "Failed to check task status")
  /\ queries tr = S i
  /\ attempt_values tr = List.seq 1 i
  /\ quiescent fuel be (poll_run kind taskId maxAttempts interval) = true.
Proof.
  intros Hfuel tr Hi Hreply.
  assert (Hend : run_ends_at taskId tr i
            (SetError (Some "Failed to check task status")
               :: ending kind "Failed to check task status")).
  { apply run_ends_with_cycle; [assumption | assumption |].
    rewrite Hreply. apply failed_envelope_cycle. }
  split; [exact Hend|].
  destruct (run_ends_at_counts _ _ _ _ Hend) as (Hq & Ha & _).
  split; [rewrite Hq; destruct kind; cbn; lia|].
  split; [rewrite Ha; destruct kind; cbn; now rewrite app_nil_r|].
  now apply poll_run_terminates.
Qed.

Lemma failed_envelope_ends_run_witness :
  2 * 5 + 2 <= 12
  /\ 2 < queries (trace 12 (two_then (StatusBody false
                    {| td_status := ""; td_result := None; td_error := None |}))
                    (poll_run Feedback "t1" 5 2000))
  /\ run_ends_at "t1"
       (trace 12 (two_then (StatusBody false
                    {| td_status := ""; td_result := None; td_error := None |}))
          (poll_run Feedback "t1" 5 2000)) 2
       [SetError (Some "Failed to check task status");
        Settle (Rejected (new_Error "Failed to check task status"))].
Proof.
  split; [lia|]. split; [vm_compute; lia|].
  apply (failed_envelope_ends_run Feedback "t1" 5 2000
           (two_then (StatusBody false
              {| td_status := ""; td_result := None; td_error := None |}))
           12 2
           {| td_status := ""; td_result := None; td_error := None |}).
  - lia.
  - vm_compute. lia.
  - reflexivity.
Defined.

(** C7: in a complete poll run of either hook, a status query that is
    answered "completed" is the last one, and the run looks into the
    embedded result: without an embedded success the run ends with the
    embedded error message (or "Task completed with errors") as its
    failure; with one it ends by handing the embedded result to the
    response handler of the hook.  The run delivers an article only if
    the embedded result signals success. *)
Theorem completed_inspects_embedded_result (kind : JobKind)
    (taskId : string) (maxAttempts interval : nat) (be : Backend)
    (fuel i : nat) (taskData : TaskData) :
  2 * maxAttempts + 2 <= fuel ->
  let tr := trace fuel be (poll_run kind taskId maxAttempts interval) in
  i < queries tr ->
  status_reply be i = StatusBody true taskData ->
  td_status taskData = "completed" ->
  let errorMsg :=
    or_default (embedded_error taskData) "Task completed with errors" in
  (embedded_success taskData = false ->
   run_ends_at taskId tr i (SetError (Some errorMsg) :: ending kind errorMsg))
  /\ (forall result, td_result taskData = Some result ->
      rd_success result = true ->
      run_ends_at taskId tr i (decode_events kind result))
  /\ (succeeded tr = true -> embedded_success taskData = true)
  /\ queries tr = S i
  /\ quiescent fuel be (poll_run kind taskId maxAttempts interval) = true.
Proof.
  intros Hfuel tr Hi Hreply Hstatus errorMsg.
  pose proof (completed_cycle kind maxAttempts interval
                (fun _ => Stop) i taskData Hstatus)
    as (Hstop & Hfail & Hok & Hsucc).
  set (cycle := run_sync (poll_cycle kind maxAttempts interval (fun _ => Stop)
                            i (StatusBody true taskData))) in *.
  assert (Hend : run_ends_at taskId tr i (fst cycle)).
  { apply run_ends_with_cycle; [assumption | assumption |].
    rewrite Hreply. unfold cycle_ends_with. fold cycle.
    destruct cycle as [evs s]. cbn [fst snd] in *. now subst s. }
  destruct (run_ends_at_counts _ _ _ _ Hend) as (Hq & _ & Hs). subst errorMsg. cbv zeta in Hfail.
  split; [intros Hno; rewrite <- (Hfail Hno); exact Hend|].
  split; [intros result Hr Hrs; rewrite <- (Hok result Hr Hrs); exact Hend|].
  split; [intros Htr; apply Hsucc; now rewrite <- Hs|].
  split; [|now apply poll_run_terminates].
  rewrite Hq.
  destruct (embedded_success taskData) eqn:He.
  - unfold embedded_success in He.
    destruct (td_result taskData) as [result|] eqn:Hr; [|discriminate].
    rewrite (Hok result eq_refl He), decode_events_no_query. lia.
  - rewrite (Hfail eq_refl). destruct kind; cbn; lia.
Qed.

Lemma completed_inspects_embedded_result_witness :
  2 * 5 + 2 <= 12
  /\ 2 < queries (trace 12 (two_then (completed_with failed_result))
                    (poll_run Feedback "t1" 5 2000))
  /\ run_ends_at "t1"
       (trace 12 (two_then (completed_with failed_result))
          (poll_run Feedback "t1" 5 2000)) 2
       [SetError (Some "scrape failed");
        Settle (Rejected (new_Error "scrape failed"))].
Proof.
  split; [lia|]. split; [vm_compute; lia|].
  apply (completed_inspects_embedded_result Feedback "t1" 5 2000
           (two_then (completed_with failed_result)) 12 2
           {| td_status := "completed"; td_result := Some failed_result;
              td_error := None |}).
  - lia.
  - vm_compute. lia.
  - reflexivity.
  - reflexivity.
  - reflexivity.
Defined.

(** C3, as the hooks have it: in a complete generation run, a status
    query answered with a status that the hook does not name is
    followed, while attempts remain, by the store of the incremented
    counter, the timer and the next query, exactly as one answered
    "processing" is; when the attempts are used up the run ends with
    "Unknown task status - please try again".  In a complete feedback
    run such a query is the last one: the run fails with "Unknown task
    status: <status>" and the counter is not incremented. *)
Theorem unknown_status_handling (taskId : string)
    (maxAttempts interval : nat) (be : Backend) (fuel i : nat)
    (taskData : TaskData) :
  2 * maxAttempts + 2 <= fuel ->
  status_reply be i = StatusBody true taskData ->
  unknown_status (td_status taskData) = true ->
  let generation :=
    trace fuel be (poll_run Generation taskId maxAttempts interval) in
  let feedback :=
    trace fuel be (poll_run Feedback taskId maxAttempts interval) in
  let unknownMsg := ("Unknown task status: " ++ td_status taskData)%string in
  (i < queries generation -> S i < maxAttempts ->
   run_goes_on_at taskId interval generation i)
  /\ (forall be',
        status_reply be' i = with_status "processing" ->
        let processing :=
          trace fuel be' (poll_run Generation taskId maxAttempts interval) in
        i < queries processing -> S i < maxAttempts ->
        run_goes_on_at taskId interval processing i)
  /\ (i < queries generation -> maxAttempts <= S i ->
      run_ends_at taskId generation i
        [SetAttempts (S i);
         SetError (Some "Unknown task status - please try again");
         SetLoading false])
  /\ (i < queries feedback ->
      run_ends_at taskId feedback i
        [SetError (Some unknownMsg); Settle (Rejected (new_Error unknownMsg))]
      /\ queries feedback = S i
      /\ attempt_values feedback = List.seq 1 i).
Proof.
  intros Hfuel Hreply Hunknown generation feedback unknownMsg.
  pose proof (unknown_status_cycle maxAttempts interval (fun _ => Stop) i
                taskData Hunknown) as (Hretry & Hexhausted & Hfeedback).
  split; [|split; [|split]].
  - intros Hi Hlt. apply run_goes_on_with_cycle; [assumption | assumption |].
    rewrite Hreply. now apply Hretry.
  - intros be' Hreply' processing Hi Hlt.
    apply run_goes_on_with_cycle; [assumption | assumption |].
    rewrite Hreply'. now apply Hretry.
  - intros Hi Hle. apply run_ends_with_cycle; [assumption | assumption |].
    rewrite Hreply. now apply Hexhausted.
  - intros Hi.
    assert (Hend : run_ends_at taskId feedback i
              [SetError (Some unknownMsg);
               Settle (Rejected (new_Error unknownMsg))]).
    { apply run_ends_with_cycle; [assumption | assumption |].
      rewrite Hreply. exact Hfeedback. }
    split; [exact Hend|].
    destruct (run_ends_at_counts _ _ _ _ Hend) as (Hq & Ha & _).
    split; [rewrite Hq; cbn; lia|].
    rewrite Ha. cbn. now rewrite app_nil_r.
Qed.

Lemma unknown_status_handling_witness :
  2 * 5 + 2 <= 12
  /\ unknown_status "queued" = true
  /\ run_goes_on_at "t1" 3000
       (trace 12 (two_then (with_status "queued"))
          (poll_run Generation "t1" 5 3000)) 2.
Proof.
  split; [lia|]. split; [reflexivity|].
  destruct (unknown_status_handling "t1" 5 3000
              (two_then (with_status "queued")) 12 2
              {| td_status := "queued"; td_result := None; td_error := None |})
    as (Hgoes & _); [lia | reflexivity | reflexivity |].
  apply Hgoes; [vm_compute; lia | lia].
Defined.

(** ** Claims about the submission *)

Lemma run_without_suspension (fuel : nat) (be : Backend) (t : Task)
    (evs : list Event) :
  run_sync t = (evs, []) -> run fuel be t = (evs, []).
Proof.
  intros Hsync. unfold run. rewrite Hsync, event_loop_nil.
  now rewrite app_nil_r.
Qed.

(** A hook function sends its request as soon as it is called. *)
Lemma hooks_post_at_once (be : Backend) (fuel : nat) :
  (forall requestData,
     exists rest,
       trace fuel be (ArticleRequest.requestArticle_call requestData)
       = [SetLoading true; SetError None; SetArticle None;
          HttpPost "generate/"
            (PGeneration (ArticleRequest.build_payload requestData))]
         ++ rest)
  /\ (forall articleId section feedbackText,
        exists rest,
          trace fuel be
            (Feedback.sendFeedback_call articleId section feedbackText)
          = [SetLoading true; SetError None;
             HttpPost "feedback/"
               (PFeedback (Feedback.build_payload articleId section
                             feedbackText))]
            ++ rest).
Proof.
  split.
  - intros requestData. unfold trace, run.
    unfold ArticleRequest.requestArticle_call, ArticleRequest.requestArticle.
    cbn [seq run_sync].
    destruct (event_loop fuel be 0 _) as [tr rem]. now exists tr.
  - intros articleId section feedbackText. unfold trace, run.
    unfold Feedback.sendFeedback_call, Feedback.sendFeedback.
    cbn [run_sync].
    destruct (event_loop fuel be 0 _) as [tr rem]. now exists tr.
Qed.

(** C6, as the code has it: the required fields are checked by the two
    form handlers.  A submission from a form whose required fields are
    empty or blank (no source reference for a generation; no article
    identifier or no revision text for a feedback) only sets the
    validation error of the form: the run consists of this one event and
    issues no network call.  The hook functions do not check: whatever
    they are called with, requestArticle and sendFeedback send their
    request at once. *)
Theorem invalid_input_fails_without_network (request : JobRequest)
    (be : Backend) (fuel : nat) :
  valid request = false ->
  run fuel be (submit request)
  = ([SetError (Some (invalid_input_message request))], [])
  /\ network_calls (trace fuel be (submit request)) = 0
  /\ (forall requestData,
        exists rest,
          trace fuel be (ArticleRequest.requestArticle_call requestData)
          = [SetLoading true; SetError None; SetArticle None;
             HttpPost "generate/"
               (PGeneration (ArticleRequest.build_payload requestData))]
            ++ rest)
  /\ (forall articleId section feedbackText,
        exists rest,
          trace fuel be
            (Feedback.sendFeedback_call articleId section feedbackText)
          = [SetLoading true; SetError None;
             HttpPost "feedback/"
               (PFeedback (Feedback.build_payload articleId section
                             feedbackText))]
            ++ rest).
Proof.
  intros Hinvalid.
  assert (Hsync : run_sync (submit request)
                  = ([SetError (Some (invalid_input_message request))], [])).
  { destruct request as [rawContent instruction
                        | articleId section feedbackText];
      cbn [valid submit invalid_input_message] in *.
    - unfold ArticleRequest.handleSubmit.
      apply negb_false_iff in Hinvalid. now rewrite Hinvalid.
    - unfold Feedback.handleSubmit.
      replace (negb (truthy articleId) || (trim feedbackText =? ""))
        with true; [reflexivity|].
      destruct (truthy articleId), (trim feedbackText =? "");
        try reflexivity; discriminate. }
  unfold trace at 1. rewrite (run_without_suspension fuel be _ _ Hsync).
  split; [reflexivity|]. split; [reflexivity|].
  exact (hooks_post_at_once be fuel).
Qed.

(** Scenario B, with a revision text that is only a no-break space. *)
Lemma invalid_input_fails_without_network_witness :
  valid (FeedbackRequest (Some "7") "headline" no_break_space) = false
  /\ run 10 (always (with_status "processing"))
       (submit (FeedbackRequest (Some "7") "headline" no_break_space))
     = ([SetError (Some "Article ID and feedback text are required")], []).
Proof.
  split; [reflexivity|].
  apply (invalid_input_fails_without_network
           (FeedbackRequest (Some "7") "headline" no_break_space)
           (always (with_status "processing")) 10).
  reflexivity.
Defined.

(** C6 fails for sendFeedback: called with an empty revision text, it
    posts the feedback. *)
Lemma sendFeedback_does_not_validate :
  valid (FeedbackRequest (Some "7") "headline" "") = false
  /\ posted (trace 40 (always (with_status "processing"))
               (Feedback.sendFeedback_call "7" "headline" ""))
     = [PFeedback {| fp_article_id := "7"; fp_feedback := ("headline", "");
                     fp_async_processing := false |}]
  /\ network_calls (trace 40 (always (with_status "processing"))
                      (Feedback.sendFeedback_call "7" "headline" "")) <> 0.
Proof.
  split; [reflexivity|]. split; [reflexivity|]. vm_compute. discriminate.
Qed.

(** C9, as the hooks have it: requestArticle posts async = true unless
    its caller passes async = false, and whatever the article form
    posts has async = true; sendFeedback always posts
    async_processing = false, whatever its caller passes. *)
Theorem async_preference (requestData : RequestData)
    (rawContent instruction articleId section feedbackText : string)
    (ret : option JsObj -> Task) :
  (rq_async requestData <> Some false ->
   map prefers_async
     (posted (fst (run_sync (ArticleRequest.requestArticle requestData))))
   = [true])
  /\ forallb prefers_async
       (posted (fst (run_sync
                       (ArticleRequest.handleSubmit rawContent instruction))))
     = true
  /\ map prefers_async
       (posted (fst (run_sync
                       (Feedback.sendFeedback articleId section feedbackText
                          ret))))
     = [false].
Proof.
  split; [|split].
  - intros Hasync. cbn.
    destruct (rq_async requestData) as [[|]|]; try reflexivity.
    now elim Hasync.
  - unfold ArticleRequest.handleSubmit.
    destruct (trim rawContent =? ""); reflexivity.
  - reflexivity.
Qed.

Lemma async_preference_witness :
  rq_async url_request <> Some false
  /\ map prefers_async
       (posted (fst (run_sync (ArticleRequest.requestArticle url_request))))
     = [true].
Proof.
  split; [discriminate|].
  apply (async_preference url_request "https://example.org/tender" ""
           "7" "headline" "Shorter headline" (fun _ => Stop)).
  discriminate.
Defined.

(** C9 fails for feedback: a feedback submitted from the modal is posted
    with async_processing = false. *)
Lemma feedback_prefers_synchronous :
  posted (trace 10 (always (with_status "processing"))
            (submit (FeedbackRequest (Some "7") "headline"
                       "Shorter headline")))
  = [PFeedback {| fp_article_id := "7";
                  fp_feedback := ("headline", "Shorter headline");
                  fp_async_processing := false |}]
  /\ map prefers_async
       (posted (trace 10 (always (with_status "processing"))
                  (submit (FeedbackRequest (Some "7") "headline"
                             "Shorter headline"))))
     <> [true].
Proof.
  split; [reflexivity|]. cbn. discriminate.
Qed.

(** The earlier generation poller agrees with neither: on "pending" it
    ends without any outcome, and a transport error ends its run. *)
Example legacy_poller_differs :
  run 8 (always (with_status "pending"))
    (LegacyArticleRequest.pollTaskStatus "t1" 3 2000)
  = ([HttpGet "tasks/t1/status/"], [])
  /\ run 8 (always (StatusThrow network_error))
       (LegacyArticleRequest.pollTaskStatus "t1" 3 2000)
     = ([HttpGet "tasks/t1/status/";
         SetError (Some "Failed to check task status")], []).
Proof. split; reflexivity. Qed.

(** ** The outcome of a run *)

Lemma outcomes_app (kind : JobKind) (tr1 tr2 : list Event) :
  outcomes kind (tr1 ++ tr2) = outcomes kind tr1 + outcomes kind tr2.
Proof. unfold outcomes. now rewrite filter_app, length_app. Qed.

(** A cycle that ends the run tells exactly one outcome. *)
Lemma cycle_one_outcome (kind : JobKind) (maxAttempts interval attempts : nat)
    (reply : StatusReply) :
  ends_run kind maxAttempts interval attempts reply = true ->
  outcomes kind (cycle_events kind maxAttempts interval attempts reply) = 1.
Proof.
  unfold ends_run, cycle_events, poll_cycle,
    ArticleRequest.poll_cycle, Feedback.poll_cycle.
  destruct kind, reply as [err | [|] td]; try reflexivity.
  - simpl. split_budget; simpl; try reflexivity. discriminate.
  - split_status td; simpl; split_budget; simpl;
      try reflexivity; try discriminate.
    unfold ArticleRequest.handleArticleResponse.
    destruct (rd_article_data result); reflexivity.
  - split_status td; simpl; split_budget; simpl;
      try reflexivity; try discriminate.
    all: unfold Feedback.handleFeedbackResponse;
      destruct (rd_article result), (truthy (rd_article_id result)),
        (rd_article_data result); reflexivity.
Qed.

Lemma cycles_one_outcome (kind : JobKind) (taskId : string)
    (maxAttempts interval : nat) (be : Backend)
    (fuel attempts answered : nat) :
  maxAttempts <= attempts + fuel + 1 ->
  outcomes kind
    (cycles kind taskId maxAttempts interval be fuel attempts answered) = 1.
Proof.
  revert attempts answered.
  induction fuel as [|fuel IH]; intros attempts answered Hfuel;
    rewrite cycles_unfold;
    destruct (ends_run _ _ _ _ _) eqn:Hend.
  - now apply cycle_one_outcome.
  - apply retry_budget in Hend. lia.
  - now apply cycle_one_outcome.
  - specialize (IH (S attempts) (S answered) ltac:(lia)).
    destruct kind; exact IH.
Qed.

(** Every complete poll run of either hook tells exactly one outcome,
    as the last thing it does. *)
Lemma poll_run_one_outcome (kind : JobKind) (taskId : string)
    (maxAttempts interval : nat) (be : Backend) (fuel : nat) :
  2 * maxAttempts + 2 <= fuel ->
  outcomes kind (trace fuel be (poll_run kind taskId maxAttempts interval)) = 1.
Proof.
  intros Hfuel. unfold trace. rewrite poll_run_trace by assumption.
  cbn [fst].
  pose proof (cycles_one_outcome kind taskId maxAttempts interval be
                maxAttempts 0 0 ltac:(lia)) as H.
  destruct kind; exact H.
Qed.

(** The feedback hook waits: the promise of sendFeedback settles after
    the poll run has told its outcome. *)
Example sendFeedback_returns_after_outcome :
  run 10 two_then_done (Feedback.sendFeedback_call "7" "headline" "Shorter")
  = ([SetLoading true; SetError None;
      HttpPost "feedback/"
        (PFeedback {| fp_article_id := "7";
                      fp_feedback := ("headline", "Shorter");
                      fp_async_processing := false |});
      HttpGet "tasks/t1/status/";
      SetAttempts 1; TimerSet 2000; HttpGet "tasks/t1/status/";
      SetAttempts 2; TimerSet 2000; HttpGet "tasks/t1/status/";
      Settle (Fulfilled
        (Some [("headline", Some "Tender awarded"); ("article_id", Some "7");
               ("feedback_applied", Some "true")]));
      SetLoading false;
      Returned "sendFeedback"
        (Some [("headline", Some "Tender awarded"); ("article_id", Some "7");
               ("feedback_applied", Some "true")])], []).
Proof. reflexivity. Qed.

(** ** The feedback poller with something waiting for its promise *)

Lemma settlements_app (tr1 tr2 : list Event) :
  settlements (tr1 ++ tr2) = settlements tr1 ++ settlements tr2.
Proof.
  induction tr1 as [|e tr1 IH]; [reflexivity|].
  destruct e; simpl; now rewrite IH.
Qed.

Section FeedbackContinuation.
Variables (taskId : string) (maxAttempts interval : nat).
Variable k : Settlement -> Task.

(** A cycle of pollFeedbackTask either polls again, or settles the
    promise once, as its last act, and whatever waits for the promise
    runs next. *)
Lemma feedback_cycle_then (next : nat -> Task) (attempts : nat)
    (reply : StatusReply) :
  if ends_run Feedback maxAttempts interval attempts reply then
    exists s,
      settlements (cycle_events Feedback maxAttempts interval attempts reply)
      = [s]
      /\ run_sync (Feedback.poll_cycle maxAttempts interval k next attempts
                     reply)
         = (cycle_events Feedback maxAttempts interval attempts reply
              ++ fst (run_sync (k s)),
            snd (run_sync (k s)))
  else
    run_sync (Feedback.poll_cycle maxAttempts interval k next attempts reply)
    = ([SetAttempts (S attempts); TimerSet interval],
       [OnTimer interval (next (S attempts))]).
Proof.
  unfold ends_run, cycle_events, poll_cycle, Feedback.poll_cycle,
    Feedback.resolve, Feedback.reject.
  destruct reply as [err | [|] td].
  - cbn. eexists. split; [reflexivity|].
    destruct (run_sync (k (Rejected err))); reflexivity.
  - split_status td; simpl; split_budget; simpl;
      try reflexivity;
      try (eexists; split; [reflexivity|];
           match goal with
           | |- context [run_sync (k ?s)] => destruct (run_sync (k s))
           end; reflexivity).
    all: destruct (Feedback.handleFeedbackResponse result) as [evs v] eqn:Hh;
      rewrite !run_sync_acts; cbn [run_sync fst snd];
      exists (Fulfilled v);
      (split;
       [ unfold Feedback.handleFeedbackResponse in Hh;
         destruct (rd_article result), (truthy (rd_article_id result)),
           (rd_article_data result); injection Hh as <- <-; reflexivity
       | destruct (run_sync (k (Fulfilled v))); cbn [fst snd];
         now rewrite <- app_assoc ]).
  - cbn. eexists. split; [reflexivity|].
    destruct (run_sync (k (Rejected _))); reflexivity.
Qed.

Hypothesis k_synchronous : forall s, snd (run_sync (k s)) = [].
Variable be : Backend.

(** The event loop on a pending status query of pollFeedbackTask: the
    cycles of the poll run, which settle the promise once, and then what
    waits for the promise. *)
Lemma feedback_poll_loop_then (fuel loop_fuel attempts answered : nat) :
  2 * fuel + 2 <= loop_fuel ->
  maxAttempts <= attempts + fuel + 1 ->
  exists s,
    settlements (cycles Feedback taskId maxAttempts interval be fuel
                   attempts answered) = [s]
    /\ event_loop loop_fuel be answered
         [OnGet (Feedback.poll_cycle maxAttempts interval k
                   (fun n => match fuel with
                             | S fuel' =>
                                 Feedback.poll taskId maxAttempts interval k
                                   fuel' n
                             | O => Act OutOfFuel Stop
                             end)
                   attempts)]
       = (cycles Feedback taskId maxAttempts interval be fuel attempts
            answered ++ fst (run_sync (k s)), []).
Proof.
  revert loop_fuel attempts answered.
  induction fuel as [|fuel IH]; intros loop_fuel attempts answered Hloop Hfuel;
    destruct loop_fuel as [|[|n]]; try lia;
    rewrite event_loop_get, cycles_unfold;
    match goal with
    | |- context [Feedback.poll_cycle _ _ _ ?nx _ _] =>
        pose proof (feedback_cycle_then nx attempts (status_reply be answered))
          as Hcycle
    end;
    destruct (ends_run Feedback _ _ _ _) eqn:Hend.
  - destruct Hcycle as (s & Hs & ->). exists s. split; [exact Hs|].
    cbn [fst snd]. rewrite k_synchronous, event_loop_nil. cbn [fst snd].
    now rewrite app_nil_r.
  - apply retry_budget in Hend. lia.
  - destruct Hcycle as (s & Hs & ->). exists s. split; [exact Hs|].
    cbn [fst snd]. rewrite k_synchronous, event_loop_nil. cbn [fst snd].
    now rewrite app_nil_r.
  - rewrite Hcycle. cbn [fst snd].
    destruct (IH n (S attempts) (S answered)) as (s & Hs & Hloop');
      [lia | lia |].
    exists s. split; [exact Hs|].
    rewrite event_loop_timer.
    assert (Hp : run_sync (Feedback.poll taskId maxAttempts interval k fuel
                             (S attempts))
                 = ([HttpGet (status_url taskId)],
                    [OnGet (Feedback.poll_cycle maxAttempts interval k
                       (fun n0 => match fuel with
                                  | S fuel' =>
                                      Feedback.poll taskId maxAttempts
                                        interval k fuel' n0
                                  | O => Act OutOfFuel Stop
                                  end)
                       (S attempts))])).
    { destruct fuel; reflexivity. }
    rewrite Hp. cbn [fst snd]. rewrite Hloop'. reflexivity.
Qed.
End FeedbackContinuation.

Lemma feedback_poll_unfold (taskId : string) (maxAttempts interval : nat)
    (k : Settlement -> Task) (fuel attempts : nat) :
  Feedback.poll taskId maxAttempts interval k fuel attempts =
  AwaitGet (status_url taskId)
    (Feedback.poll_cycle maxAttempts interval k
       (fun n => match fuel with
                 | S fuel' =>
                     Feedback.poll taskId maxAttempts interval k fuel' n
                 | O => Act OutOfFuel Stop
                 end)
       attempts).
Proof. destruct fuel; reflexivity. Qed.

(** ** When the promise of a submission settles *)

Lemma returns_app (tr1 tr2 : list Event) :
  returns (tr1 ++ tr2) = returns tr1 + returns tr2.
Proof. unfold returns. now rewrite filter_app, length_app. Qed.

Lemma end_events_no_return (attempts : nat) (tr : list Event) :
  forallb (is_cycle_end_event attempts) tr = true -> returns tr = 0.
Proof.
  induction tr as [|e tr IH]; [reflexivity|]. simpl.
  intros H. apply andb_prop in H as [He Htr].
  destruct e; try discriminate; apply IH; assumption.
Qed.

(** No hook function returns during the cycles of a poll run. *)
Lemma cycles_no_return (kind : JobKind) (taskId : string)
    (maxAttempts interval : nat) (be : Backend)
    (fuel attempts answered : nat) :
  returns (cycles kind taskId maxAttempts interval be fuel attempts answered)
  = 0.
Proof.
  revert attempts answered.
  induction fuel as [|fuel IH]; intros attempts answered;
    rewrite cycles_unfold;
    destruct (ends_run _ _ _ _ _) eqn:Hend.
  - apply (end_events_no_return attempts). now apply cycle_events_end.
  - reflexivity.
  - apply (end_events_no_return attempts). now apply cycle_events_end.
  - exact (IH (S attempts) (S answered)).
Qed.

Lemma loading_off_app (tr1 tr2 : list Event) :
  loading_off (tr1 ++ tr2) = loading_off tr1 + loading_off tr2.
Proof. unfold loading_off. now rewrite filter_app, length_app. Qed.

(** A cycle that ends a generation run tells the outcome and then, as
    its last act, sets loading to false. *)
Lemma generation_cycle_loading (maxAttempts interval attempts : nat)
    (reply : StatusReply) :
  ends_run Generation maxAttempts interval attempts reply = true ->
  exists before,
    cycle_events Generation maxAttempts interval attempts reply
    = before ++ [SetLoading false]
    /\ outcomes Generation before = 1 /\ loading_off before = 0.
Proof.
  unfold ends_run, cycle_events, poll_cycle, ArticleRequest.poll_cycle.
  destruct reply as [err | [|] td].
  - simpl. split_budget; simpl; [discriminate|].
    intros _. eexists (_ :: _ :: nil). repeat split.
  - split_status td; simpl; split_budget; simpl; try discriminate; intros _;
      try solve [eexists (_ :: nil); repeat split];
      try solve [eexists (_ :: _ :: nil); repeat split].
    unfold ArticleRequest.handleArticleResponse.
    destruct (rd_article_data result); eexists (_ :: nil); repeat split.
  - intros _. eexists (_ :: nil). repeat split.
Qed.

Lemma generation_cycles_loading (taskId : string)
    (maxAttempts interval : nat) (be : Backend)
    (fuel attempts answered : nat) :
  maxAttempts <= attempts + fuel + 1 ->
  exists before,
    cycles Generation taskId maxAttempts interval be fuel attempts answered
    = before ++ [SetLoading false]
    /\ outcomes Generation before = 1 /\ loading_off before = 0.
Proof.
  revert attempts answered.
  induction fuel as [|fuel IH]; intros attempts answered Hfuel;
    rewrite cycles_unfold;
    destruct (ends_run _ _ _ _ _) eqn:Hend.
  - now apply generation_cycle_loading.
  - apply retry_budget in Hend. lia.
  - now apply generation_cycle_loading.
  - destruct (IH (S attempts) (S answered)) as (before & -> & Hout & Hoff);
      [lia|].
    exists (SetAttempts (S attempts) :: TimerSet interval
              :: HttpGet (status_url taskId) :: before).
    repeat split; assumption.
Qed.

Section Submission.
Variable be : Backend.
Variable fuel : nat.
Hypothesis enough_fuel : 2 * ArticleRequest.default_maxAttempts + 3 <= fuel.

(** A deferred generation: requestArticle returns right after the first
    status query. *)
Lemma requestArticle_deferred (requestData : RequestData) :
  is_deferred (submit_reply be) = true ->
  run fuel be (ArticleRequest.requestArticle_call requestData)
  = (deferred_prefix requestData (deferred_task (submit_reply be))
       ++ cycles Generation (deferred_task (submit_reply be))
            ArticleRequest.default_maxAttempts ArticleRequest.default_interval
            be ArticleRequest.default_maxAttempts 0 0, []).
Proof.
  intros Hdeferred.
  destruct fuel as [|loop_fuel]; [lia|].
  unfold run, ArticleRequest.requestArticle_call,
    ArticleRequest.requestArticle.
  cbn [seq run_sync]. rewrite event_loop_post.
  destruct (submit_reply be) as [err | [|] message data]; try discriminate.
  cbn [is_deferred deferred_task] in *. rewrite Hdeferred.
  unfold ArticleRequest.pollTaskStatus. cbn [seq].
  change (ArticleRequest.poll ?t ?m ?i ?f ?a)
    with (poll Generation t m i f a).
  rewrite poll_unfold. cbn [run_sync fst snd app].
  rewrite poll_loop by lia. reflexivity.
Qed.

(** A generation answered at once: requestArticle tells the outcome,
    sets loading to false and then returns. *)
Lemma requestArticle_immediate (requestData : RequestData) :
  is_deferred (submit_reply be) = false ->
  exists before,
    run fuel be (ArticleRequest.requestArticle_call requestData)
    = (before ++ [SetLoading false; Returned "requestArticle" None], [])
    /\ outcomes Generation before = 1 /\ returns before = 0
    /\ loading_off before = 0.
Proof.
  intros Hdeferred.
  destruct fuel as [|loop_fuel]; [lia|].
  unfold run, ArticleRequest.requestArticle_call,
    ArticleRequest.requestArticle.
  cbn [seq run_sync]. rewrite event_loop_post.
  destruct (submit_reply be) as [err | [|] message data].
  - cbn. rewrite event_loop_nil.
    eexists (_ :: _ :: _ :: _ :: [_]). repeat split.
  - cbn [is_deferred] in Hdeferred. rewrite Hdeferred.
    unfold ArticleRequest.handleArticleResponse.
    destruct (rd_article_data data); cbn; rewrite event_loop_nil;
      eexists (_ :: _ :: _ :: _ :: [_]); repeat split.
  - cbn. rewrite event_loop_nil.
    eexists (_ :: _ :: _ :: _ :: [_]). repeat split.
Qed.

(** A deferred feedback: sendFeedback returns after the poll run has
    settled its promise. *)
Lemma sendFeedback_deferred (articleId section feedbackText : string) :
  is_deferred (submit_reply be) = true ->
  exists s,
    settlements
      (cycles Feedback (deferred_task (submit_reply be))
         Feedback.default_maxAttempts Feedback.default_interval be
         Feedback.default_maxAttempts 0 0) = [s]
    /\ run fuel be (Feedback.sendFeedback_call articleId section feedbackText)
       = (feedback_prefix articleId section feedbackText
            (deferred_task (submit_reply be))
          ++ cycles Feedback (deferred_task (submit_reply be))
               Feedback.default_maxAttempts Feedback.default_interval be
               Feedback.default_maxAttempts 0 0
          ++ after_poll s, []).
Proof.
  intros Hdeferred.
  destruct fuel as [|loop_fuel]; [lia|].
  unfold run, Feedback.sendFeedback_call, Feedback.sendFeedback.
  cbn [run_sync]. rewrite event_loop_post.
  destruct (submit_reply be) as [err | [|] message data]; try discriminate.
  cbn [is_deferred deferred_task] in *. rewrite Hdeferred.
  unfold Feedback.pollFeedbackTask. rewrite feedback_poll_unfold.
  cbn [run_sync fst snd app].
  match goal with
  | |- context [Feedback.poll_cycle _ _ ?k _ _] =>
      destruct (feedback_poll_loop_then
                  (or_default (rd_task_id data) "")
                  Feedback.default_maxAttempts Feedback.default_interval k
                  ltac:(intros [v|e]; reflexivity) be
                  Feedback.default_maxAttempts loop_fuel 0 0)
        as (s & Hs & Hloop)
  end.
  { unfold Feedback.default_maxAttempts, ArticleRequest.default_maxAttempts
      in *. lia. }
  { lia. }
  exists s. split; [exact Hs|].
  rewrite Hloop. cbn [fst snd]. destruct s; reflexivity.
Qed.

(** A feedback answered at once: sendFeedback returns as its last act. *)
Lemma sendFeedback_immediate (articleId section feedbackText : string) :
  is_deferred (submit_reply be) = false ->
  exists pre v,
    run fuel be (Feedback.sendFeedback_call articleId section feedbackText)
    = (pre ++ [Returned "sendFeedback" v], [])
    /\ returns pre = 0.
Proof.
  intros Hdeferred.
  destruct fuel as [|loop_fuel]; [lia|].
  unfold run, Feedback.sendFeedback_call, Feedback.sendFeedback.
  cbn [run_sync]. rewrite event_loop_post.
  destruct (submit_reply be) as [err | [|] message data].
  - cbn. rewrite event_loop_nil.
    eexists (_ :: _ :: _ :: _ :: [_]), _. split; reflexivity.
  - cbn [is_deferred] in Hdeferred. rewrite Hdeferred.
    unfold Feedback.handleFeedbackResponse.
    destruct (rd_article data), (truthy (rd_article_id data)),
      (rd_article_data data); cbn; rewrite event_loop_nil;
      first [ eexists (_ :: _ :: _ :: [_]), _; split; reflexivity
            | eexists (_ :: _ :: _ :: _ :: [_]), _; split; reflexivity ].
  - cbn. rewrite event_loop_nil.
    eexists (_ :: _ :: _ :: _ :: [_]), _. split; reflexivity.
Qed.
End Submission.

(** ** Submissions answered at once *)

Lemma requestArticle_immediate_trace (requestData : RequestData)
    (be : Backend) (fuel : nat) :
  1 <= fuel ->
  is_deferred (submit_reply be) = false ->
  run fuel be (ArticleRequest.requestArticle_call requestData)
  = (immediate_generation requestData (submit_reply be), []).
Proof.
  intros Hfuel Hdeferred.
  destruct fuel as [|loop_fuel]; [lia|].
  unfold run, ArticleRequest.requestArticle_call,
    ArticleRequest.requestArticle, immediate_generation.
  cbn [seq run_sync]. rewrite event_loop_post.
  destruct (submit_reply be) as [err | [|] message data].
  - cbn. now rewrite event_loop_nil.
  - cbn [is_deferred] in Hdeferred. rewrite Hdeferred.
    unfold ArticleRequest.handleArticleResponse.
    destruct (rd_article_data data); cbn; now rewrite event_loop_nil.
  - cbn. now rewrite event_loop_nil.
Qed.

Lemma sendFeedback_immediate_trace (articleId section feedbackText : string)
    (be : Backend) (fuel : nat) :
  1 <= fuel ->
  is_deferred (submit_reply be) = false ->
  run fuel be (Feedback.sendFeedback_call articleId section feedbackText)
  = (immediate_feedback articleId section feedbackText (submit_reply be), []).
Proof.
  intros Hfuel Hdeferred.
  destruct fuel as [|loop_fuel]; [lia|].
  unfold run, Feedback.sendFeedback_call, Feedback.sendFeedback,
    immediate_feedback.
  cbn [run_sync]. rewrite event_loop_post.
  destruct (submit_reply be) as [err | [|] message data].
  - cbn. now rewrite event_loop_nil.
  - cbn [is_deferred] in Hdeferred. rewrite Hdeferred.
    destruct (Feedback.handleFeedbackResponse data) as [evs v].
    rewrite run_sync_acts. cbn. rewrite event_loop_nil.
    cbn. now rewrite <- !app_assoc, ?app_nil_r.
  - cbn. now rewrite event_loop_nil.
Qed.

(** ** The attempt budget of the hooks *)

Lemma Forall_app_l {A : Type} (P : A -> Prop) (l1 l2 : list A) :
  Forall P (l1 ++ l2) -> Forall P l1.
Proof. intros H. now apply Forall_app in H. Qed.

Lemma immediate_generation_no_poll (requestData : RequestData)
    (reply : SubmitReply) :
  queries (immediate_generation requestData reply) = 0
  /\ attempt_values (immediate_generation requestData reply) = [].
Proof.
  unfold immediate_generation.
  destruct reply as [err | [|] message data]; try (split; reflexivity).
  unfold ArticleRequest.handleArticleResponse.
  destruct (rd_article_data data); split; reflexivity.
Qed.

Lemma immediate_feedback_no_poll (articleId section feedbackText : string)
    (reply : SubmitReply) :
  queries (immediate_feedback articleId section feedbackText reply) = 0
  /\ attempt_values (immediate_feedback articleId section feedbackText reply)
     = [].
Proof.
  unfold immediate_feedback.
  destruct reply as [err | [|] message data]; try (split; reflexivity).
  unfold Feedback.handleFeedbackResponse.
  destruct (rd_article data), (truthy (rd_article_id data)),
    (rd_article_data data); split; reflexivity.
Qed.

(** The hooks call their pollers with the task id only, so the budget
    of a poll run is the default of the hook: whatever the backend
    answers, requestArticle issues at most 60 status queries and
    sendFeedback at most 15, and the counter stays within them. *)
Lemma hook_queries_bounded (be : Backend) (fuel : nat) :
  (forall requestData,
     let tr := trace fuel be (ArticleRequest.requestArticle_call requestData) in
     queries tr <= ArticleRequest.default_maxAttempts
     /\ Forall (fun n => n <= ArticleRequest.default_maxAttempts)
          (attempt_values tr))
  /\ (forall articleId section feedbackText,
        let tr :=
          trace fuel be
            (Feedback.sendFeedback_call articleId section feedbackText) in
        queries tr <= Feedback.default_maxAttempts
        /\ Forall (fun n => n <= Feedback.default_maxAttempts)
             (attempt_values tr)).
Proof.
  set (big := 2 * ArticleRequest.default_maxAttempts + 3).
  assert (Hbig : 2 * ArticleRequest.default_maxAttempts + 3 <= fuel + big)
    by (subst big; lia).
  split.
  - intros requestData tr.
    destruct (trace_prefix fuel big be
                (ArticleRequest.requestArticle_call requestData))
      as [more Hmore].
    fold tr in Hmore.
    assert (Hall : queries (tr ++ more) <= ArticleRequest.default_maxAttempts
                   /\ Forall (fun n => n <= ArticleRequest.default_maxAttempts)
                        (attempt_values (tr ++ more))).
    { rewrite <- Hmore. unfold trace.
      destruct (is_deferred (submit_reply be)) eqn:Hd.
      - rewrite (requestArticle_deferred be (fuel + big) Hbig requestData Hd).
        cbn [fst]. rewrite queries_app, attempt_values_app.
        pose proof (cycles_queries Generation
                      (deferred_task (submit_reply be))
                      ArticleRequest.default_maxAttempts
                      ArticleRequest.default_interval be
                      ArticleRequest.default_maxAttempts 0 0) as Hq.
        pose proof (cycles_attempts Generation
                      (deferred_task (submit_reply be))
                      ArticleRequest.default_maxAttempts
                      ArticleRequest.default_interval be
                      ArticleRequest.default_maxAttempts 0 0) as Ha.
        assert (H0 : 0 < ArticleRequest.default_maxAttempts)
          by (unfold ArticleRequest.default_maxAttempts; lia).
        specialize (Hq H0). specialize (Ha H0).
        split; [|exact Ha].
        change (queries (deferred_prefix requestData
                           (deferred_task (submit_reply be)))) with 1.
        lia.
      - rewrite (requestArticle_immediate_trace requestData be (fuel + big))
          by (subst big; lia || assumption).
        cbn [fst].
        destruct (immediate_generation_no_poll requestData (submit_reply be))
          as [-> ->].
        split; [lia | constructor]. }
    destruct Hall as [Hq Ha].
    rewrite queries_app in Hq. rewrite attempt_values_app in Ha.
    split; [lia | now apply Forall_app_l in Ha].
  - intros articleId section feedbackText tr.
    destruct (trace_prefix fuel big be
                (Feedback.sendFeedback_call articleId section feedbackText))
      as [more Hmore].
    fold tr in Hmore.
    assert (Hall : queries (tr ++ more) <= Feedback.default_maxAttempts
                   /\ Forall (fun n => n <= Feedback.default_maxAttempts)
                        (attempt_values (tr ++ more))).
    { rewrite <- Hmore. unfold trace.
      destruct (is_deferred (submit_reply be)) eqn:Hd.
      - destruct (sendFeedback_deferred be (fuel + big) Hbig articleId section
                    feedbackText Hd) as (s & _ & Hrun).
        rewrite Hrun. cbn [fst].
        rewrite !queries_app, !attempt_values_app.
        pose proof (cycles_queries Feedback
                      (deferred_task (submit_reply be))
                      Feedback.default_maxAttempts
                      Feedback.default_interval be
                      Feedback.default_maxAttempts 0 0) as Hq.
        pose proof (cycles_attempts Feedback
                      (deferred_task (submit_reply be))
                      Feedback.default_maxAttempts
                      Feedback.default_interval be
                      Feedback.default_maxAttempts 0 0) as Ha.
        assert (H0 : 0 < Feedback.default_maxAttempts)
          by (unfold Feedback.default_maxAttempts; lia).
        specialize (Hq H0). specialize (Ha H0).
        change (queries (feedback_prefix articleId section feedbackText
                           (deferred_task (submit_reply be)))) with 1.
        change (attempt_values
                  (feedback_prefix articleId section feedbackText
                     (deferred_task (submit_reply be)))) with (@nil nat).
        assert (Hs : queries (after_poll s) = 0
                     /\ attempt_values (after_poll s) = [])
          by (destruct s; split; reflexivity).
        destruct Hs as [-> ->]. rewrite app_nil_r. cbn [app].
        split; [lia | exact Ha].
      - rewrite (sendFeedback_immediate_trace articleId section feedbackText
                   be (fuel + big)) by (subst big; lia || assumption).
        cbn [fst].
        destruct (immediate_feedback_no_poll articleId section feedbackText
                    (submit_reply be)) as [-> ->].
        split; [lia | constructor]. }
    destruct Hall as [Hq Ha].
    rewrite queries_app in Hq. rewrite attempt_values_app in Ha.
    split; [lia | now apply Forall_app_l in Ha].
Qed.

(** C5: in a poll run of either hook with at least one attempt allowed,
    at every point of the run the number of status queries issued and
    every value stored in the attempt counter are at most maxAttempts; a
    generation run with three attempts whose queries are all answered
    "pending" issues exactly three queries.  The hooks start their poll
    runs with the budgets 60 and 15, so the same holds of every call of
    requestArticle and of sendFeedback. *)
Theorem poll_queries_bounded (kind : JobKind) (taskId : string)
    (maxAttempts interval : nat) (be : Backend) (fuel : nat) :
  1 <= maxAttempts ->
  let tr := trace fuel be (poll_run kind taskId maxAttempts interval) in
  queries tr <= maxAttempts
  /\ Forall (fun n => n <= maxAttempts) (attempt_values tr)
  /\ (forall be' fuel',
        (forall i, status_reply be' i = with_status "pending") ->
        8 <= fuel' ->
        queries (trace fuel' be' (poll_run Generation taskId 3 interval)) = 3)
  /\ (forall requestData,
        let generation :=
          trace fuel be (ArticleRequest.requestArticle_call requestData) in
        queries generation <= ArticleRequest.default_maxAttempts
        /\ Forall (fun n => n <= ArticleRequest.default_maxAttempts)
             (attempt_values generation))
  /\ (forall articleId section feedbackText,
        let feedback :=
          trace fuel be
            (Feedback.sendFeedback_call articleId section feedbackText) in
        queries feedback <= Feedback.default_maxAttempts
        /\ Forall (fun n => n <= Feedback.default_maxAttempts)
             (attempt_values feedback)).
Proof.
  intros Hmax tr.
  destruct (trace_prefix fuel (2 * maxAttempts + 2) be
              (poll_run kind taskId maxAttempts interval)) as [more Hmore].
  fold tr in Hmore. unfold trace in Hmore at 1.
  rewrite poll_run_trace in Hmore by lia. cbn [fst] in Hmore.
  pose proof (cycles_queries kind taskId maxAttempts interval be
                maxAttempts 0 0 Hmax) as Hq.
  pose proof (cycles_attempts kind taskId maxAttempts interval be
                maxAttempts 0 0 Hmax) as Ha.
  assert (Hq' : queries (tr ++ more) <= maxAttempts).
  { rewrite <- Hmore.
    change (queries (HttpGet (status_url taskId) :: ?l))
      with (S (queries l)). lia. }
  assert (Ha' : Forall (fun n => n <= maxAttempts)
                  (attempt_values (tr ++ more))).
  { rewrite <- Hmore. exact Ha. }
  rewrite queries_app in Hq'. rewrite attempt_values_app in Ha'.
  apply Forall_app in Ha' as [Ha' _].
  split; [lia|]. split; [exact Ha'|].
  split; [|exact (hook_queries_bounded be fuel)].
  intros be' fuel' Hpending Hfuel'. unfold trace.
  rewrite poll_run_trace by lia. cbn [fst].
  cbn [cycles]. rewrite !Hpending. reflexivity.
Qed.

Lemma poll_queries_bounded_witness :
  1 <= 3
  /\ queries (trace 8 (always (with_status "pending"))
                (poll_run Generation "t1" 3 3000)) <= 3.
Proof.
  split; [lia|].
  apply (poll_queries_bounded Generation "t1" 3 3000
           (always (with_status "pending")) 8).
  lia.
Defined.

(** C1, as the hooks have it: every call of requestArticle and of
    sendFeedback runs to its end and its promise settles exactly once.
    sendFeedback returns as its last act; when the submission was
    deferred that is after the poll run has settled its promise.
    requestArticle tells exactly one outcome (setArticle or setError)
    and sets loading to false only after it; when the submission was
    answered at once it returns after the outcome, and when the
    submission was deferred it returns right after the first status
    query has been issued, before the cycles of the poll run and the
    outcome they tell. *)
Theorem submission_settles_once (requestData : RequestData)
    (articleId section feedbackText : string) (be : Backend) (fuel : nat) :
  2 * ArticleRequest.default_maxAttempts + 3 <= fuel ->
  let taskId := deferred_task (submit_reply be) in
  let generation :=
    run fuel be (ArticleRequest.requestArticle_call requestData) in
  let feedback :=
    run fuel be (Feedback.sendFeedback_call articleId section feedbackText) in
  let generation_cycles :=
    cycles Generation taskId ArticleRequest.default_maxAttempts
      ArticleRequest.default_interval be
      ArticleRequest.default_maxAttempts 0 0 in
  let feedback_cycles :=
    cycles Feedback taskId Feedback.default_maxAttempts
      Feedback.default_interval be Feedback.default_maxAttempts 0 0 in
  (snd generation = [] /\ returns (fst generation) = 1
   /\ outcomes Generation (fst generation) = 1)
  /\ (exists before after,
        fst generation = before ++ SetLoading false :: after
        /\ outcomes Generation before = 1 /\ loading_off before = 0
        /\ loading_off after = 0)
  /\ (is_deferred (submit_reply be) = false ->
      exists pre, fst generation = pre ++ [Returned "requestArticle" None])
  /\ (is_deferred (submit_reply be) = true ->
      fst generation = deferred_prefix requestData taskId ++ generation_cycles
      /\ outcomes Generation (deferred_prefix requestData taskId) = 0
      /\ outcomes Generation generation_cycles = 1)
  /\ (snd feedback = []
      /\ exists pre v,
           fst feedback = pre ++ [Returned "sendFeedback" v]
           /\ returns pre = 0)
  /\ (is_deferred (submit_reply be) = true ->
      exists s,
        settlements feedback_cycles = [s]
        /\ fst feedback
           = feedback_prefix articleId section feedbackText taskId
               ++ feedback_cycles ++ after_poll s).
Proof.
  intros Hfuel taskId generation feedback generation_cycles feedback_cycles.
  assert (Hcycles : outcomes Generation generation_cycles = 1).
  { apply cycles_one_outcome. lia. }
  destruct (is_deferred (submit_reply be)) eqn:Hdeferred.
  - pose proof (requestArticle_deferred be fuel Hfuel requestData Hdeferred)
      as Hg.
    destruct (sendFeedback_deferred be fuel Hfuel articleId section
                feedbackText Hdeferred) as (s & Hs & Hf).
    fold taskId generation generation_cycles in Hg.
    fold taskId feedback feedback_cycles in Hs, Hf.
    rewrite Hg, Hf. cbn [fst snd].
    split; [|split; [|split; [discriminate|split; [|split]]]].
    + split; [reflexivity|].
      rewrite returns_app, outcomes_app, Hcycles.
      unfold generation_cycles. rewrite cycles_no_return.
      split; reflexivity.
    + destruct (generation_cycles_loading taskId
                  ArticleRequest.default_maxAttempts
                  ArticleRequest.default_interval be
                  ArticleRequest.default_maxAttempts 0 0 ltac:(lia))
        as (before & Hbefore & Hout & Hoff).
      fold generation_cycles in Hbefore. rewrite Hbefore.
      exists (deferred_prefix requestData taskId ++ before), [].
      split; [now rewrite <- app_assoc|].
      rewrite outcomes_app, loading_off_app, Hout, Hoff.
      repeat split.
    + intros _. repeat split. exact Hcycles.
    + split; [reflexivity|].
      assert (Hlast : exists pre v,
                 after_poll s = pre ++ [Returned "sendFeedback" v]
                 /\ returns pre = 0).
      { destruct s as [v|e]; cbn [after_poll].
        - exists [SetLoading false], v. split; reflexivity.
        - exists [SetError (Some (Feedback.catch_message e));
                  SetLoading false], None.
          split; reflexivity. }
      destruct Hlast as (pre & v & -> & Hpre).
      exists (feedback_prefix articleId section feedbackText taskId
                ++ feedback_cycles ++ pre), v.
      split; [now rewrite <- !app_assoc|].
      rewrite !returns_app, Hpre. unfold feedback_cycles.
      rewrite cycles_no_return. reflexivity.
    + intros _. exists s. split; [exact Hs | reflexivity].
  - destruct (requestArticle_immediate be fuel Hfuel requestData Hdeferred)
      as (before & Hg & Hout & Hret & Hoff).
    destruct (sendFeedback_immediate be fuel Hfuel articleId section
                feedbackText Hdeferred) as (pre' & v & Hf & Hret').
    fold generation in Hg. fold feedback in Hf.
    rewrite Hg, Hf. cbn [fst snd].
    split; [|split; [|split; [|split; [discriminate|split; [|discriminate]]]]].
    + split; [reflexivity|].
      rewrite returns_app, outcomes_app, Hout, Hret. split; reflexivity.
    + exists before, [Returned "requestArticle" None].
      repeat split; assumption.
    + intros _. exists (before ++ [SetLoading false]).
      now rewrite <- app_assoc.
    + split; [reflexivity|]. exists pre', v. split; [reflexivity|exact Hret'].
Qed.

(** Scenario A: the task is processing on the first two status queries
    and completed on the third. *)
Lemma submission_settles_once_witness :
  2 * ArticleRequest.default_maxAttempts + 3 <= 130
  /\ outcomes Generation
       (fst (run 130 two_then_done
               (ArticleRequest.requestArticle_call url_request))) = 1.
Proof.
  assert (Hfuel : 2 * ArticleRequest.default_maxAttempts + 3 <= 130).
  { unfold ArticleRequest.default_maxAttempts. lia. }
  split; [exact Hfuel|].
  exact (proj2 (proj2 (proj1
           (submission_settles_once url_request "7" "headline" "Shorter"
              two_then_done 130 Hfuel)))).
Defined.

(** C1 fails for a deferred generation.  In scenario A the promise of
    requestArticle settles after the first status query has been issued
    and before any status reply has been handled; the outcome, the
    article, is told after the third status query. *)
Lemma requestArticle_returns_early :
  run 130 two_then_done (ArticleRequest.requestArticle_call url_request)
  = ([SetLoading true; SetError None; SetArticle None;
      HttpPost "generate/"
        (PGeneration
           {| gp_input_type := "url";
              gp_input_value := "https://example.org/tender";
              gp_instruction := ""; gp_force_refresh := false;
              gp_async := true |});
      HttpGet "tasks/t1/status/";
      Returned "requestArticle" None;
      SetAttempts 1; TimerSet 3000; HttpGet "tasks/t1/status/";
      SetAttempts 2; TimerSet 3000; HttpGet "tasks/t1/status/";
      SetArticle
        (Some [("headline", Some "Tender awarded"); ("article_id", Some "7");
               ("request_id", None); ("validation", None);
               ("generation_time", None); ("from_cache", None)]);
      SetLoading false], []).
Proof. reflexivity. Qed.

(* ================================================================== *)
(** * Further properties of the hooks and the forms *)

(* ------------------------------------------------------------------ *)
(** ** The response handlers *)

(** *** JavaScript objects *)

Lemma find_key_filtered (o : JsObj) (k : string) :
  find (fun kv => fst kv =? k) (filter (fun kv => negb (fst kv =? k)) o)
  = None.
Proof.
  induction o as [|[k0 v0] o IH]; [reflexivity|]. cbn [filter fst].
  destruct (k0 =? k) eqn:Hk; cbn [negb]; [exact IH|].
  cbn [find fst]. now rewrite Hk.
Qed.

Lemma find_other_filtered (o : JsObj) (k k' : string) :
  k <> k' ->
  find (fun kv => fst kv =? k') (filter (fun kv => negb (fst kv =? k)) o)
  = find (fun kv => fst kv =? k') o.
Proof.
  intros Hneq.
  induction o as [|[k0 v0] o IH]; [reflexivity|]. cbn [filter find fst].
  destruct (k0 =? k) eqn:Hk; cbn [negb].
  - apply String.eqb_eq in Hk. subst k0.
    apply String.eqb_neq in Hneq. now rewrite Hneq.
  - cbn [find fst]. destruct (k0 =? k'); [reflexivity | exact IH].
Qed.

Lemma find_app_key (o1 o2 : JsObj) (k : string) :
  find (fun kv => fst kv =? k) (o1 ++ o2)
  = match find (fun kv => fst kv =? k) o1 with
    | Some kv => Some kv
    | None => find (fun kv => fst kv =? k) o2
    end.
Proof.
  induction o1 as [|[k0 v0] o1 IH]; [reflexivity|]. cbn [app find fst].
  destruct (k0 =? k); [reflexivity | exact IH].
Qed.

(** Reading the field that was just set gives the value set. *)
Lemma obj_get_set_same (o : JsObj) (k : string) (v : option string) :
  obj_get (obj_set o k v) k = v.
Proof.
  unfold obj_get, obj_set. rewrite find_app_key, find_key_filtered.
  cbn [find fst]. now rewrite String.eqb_refl.
Qed.

(** Setting a field leaves the other fields as they were. *)
Lemma obj_get_set_other (o : JsObj) (k k' : string) (v : option string) :
  k <> k' -> obj_get (obj_set o k v) k' = obj_get o k'.
Proof.
  intros Hneq. unfold obj_get, obj_set.
  rewrite find_app_key, find_other_filtered by assumption.
  destruct (find (fun kv => fst kv =? k') o); [reflexivity|].
  cbn [find fst]. apply String.eqb_neq in Hneq. now rewrite Hneq.
Qed.

(** *** The response handlers *)

(** X1: when the response carries [article_data], handleArticleResponse
    sets that article and then loading to false; the article it sets has
    the five fields article_id, request_id, validation, generation_time
    and from_cache of the response itself, and every other field as in
    [article_data]. *)
Theorem article_response_fields (responseData : ResponseData)
    (article_data : JsObj) :
  rd_article_data responseData = Some article_data ->
  exists article,
    run_sync (ArticleRequest.handleArticleResponse responseData)
    = ([SetArticle (Some article); SetLoading false], [])
    /\ obj_get article "article_id" = rd_article_id responseData
    /\ obj_get article "request_id" = rd_request_id responseData
    /\ obj_get article "validation" = rd_validation responseData
    /\ obj_get article "generation_time" = rd_generation_time responseData
    /\ obj_get article "from_cache" = rd_from_cache responseData
    /\ (forall k, ~ In k metadata_keys ->
        obj_get article k = obj_get article_data k).
Proof.
  intros Hdata. unfold ArticleRequest.handleArticleResponse. rewrite Hdata.
  eexists. split; [reflexivity|].
  split; [|split; [|split; [|split; [|split]]]].
  - rewrite !obj_get_set_other by discriminate. apply obj_get_set_same.
  - rewrite !obj_get_set_other by discriminate. apply obj_get_set_same.
  - rewrite !obj_get_set_other by discriminate. apply obj_get_set_same.
  - rewrite !obj_get_set_other by discriminate. apply obj_get_set_same.
  - apply obj_get_set_same.
  - intros k Hk. cbn [metadata_keys In] in Hk.
    rewrite !obj_get_set_other; [reflexivity| | | | |]; intros <-; apply Hk; auto 10.
Qed.

Lemma article_response_fields_witness :
  rd_article_data article_result = Some [("headline", Some "Tender awarded")]
  /\ exists article,
       run_sync (ArticleRequest.handleArticleResponse article_result)
       = ([SetArticle (Some article); SetLoading false], [])
       /\ obj_get article "article_id" = Some "7".
Proof.
  split; [reflexivity|].
  destruct (article_response_fields article_result
              [("headline", Some "Tender awarded")] eq_refl)
    as (article & Hrun & Hid & _).
  exists article. split; [exact Hrun | exact Hid].
Defined.

(** A default that is not empty makes [a || d] truthy. *)
Lemma or_default_nonempty (o : option string) (d : string) :
  d <> "" -> or_default o d <> "".
Proof.
  intros Hd. unfold or_default.
  destruct o as [s|]; [|exact Hd].
  destruct (s =? "") eqn:Hs; [exact Hd|]. now apply String.eqb_neq.
Qed.

Lemma truthy_or_default (o : option string) (d : string) :
  d <> "" -> truthy (Some (or_default o d)) = true.
Proof.
  intros Hd. cbn [truthy]. apply negb_true_iff, String.eqb_neq.
  now apply or_default_nonempty.
Qed.

(** handleFeedbackResponse returns null with its error set, and an
    article with no error set. *)
Lemma feedback_response_error (responseData : ResponseData) :
  let evs := fst (Feedback.handleFeedbackResponse responseData) in
  let v := snd (Feedback.handleFeedbackResponse responseData) in
  (v = None <->
   evs = [SetError (Some "Invalid article data received from server")])
  /\ (v <> None <-> evs = []).
Proof.
  unfold Feedback.handleFeedbackResponse.
  destruct (rd_article responseData) as [article|],
    (truthy (rd_article_id responseData)),
    (rd_article_data responseData) as [article_data|];
    cbn [fst snd].
  all: split; [split; [discriminate || reflexivity | discriminate || reflexivity]|].
  all: split; [intros; reflexivity || congruence | discriminate || congruence].
Qed.

(** X2: handleFeedbackResponse returns null exactly when it sets the
    error "Invalid article data received from server", and sets no
    error when it returns an article; it returns null exactly when the
    response has neither an article with a truthy article_id nor
    article_data.  A returned article has the article_id of the response
    and a truthy feedback_applied. *)
Theorem feedback_response_null_iff_error (responseData : ResponseData) :
  let evs := fst (Feedback.handleFeedbackResponse responseData) in
  let v := snd (Feedback.handleFeedbackResponse responseData) in
  (v = None <->
   evs = [SetError (Some "Invalid article data received from server")])
  /\ (v <> None <-> evs = [])
  /\ (v = None <->
      (rd_article responseData = None
       \/ truthy (rd_article_id responseData) = false)
      /\ rd_article_data responseData = None)
  /\ (forall article, v = Some article ->
      obj_get article "article_id" = rd_article_id responseData
      /\ truthy (obj_get article "feedback_applied") = true).
Proof.
  unfold Feedback.handleFeedbackResponse.
  destruct (rd_article responseData) as [article|],
    (truthy (rd_article_id responseData)),
    (rd_article_data responseData) as [article_data|];
    cbn [fst snd].
  all: split; [split; [discriminate || reflexivity | discriminate || reflexivity]|].
  all: split; [split; [intros; reflexivity || congruence
                      | discriminate || congruence]|].
  all: split;
    [split; [discriminate || (intros _; split; [auto|reflexivity])
            | intros [[H|H] H']; discriminate || reflexivity]|].
  all: intros a [= <-] || (intros a; discriminate).
  all: split;
    [ rewrite !obj_get_set_other by discriminate; apply obj_get_set_same
    | rewrite ?obj_get_set_other by discriminate; rewrite obj_get_set_same;
      now apply truthy_or_default ].
Qed.

(** X3: for a response with an article and a truthy article_id,
    handleFeedbackResponse returns that article with each of headline,
    project_details, participants, lots and organizations present (the
    empty string where the article had none); apart from article_id and
    feedback_applied, every other field is as in the article. *)
Theorem feedback_response_fills_sections (responseData : ResponseData)
    (article : JsObj) :
  rd_article responseData = Some article ->
  truthy (rd_article_id responseData) = true ->
  exists updated,
    Feedback.handleFeedbackResponse responseData = ([], Some updated)
    /\ (forall k, In k section_keys ->
        obj_get updated k = Some (or_default (obj_get article k) ""))
    /\ (forall k, ~ In k section_keys -> k <> "article_id" ->
        k <> "feedback_applied" -> obj_get updated k = obj_get article k).
Proof.
  intros Harticle Hid. unfold Feedback.handleFeedbackResponse.
  rewrite Harticle, Hid. eexists. split; [reflexivity|]. split.
  - intros k Hk. cbn [section_keys In] in Hk.
    destruct Hk as [<-|[<-|[<-|[<-|[<-|[]]]]]].
    + rewrite !obj_get_set_other by discriminate. apply obj_get_set_same.
    + rewrite !obj_get_set_other by discriminate. apply obj_get_set_same.
    + rewrite !obj_get_set_other by discriminate. apply obj_get_set_same.
    + rewrite !obj_get_set_other by discriminate. apply obj_get_set_same.
    + apply obj_get_set_same.
  - intros k Hk Hid' Hfa. cbn [section_keys In] in Hk.
    rewrite !obj_get_set_other; [reflexivity| | | | | | |];
      intros <-; try (apply Hk; auto 10); congruence.
Qed.

Lemma feedback_response_fills_sections_witness :
  truthy (Some "7") = true
  /\ exists updated,
       Feedback.handleFeedbackResponse
         {| rd_success := true; rd_error := None; rd_async := false;
            rd_task_id := None; rd_article_data := None;
            rd_article := Some [("headline", Some "Tender awarded")];
            rd_article_id := Some "7"; rd_request_id := None;
            rd_validation := None; rd_generation_time := None;
            rd_from_cache := None; rd_feedback_applied := None |}
       = ([], Some updated)
       /\ obj_get updated "lots" = Some "".
Proof.
  split; [reflexivity|].
  destruct (feedback_response_fills_sections
              {| rd_success := true; rd_error := None; rd_async := false;
                 rd_task_id := None; rd_article_data := None;
                 rd_article := Some [("headline", Some "Tender awarded")];
                 rd_article_id := Some "7"; rd_request_id := None;
                 rd_validation := None; rd_generation_time := None;
                 rd_from_cache := None; rd_feedback_applied := None |}
              [("headline", Some "Tender awarded")] eq_refl eq_refl)
    as (updated & Hrun & Hsections & _).
  exists updated. split; [exact Hrun|].
  apply (Hsections "lots"). cbn. auto 10.
Defined.

(* ------------------------------------------------------------------ *)
(** ** Submissions answered at once, and the queries of deferred ones *)

(** *** Submissions answered at once *)

Lemma network_calls_app (tr1 tr2 : list Event) :
  network_calls (tr1 ++ tr2) = network_calls tr1 + network_calls tr2.
Proof. unfold network_calls. now rewrite filter_app, length_app. Qed.

(** X4: when the submission is not deferred to a task (it fails, or it
    is answered with the result), requestArticle and sendFeedback make
    the one POST and nothing else: no status query is issued and no
    timer is set. *)
Theorem immediate_result_never_polls (requestData : RequestData)
    (articleId section feedbackText : string) (be : Backend) (fuel : nat) :
  1 <= fuel ->
  is_deferred (submit_reply be) = false ->
  let generation :=
    trace fuel be (ArticleRequest.requestArticle_call requestData) in
  let feedback :=
    trace fuel be (Feedback.sendFeedback_call articleId section feedbackText)
  in
  queries generation = 0 /\ network_calls generation = 1
  /\ timers generation = []
  /\ queries feedback = 0 /\ network_calls feedback = 1
  /\ timers feedback = [].
Proof.
  intros Hfuel Hdeferred generation feedback.
  subst generation feedback. unfold trace.
  rewrite requestArticle_immediate_trace, sendFeedback_immediate_trace
    by assumption.
  cbn [fst]. unfold immediate_generation, immediate_feedback.
  destruct (submit_reply be) as [err | [|] message data];
    try (repeat split; reflexivity).
  unfold ArticleRequest.handleArticleResponse, Feedback.handleFeedbackResponse.
  destruct (rd_article_data data), (rd_article data),
    (truthy (rd_article_id data)); repeat split; reflexivity.
Qed.

(** *** Properties of every event of a poll run *)

Lemma forallb_weaken (P Q : Event -> bool) (tr : list Event) :
  (forall e, P e = true -> Q e = true) ->
  forallb P tr = true -> forallb Q tr = true.
Proof.
  intros Himp H. apply forallb_forall. intros e He.
  apply Himp. now apply (proj1 (forallb_forall P tr) H).
Qed.

(** What holds of the polling events and of the events of every cycle
    that ends a run holds of all the events of the cycles. *)
Lemma cycles_forallb (P : Event -> bool) (kind : JobKind) (taskId : string)
    (maxAttempts interval : nat) (be : Backend) :
  P (HttpGet (status_url taskId)) = true ->
  P (TimerSet interval) = true ->
  (forall n, P (SetAttempts n) = true) ->
  P OutOfFuel = true ->
  (forall attempts reply,
     ends_run kind maxAttempts interval attempts reply = true ->
     forallb P (cycle_events kind maxAttempts interval attempts reply)
     = true) ->
  forall fuel attempts answered,
    forallb P (cycles kind taskId maxAttempts interval be fuel attempts
                 answered) = true.
Proof.
  intros Hget Htimer Hattempts Hfuel Hend.
  induction fuel as [|fuel IH]; intros attempts answered;
    rewrite cycles_unfold;
    destruct (ends_run _ _ _ _ _) eqn:He.
  - now apply Hend.
  - cbn [forallb]. now rewrite Hattempts, Htimer, Hfuel.
  - now apply Hend.
  - cbn [forallb]. now rewrite Hattempts, Htimer, Hget, IH.
Qed.

Lemma first_truthy_nonempty (l : list (option string)) (d : string) :
  d <> "" -> first_truthy l d <> "".
Proof.
  intros Hd. induction l as [|o l IH]; [exact Hd|]. cbn [first_truthy].
  destruct (truthy o); [now apply or_default_nonempty | exact IH].
Qed.

(** Every error message of a generation poll cycle is non-empty. *)
Lemma generation_cycle_error_shown (maxAttempts interval attempts : nat)
    (reply : StatusReply) :
  forallb error_shown
    (cycle_events Generation maxAttempts interval attempts reply) = true.
Proof.
  unfold cycle_events, poll_cycle, ArticleRequest.poll_cycle.
  destruct reply as [err | [|] td].
  - simpl. split_budget; reflexivity.
  - split_status td; simpl; split_budget; simpl; try reflexivity.
    + unfold ArticleRequest.handleArticleResponse.
      destruct (rd_article_data result); reflexivity.
    + rewrite andb_true_r. apply negb_true_iff, String.eqb_neq.
      now apply or_default_nonempty.
    + rewrite andb_true_r. apply negb_true_iff, String.eqb_neq.
      now apply or_default_nonempty.
  - reflexivity.
Qed.

(** X5: in a complete run of requestArticle, whatever the backend
    answers, setError is never called with an empty message: every
    error of the run has a text to show. *)
Theorem generation_errors_are_shown (requestData : RequestData)
    (be : Backend) (fuel : nat) :
  2 * ArticleRequest.default_maxAttempts + 3 <= fuel ->
  forallb error_shown
    (trace fuel be (ArticleRequest.requestArticle_call requestData)) = true.
Proof.
  intros Hfuel. unfold trace.
  destruct (is_deferred (submit_reply be)) eqn:Hdeferred.
  - rewrite (requestArticle_deferred be fuel Hfuel requestData Hdeferred).
    cbn [fst]. rewrite forallb_app. apply andb_true_iff. split;
      [reflexivity|].
    apply cycles_forallb; try reflexivity.
    intros attempts reply _. apply generation_cycle_error_shown.
  - rewrite requestArticle_immediate_trace by (assumption || lia).
    cbn [fst]. unfold immediate_generation.
    destruct (submit_reply be) as [err | [|] message data];
      cbn -[first_truthy or_default String.eqb].
    + rewrite andb_true_r. apply negb_true_iff, String.eqb_neq.
      now apply first_truthy_nonempty.
    + unfold ArticleRequest.handleArticleResponse.
      destruct (rd_article_data data); reflexivity.
    + rewrite andb_true_r. apply negb_true_iff, String.eqb_neq.
      now apply or_default_nonempty.
Qed.

Lemma generation_errors_are_shown_witness :
  2 * ArticleRequest.default_maxAttempts + 3 <= 130
  /\ forallb error_shown
       (trace 130 (always (StatusThrow network_error))
          (ArticleRequest.requestArticle_call url_request)) = true.
Proof.
  assert (Hfuel : 2 * ArticleRequest.default_maxAttempts + 3 <= 130).
  { unfold ArticleRequest.default_maxAttempts. lia. }
  split; [exact Hfuel|].
  exact (generation_errors_are_shown url_request
           (always (StatusThrow network_error)) 130 Hfuel).
Defined.

(** *** The network calls of a submission *)

Lemma posts_app (tr1 tr2 : list Event) :
  posts (tr1 ++ tr2) = posts tr1 + posts tr2.
Proof. unfold posts. now rewrite filter_app, length_app. Qed.

Lemma no_post_counts (tr : list Event) :
  forallb (fun e => negb (is_post e)) tr = true -> posts tr = 0.
Proof.
  induction tr as [|e tr IH]; [reflexivity|]. cbn [forallb].
  intros H. apply andb_prop in H as [He Htr].
  unfold posts in *. cbn [filter].
  destruct (is_post e); [discriminate | now apply IH].
Qed.

Lemma end_event_no_post (attempts : nat) (e : Event) :
  is_cycle_end_event attempts e = true -> negb (is_post e) = true.
Proof. destruct e; try discriminate; reflexivity. Qed.

Lemma end_event_query_to (attempts : nat) (url : string) (e : Event) :
  is_cycle_end_event attempts e = true -> query_to url e = true.
Proof. destruct e; try discriminate; reflexivity. Qed.

Lemma cycles_no_post (kind : JobKind) (taskId : string)
    (maxAttempts interval : nat) (be : Backend)
    (fuel attempts answered : nat) :
  posts (cycles kind taskId maxAttempts interval be fuel attempts answered)
  = 0.
Proof.
  apply no_post_counts. apply cycles_forallb; try reflexivity.
  intros a r Hend.
  apply (forallb_weaken (is_cycle_end_event a)).
  - apply end_event_no_post.
  - now apply cycle_events_end.
Qed.

Lemma cycles_query_to (kind : JobKind) (taskId : string)
    (maxAttempts interval : nat) (be : Backend)
    (fuel attempts answered : nat) :
  forallb (query_to (status_url taskId))
    (cycles kind taskId maxAttempts interval be fuel attempts answered)
  = true.
Proof.
  apply cycles_forallb; try reflexivity.
  - cbn. apply String.eqb_refl.
  - intros a r Hend.
    apply (forallb_weaken (is_cycle_end_event a)).
    + apply end_event_query_to.
    + now apply cycle_events_end.
Qed.

(** X6: when the submission is deferred, both hooks post once, issue at
    least one status query, and every status query of the run goes to
    tasks/<task_id>/status/ for the task_id of the submission reply; no
    status query is issued before that reply. *)
Theorem deferred_run_queries_its_task (requestData : RequestData)
    (articleId section feedbackText : string) (be : Backend) (fuel : nat) :
  2 * ArticleRequest.default_maxAttempts + 3 <= fuel ->
  is_deferred (submit_reply be) = true ->
  let url := status_url (deferred_task (submit_reply be)) in
  let generation :=
    trace fuel be (ArticleRequest.requestArticle_call requestData) in
  let feedback :=
    trace fuel be (Feedback.sendFeedback_call articleId section feedbackText)
  in
  (forallb (query_to url) generation = true
   /\ posts generation = 1 /\ 1 <= queries generation
   /\ queries (fst (run_sync
                      (ArticleRequest.requestArticle_call requestData))) = 0)
  /\ (forallb (query_to url) feedback = true
      /\ posts feedback = 1 /\ 1 <= queries feedback
      /\ queries (fst (run_sync
                         (Feedback.sendFeedback_call articleId section
                            feedbackText))) = 0).
Proof.
  intros Hfuel Hdeferred url generation feedback.
  subst url generation feedback. unfold trace.
  rewrite (requestArticle_deferred be fuel Hfuel requestData Hdeferred).
  destruct (sendFeedback_deferred be fuel Hfuel articleId section
              feedbackText Hdeferred) as (s & _ & ->).
  cbn [fst]. split.
  - rewrite forallb_app, posts_app, queries_app, cycles_no_post,
      cycles_query_to.
    split; [|split; [reflexivity|split; [|reflexivity]]].
    + cbn. now rewrite String.eqb_refl.
    + cbn. lia.
  - rewrite !forallb_app, !posts_app, !queries_app, cycles_no_post,
      cycles_query_to.
    split; [|split; [|split; [|reflexivity]]].
    + cbn. rewrite String.eqb_refl. destruct s; reflexivity.
    + destruct s; reflexivity.
    + cbn. lia.
Qed.

Lemma deferred_run_queries_its_task_witness :
  2 * ArticleRequest.default_maxAttempts + 3 <= 130
  /\ is_deferred (submit_reply two_then_done) = true
  /\ forallb (query_to "tasks/t1/status/")
       (trace 130 two_then_done
          (ArticleRequest.requestArticle_call url_request)) = true.
Proof.
  assert (Hfuel : 2 * ArticleRequest.default_maxAttempts + 3 <= 130).
  { unfold ArticleRequest.default_maxAttempts. lia. }
  split; [exact Hfuel|]. split; [reflexivity|].
  exact (proj1 (proj1 (deferred_run_queries_its_task url_request "7"
                         "headline" "Shorter" two_then_done 130 Hfuel
                         eq_refl))).
Defined.

Lemma immediate_result_never_polls_witness :
  1 <= 1
  /\ is_deferred (PostBody true None article_result) = false
  /\ queries (trace 1
                {| submit_reply := PostBody true None article_result;
                   status_reply := fun _ => with_status "processing" |}
                (ArticleRequest.requestArticle_call url_request)) = 0.
Proof.
  split; [lia|]. split; [reflexivity|].
  exact (proj1 (immediate_result_never_polls url_request "7" "headline"
                  "Shorter"
                  {| submit_reply := PostBody true None article_result;
                     status_reply := fun _ => with_status "processing" |}
                  1 (le_n 1) eq_refl)).
Defined.

(* ------------------------------------------------------------------ *)
(** ** The schedule of a poll run *)

(** *** Timers and counter values of a poll run *)

Lemma end_events_no_timer (attempts : nat) (tr : list Event) :
  forallb (is_cycle_end_event attempts) tr = true -> timers tr = [].
Proof.
  induction tr as [|e tr IH]; [reflexivity|]. simpl.
  intros H. apply andb_prop in H as [He Htr].
  destruct e; try discriminate; apply IH; assumption.
Qed.

(** A cycle that ends a run stores the counter at most once. *)
Lemma cycle_end_counter (kind : JobKind) (maxAttempts interval attempts : nat)
    (reply : StatusReply) :
  ends_run kind maxAttempts interval attempts reply = true ->
  attempt_values (cycle_events kind maxAttempts interval attempts reply) = []
  \/ attempt_values (cycle_events kind maxAttempts interval attempts reply)
     = [S attempts].
Proof.
  unfold ends_run, cycle_events, poll_cycle,
    ArticleRequest.poll_cycle, Feedback.poll_cycle.
  destruct kind, reply as [err | [|] td]; auto.
  - simpl. split_budget; simpl; auto; discriminate.
  - split_status td; simpl; split_budget; simpl; auto; try discriminate.
    unfold ArticleRequest.handleArticleResponse.
    destruct (rd_article_data result); auto.
  - split_status td; simpl; split_budget; simpl; auto; try discriminate.
    all: unfold Feedback.handleFeedbackResponse;
      destruct (rd_article result), (truthy (rd_article_id result)),
        (rd_article_data result); auto.
Qed.

Section PollSchedule.
Variables (kind : JobKind) (taskId : string) (maxAttempts interval : nat).
Variable be : Backend.

Lemma cycles_schedule (fuel attempts answered : nat) :
  maxAttempts <= attempts + fuel + 1 ->
  let tr := cycles kind taskId maxAttempts interval be fuel attempts
              answered in
  timers tr = repeat interval (queries tr)
  /\ exists n,
       attempt_values tr = List.seq (S attempts) n
       /\ (n = queries tr \/ n = S (queries tr)).
Proof.
  revert attempts answered.
  induction fuel as [|fuel IH]; intros attempts answered Hfuel;
    cbv zeta; rewrite cycles_unfold;
    destruct (ends_run _ _ _ _ _) eqn:Hend.
  - pose proof (cycle_events_end _ _ _ _ _ Hend) as Hev.
    rewrite (end_events_no_timer attempts), (end_events_no_query attempts)
      by assumption.
    split; [reflexivity|].
    destruct (cycle_end_counter _ _ _ _ _ Hend) as [-> | ->];
      [exists 0 | exists 1]; auto.
  - apply retry_budget in Hend. lia.
  - pose proof (cycle_events_end _ _ _ _ _ Hend) as Hev.
    rewrite (end_events_no_timer attempts), (end_events_no_query attempts)
      by assumption.
    split; [reflexivity|].
    destruct (cycle_end_counter _ _ _ _ _ Hend) as [-> | ->];
      [exists 0 | exists 1]; auto.
  - destruct (IH (S attempts) (S answered) ltac:(lia))
      as (Htimers & n & Hvalues & Hn).
    change (queries (SetAttempts (S attempts) :: TimerSet interval ::
              HttpGet (status_url taskId) :: ?l))
      with (S (queries l)).
    cbn [timers attempt_values repeat]. rewrite Htimers. split; [reflexivity|].
    exists (S n). rewrite Hvalues. split; [reflexivity | lia].
Qed.
End PollSchedule.

(** X7: in a complete poll run of either hook, each status query but
    the first was started by one timer, every timer has the configured
    interval, and the values stored in the attempt counter are 1, 2, 3,
    ... without a gap: one per query, or one less when the last query
    ended the run without counting. *)
Theorem poll_schedule_is_regular (kind : JobKind) (taskId : string)
    (maxAttempts interval : nat) (be : Backend) (fuel : nat) :
  2 * maxAttempts + 2 <= fuel ->
  let tr := trace fuel be (poll_run kind taskId maxAttempts interval) in
  S (List.length (timers tr)) = queries tr
  /\ timers tr = repeat interval (queries tr - 1)
  /\ exists n,
       attempt_values tr = List.seq 1 n
       /\ (S n = queries tr \/ n = queries tr).
Proof.
  intros Hfuel tr. subst tr. unfold trace.
  rewrite poll_run_trace by assumption. cbn [fst].
  destruct (cycles_schedule kind taskId maxAttempts interval be
              maxAttempts 0 0 ltac:(lia)) as (Htimers & n & Hvalues & Hn).
  change (queries (HttpGet (status_url taskId) :: ?l)) with (S (queries l)).
  cbn [timers attempt_values]. rewrite Htimers, repeat_length.
  replace (S (queries (cycles kind taskId maxAttempts interval be
                         maxAttempts 0 0)) - 1)
    with (queries (cycles kind taskId maxAttempts interval be
                     maxAttempts 0 0)) by lia.
  split; [reflexivity|]. split; [reflexivity|].
  exists n. split; [exact Hvalues | lia].
Qed.

Lemma poll_schedule_is_regular_witness :
  2 * 3 + 2 <= 8
  /\ timers (trace 8 (always (with_status "pending"))
               (poll_run Generation "t1" 3 3000)) = repeat 3000 (3 - 1).
Proof.
  split; [lia|].
  assert (H : 2 * 3 + 2 <= 8) by lia.
  exact (proj1 (proj2 (poll_schedule_is_regular Generation "t1" 3 3000
                         (always (with_status "pending")) 8 H))).
Defined.

(* ------------------------------------------------------------------ *)
(** ** What sendFeedback returns, and the feedback modal *)

(** *** What sendFeedback returns *)

Lemma errors_app (tr1 tr2 : list Event) :
  errors (tr1 ++ tr2) = errors tr1 + errors tr2.
Proof. unfold errors. now rewrite filter_app, length_app. Qed.

Lemma feedback_cycle_settles (maxAttempts interval attempts : nat)
    (reply : StatusReply) :
  ends_run Feedback maxAttempts interval attempts reply = true ->
  exists s,
    settlements (cycle_events Feedback maxAttempts interval attempts reply)
    = [s]
    /\ settled_with_error s
         (cycle_events Feedback maxAttempts interval attempts reply).
Proof.
  unfold ends_run, cycle_events, poll_cycle, Feedback.poll_cycle,
    Feedback.resolve, Feedback.reject.
  destruct reply as [err | [|] td].
  - intros _. eexists. split; reflexivity.
  - split_status td; simpl; split_budget; simpl; try discriminate; intros _;
      try (eexists; split; reflexivity).
    all: unfold Feedback.handleFeedbackResponse;
      destruct (rd_article result), (truthy (rd_article_id result)),
        (rd_article_data result); eexists; split; reflexivity.
  - intros _. eexists. split; reflexivity.
Qed.

Lemma feedback_cycles_settle (taskId : string) (maxAttempts interval : nat)
    (be : Backend) (fuel attempts answered : nat) :
  maxAttempts <= attempts + fuel + 1 ->
  exists s,
    settlements (cycles Feedback taskId maxAttempts interval be fuel attempts
                   answered) = [s]
    /\ settled_with_error s
         (cycles Feedback taskId maxAttempts interval be fuel attempts
            answered).
Proof.
  revert attempts answered.
  induction fuel as [|fuel IH]; intros attempts answered Hfuel;
    rewrite cycles_unfold;
    destruct (ends_run _ _ _ _ _) eqn:Hend.
  - now apply feedback_cycle_settles.
  - apply retry_budget in Hend. lia.
  - now apply feedback_cycle_settles.
  - destruct (IH (S attempts) (S answered) ltac:(lia)) as (s & Hs & He).
    exists s. split; [exact Hs|].
    destruct s as [[a|]|e]; exact He.
Qed.

(** X8: every call of sendFeedback runs to its end, with its return as
    the last event, and it returns null exactly when it has set an
    error before; a call that returns an article has set none. *)
Theorem sendFeedback_null_iff_error (articleId section feedbackText : string)
    (be : Backend) (fuel : nat) :
  2 * ArticleRequest.default_maxAttempts + 3 <= fuel ->
  exists pre v,
    run fuel be (Feedback.sendFeedback_call articleId section feedbackText)
    = (pre ++ [Returned "sendFeedback" v], [])
    /\ (v = None <-> 1 <= errors pre)
    /\ (v <> None <-> errors pre = 0).
Proof.
  intros Hfuel.
  destruct (is_deferred (submit_reply be)) eqn:Hdeferred.
  - destruct (sendFeedback_deferred be fuel Hfuel articleId section
                feedbackText Hdeferred) as (s & Hs & ->).
    destruct (feedback_cycles_settle (deferred_task (submit_reply be))
                Feedback.default_maxAttempts Feedback.default_interval be
                Feedback.default_maxAttempts 0 0 ltac:(lia))
      as (s' & Hs' & Herr).
    rewrite Hs in Hs'. injection Hs' as <-.
    set (cyc := cycles Feedback (deferred_task (submit_reply be))
                  Feedback.default_maxAttempts Feedback.default_interval be
                  Feedback.default_maxAttempts 0 0) in *.
    set (pfx := feedback_prefix articleId section feedbackText
                  (deferred_task (submit_reply be))).
    assert (Hpfx : errors pfx = 0) by reflexivity.
    destruct s as [[a|]|e]; cbn [settled_with_error after_poll] in *.
    + exists (pfx ++ cyc ++ [SetLoading false]), (Some a).
      split; [now rewrite <- !app_assoc|].
      rewrite !errors_app, Hpfx, Herr. cbn.
      split; split; try discriminate; try lia; reflexivity.
    + exists (pfx ++ cyc ++ [SetLoading false]), None.
      split; [now rewrite <- !app_assoc|].
      rewrite !errors_app, Hpfx, Herr. cbn.
      split; split; try congruence; try lia; reflexivity.
    + exists (pfx ++ cyc ++ [SetError (Some (Feedback.catch_message e));
                             SetLoading false]), None.
      split; [now rewrite <- !app_assoc|].
      rewrite !errors_app, Hpfx, Herr. cbn.
      split; split; try congruence; try lia; reflexivity.
  - rewrite sendFeedback_immediate_trace by (assumption || lia).
    unfold immediate_feedback.
    destruct (submit_reply be) as [err | [|] message data].
    + eexists (_ :: _ :: _ :: _ :: [_]), None. split; [reflexivity|].
      cbn. split; split; try congruence; try lia; reflexivity.
    + pose proof (feedback_response_error data)
        as (Hnull & Hsome).
      cbv zeta in Hnull, Hsome.
      destruct (Feedback.handleFeedbackResponse data) as [evs v].
      cbn [fst snd] in *.
      exists ([SetLoading true; SetError None;
               HttpPost "feedback/"
                 (PFeedback (Feedback.build_payload articleId section
                               feedbackText))]
              ++ evs ++ [SetLoading false]), v.
      split; [now rewrite <- !app_assoc|].
      rewrite !errors_app.
      destruct v as [a|].
      * rewrite (proj1 Hsome) by discriminate. cbn.
        split; split; try discriminate; try lia; reflexivity.
      * rewrite (proj1 Hnull) by reflexivity. cbn.
        split; split; try congruence; try lia; reflexivity.
    + eexists (_ :: _ :: _ :: _ :: [_]), None. split; [reflexivity|].
      cbn. split; split; try congruence; try lia; reflexivity.
Qed.

Lemma sendFeedback_null_iff_error_witness :
  2 * ArticleRequest.default_maxAttempts + 3 <= 130
  /\ exists pre v,
       run 130 (always (with_status "pending"))
         (Feedback.sendFeedback_call "7" "headline" "Shorter")
       = (pre ++ [Returned "sendFeedback" v], [])
       /\ (v = None <-> 1 <= errors pre)
       /\ (v <> None <-> errors pre = 0).
Proof.
  assert (Hfuel : 2 * ArticleRequest.default_maxAttempts + 3 <= 130).
  { unfold ArticleRequest.default_maxAttempts. lia. }
  split; [exact Hfuel|].
  exact (sendFeedback_null_iff_error "7" "headline" "Shorter"
           (always (with_status "pending")) 130 Hfuel).
Defined.

(** *** The feedback modal *)

Section FeedbackContinuationGeneral.
Variables (taskId : string) (maxAttempts interval : nat).
Variable k : Settlement -> Task.
Variable be : Backend.

(** The event loop on a pending status query of pollFeedbackTask, when
    what waits for the promise may itself suspend: the cycles of the
    poll run, then what waits for the promise, then the loop goes on
    with what that left suspended. *)
Lemma feedback_poll_loop_general (fuel loop_fuel attempts answered : nat) :
  2 * fuel + 2 <= loop_fuel ->
  maxAttempts <= attempts + fuel + 1 ->
  exists s n answered',
    settlements (cycles Feedback taskId maxAttempts interval be fuel
                   attempts answered) = [s]
    /\ loop_fuel <= n + 2 * fuel + 1
    /\ event_loop loop_fuel be answered
         [OnGet (Feedback.poll_cycle maxAttempts interval k
                   (fun n => match fuel with
                             | S fuel' =>
                                 Feedback.poll taskId maxAttempts interval k
                                   fuel' n
                             | O => Act OutOfFuel Stop
                             end)
                   attempts)]
       = (cycles Feedback taskId maxAttempts interval be fuel attempts
            answered
          ++ fst (run_sync (k s))
          ++ fst (event_loop n be answered' (snd (run_sync (k s)))),
          snd (event_loop n be answered' (snd (run_sync (k s))))).
Proof.
  revert loop_fuel attempts answered.
  induction fuel as [|fuel IH]; intros loop_fuel attempts answered Hloop Hfuel;
    destruct loop_fuel as [|[|n]]; try lia;
    rewrite event_loop_get, cycles_unfold;
    match goal with
    | |- context [Feedback.poll_cycle _ _ _ ?nx _ _] =>
        pose proof (feedback_cycle_then maxAttempts interval k nx attempts
                      (status_reply be answered)) as Hcycle
    end;
    destruct (ends_run Feedback _ _ _ _) eqn:Hend.
  - destruct Hcycle as (s & Hs & ->). exists s, (S n), (S answered).
    split; [exact Hs|]. split; [lia|].
    cbn [fst snd]. now rewrite <- app_assoc.
  - apply retry_budget in Hend. lia.
  - destruct Hcycle as (s & Hs & ->). exists s, (S n), (S answered).
    split; [exact Hs|]. split; [lia|].
    cbn [fst snd]. now rewrite <- app_assoc.
  - rewrite Hcycle. cbn [fst snd].
    destruct (IH n (S attempts) (S answered))
      as (s & n' & answered' & Hs & Hn & Hloop'); [lia | lia |].
    exists s, n', answered'. split; [exact Hs|]. split; [lia|].
    rewrite event_loop_timer, feedback_poll_unfold.
    cbn [run_sync fst snd]. rewrite Hloop'. reflexivity.
Qed.
End FeedbackContinuationGeneral.

Lemma modal_quiet_cycles (taskId : string) (maxAttempts interval : nat)
    (be : Backend) (fuel attempts answered : nat) :
  existsb is_modal_success
    (cycles Feedback taskId maxAttempts interval be fuel attempts answered)
  = false.
Proof.
  assert (H : forallb (fun e => negb (is_modal_success e))
                (cycles Feedback taskId maxAttempts interval be fuel attempts
                   answered) = true).
  { apply cycles_forallb; try reflexivity.
    intros a r Hend.
    apply (forallb_weaken (is_cycle_end_event a)).
    - intros e. destruct e as [| | | |[|]| | | | | | | | | |];
        try discriminate; try reflexivity.
    - now apply cycle_events_end. }
  induction (cycles Feedback taskId maxAttempts interval be fuel attempts
               answered) as [|e tr IH]; [reflexivity|].
  cbn [forallb existsb] in *. apply andb_prop in H as [He Htr].
  apply negb_true_iff in He. rewrite He. now apply IH.
Qed.

Lemma existsb_app_false (P : Event -> bool) (tr1 tr2 : list Event) :
  existsb P tr1 = false -> existsb P tr2 = false ->
  existsb P (tr1 ++ tr2) = false.
Proof. intros H1 H2. now rewrite existsb_app, H1, H2. Qed.

Lemma run_sync_act (e : Event) (t : Task) :
  run_sync (Act e t) = (e :: fst (run_sync t), snd (run_sync t)).
Proof. cbn [run_sync]. destruct (run_sync t); reflexivity. Qed.

Lemma run_act (fuel : nat) (be : Backend) (e : Event) (t : Task) :
  run fuel be (Act e t) = (e :: fst (run fuel be t), snd (run fuel be t)).
Proof.
  unfold run. rewrite run_sync_act. destruct (run_sync t) as [tr s].
  cbn [fst snd]. destruct (event_loop fuel be 0 s). reflexivity.
Qed.

Ltac normalise_lists :=
  repeat (progress (rewrite <- ?app_assoc; cbn [app])); reflexivity.

Section SendFeedbackGeneral.
Variables (articleId section feedbackText : string).
Variable ret : option JsObj -> Task.
Variable be : Backend.

(** sendFeedback hands its result to what waits for it exactly once,
    after the events [pre]; the result is null exactly when an error
    was set. *)
Lemma sendFeedback_returns_once (fuel : nat) :
  2 * Feedback.default_maxAttempts + 4 <= fuel ->
  exists pre v n answered,
    run fuel be (Feedback.sendFeedback articleId section feedbackText ret)
    = (pre ++ fst (run_sync (ret v))
         ++ fst (event_loop n be answered (snd (run_sync (ret v)))),
       snd (event_loop n be answered (snd (run_sync (ret v)))))
    /\ 1 <= n
    /\ existsb is_modal_success pre = false
    /\ returns pre = 0
    /\ (v = None <-> 1 <= errors pre).
Proof.
  intros Hfuel.
  destruct fuel as [|loop_fuel]; [lia|].
  unfold run, Feedback.sendFeedback. rewrite !run_sync_act.
  cbn [run_sync fst snd]. rewrite event_loop_post.
  set (start := [SetLoading true; SetError None;
                 HttpPost "feedback/"
                   (PFeedback (Feedback.build_payload articleId section
                                 feedbackText))]).
  destruct (submit_reply be) as [err | [|] message data].
  - (* the post throws *)
    unfold Feedback.catch, Feedback.finally_return. rewrite !run_sync_act.
    cbn [fst snd].
    exists (start ++ [SetError (Some (Feedback.catch_message err));
                      SetLoading false]), None, loop_fuel, 0.
    split; [reflexivity|]. split; [lia|].
    repeat split; cbn; lia.
  - destruct (rd_async data && truthy (rd_task_id data)) eqn:Hdeferred.
    + (* deferred to a task *)
      unfold Feedback.pollFeedbackTask. rewrite feedback_poll_unfold.
      cbn [run_sync fst snd app].
      match goal with
      | |- context [Feedback.poll_cycle _ _ ?k _ _] =>
          destruct (feedback_poll_loop_general
                      (or_default (rd_task_id data) "")
                      Feedback.default_maxAttempts Feedback.default_interval
                      k be Feedback.default_maxAttempts loop_fuel 0 0)
            as (s & n & i & Hs & Hn & Hloop)
      end; [lia | lia |].
      rewrite Hloop. cbn [fst snd].
      destruct (feedback_cycles_settle (or_default (rd_task_id data) "")
                  Feedback.default_maxAttempts Feedback.default_interval be
                  Feedback.default_maxAttempts 0 0 ltac:(lia))
        as (s' & Hs' & Herr).
      rewrite Hs in Hs'. injection Hs' as <-.
      set (url := status_url (or_default (rd_task_id data) "")).
      set (cyc := cycles Feedback (or_default (rd_task_id data) "")
                    Feedback.default_maxAttempts Feedback.default_interval
                    be Feedback.default_maxAttempts 0 0) in *.
      assert (Hquiet : existsb is_modal_success cyc = false)
        by apply modal_quiet_cycles.
      assert (Hret : returns cyc = 0) by apply cycles_no_return.
      destruct s as [v|e].
      * unfold Feedback.finally_return. rewrite run_sync_act.
        cbn [fst snd].
        exists (start ++ HttpGet url :: cyc ++ [SetLoading false]), v, n, i.
        split; [normalise_lists|].
        split; [lia|]. split.
        { apply existsb_app_false; [reflexivity|].
          cbn [existsb is_modal_success orb].
          apply existsb_app_false; [exact Hquiet | reflexivity]. }
        split.
        { rewrite returns_app.
          change (returns (HttpGet url :: ?l)) with (returns l).
          rewrite returns_app, Hret. reflexivity. }
        rewrite errors_app.
        change (errors (HttpGet url :: ?l)) with (errors l).
        rewrite errors_app.
        destruct v as [a|]; cbn [settled_with_error] in Herr; rewrite Herr;
          cbn; split; try discriminate; try lia; reflexivity.
      * unfold Feedback.catch, Feedback.finally_return.
        rewrite !run_sync_act. cbn [fst snd].
        exists (start ++ HttpGet url
                  :: cyc ++ [SetError (Some (Feedback.catch_message e));
                             SetLoading false]), None, n, i.
        split; [normalise_lists|].
        split; [lia|]. split.
        { apply existsb_app_false; [reflexivity|].
          cbn [existsb is_modal_success orb].
          apply existsb_app_false; [exact Hquiet | reflexivity]. }
        split.
        { rewrite returns_app.
          change (returns (HttpGet url :: ?l)) with (returns l).
          rewrite returns_app, Hret. reflexivity. }
        rewrite errors_app.
        change (errors (HttpGet url :: ?l)) with (errors l).
        rewrite errors_app. cbn. split; [lia | reflexivity].
    + (* answered at once *)
      pose proof (feedback_response_error data)
        as (Hnull & Hsome).
      cbv zeta in Hnull, Hsome.
      destruct (Feedback.handleFeedbackResponse data) as [evs v].
      cbn [fst snd] in Hnull, Hsome.
      rewrite run_sync_acts. unfold Feedback.finally_return.
      rewrite run_sync_act. cbn [fst snd].
      exists (start ++ evs ++ [SetLoading false]), v, loop_fuel, 0.
      split; [normalise_lists|].
      split; [lia|].
      destruct v as [a|].
      * rewrite (proj1 Hsome) by discriminate.
        repeat split; try discriminate; cbn; lia.
      * rewrite (proj1 Hnull) by reflexivity.
        repeat split; cbn; lia.
  - (* the envelope reports a failure *)
    unfold Feedback.finally_return. rewrite !run_sync_act. cbn [fst snd].
    exists (start ++ [SetError (Some (or_default message
                                        Feedback.msg_feedback_failed));
                      SetLoading false]), None, loop_fuel, 0.
    split; [reflexivity|]. split; [lia|].
    repeat split; cbn; lia.
Qed.
End SendFeedbackGeneral.

(** What waits for sendFeedback in FeedbackModal.handleSubmit. *)
(** What waits for sendFeedback in FeedbackModal.handleSubmit. *)
Lemma modal_return (v : option JsObj) (n : nat) (be : Backend) (i : nat) :
  1 <= n ->
  let ret :=
    Act (Returned "sendFeedback" v)
      match v with
      | Some a =>
          Act (SetSuccess true) (Act (OnFeedbackApplied a)
            (SetTimeout
               (Act (SetSuccess false) (Act (SetFeedbackText "")
                  (Act OnClose Stop)))
               2000 Stop))
      | None => Stop
      end in
  fst (run_sync ret) ++ fst (event_loop n be i (snd (run_sync ret)))
  = Returned "sendFeedback" v :: after_submit v
  /\ snd (event_loop n be i (snd (run_sync ret))) = [].
Proof.
  intros Hn. destruct n as [|n]; [lia|].
  destruct v as [a|]; cbn [run_sync fst snd after_submit].
  - rewrite event_loop_timer. cbn [run_sync fst snd].
    rewrite event_loop_nil. split; reflexivity.
  - rewrite event_loop_nil. split; reflexivity.
Qed.

(** X9: for a valid input the feedback modal reports nothing before
    sendFeedback returns; it shows the success message, hands the
    article to its parent and, 2000 ms later, clears the text and closes
    itself exactly when sendFeedback returned an article; when
    sendFeedback returned null, which is when an error was set, it does
    nothing more and stays open. *)
Theorem modal_closes_only_on_success (articleId : option string)
    (section feedbackText : string) (be : Backend) (fuel : nat) :
  valid (FeedbackRequest articleId section feedbackText) = true ->
  2 * Feedback.default_maxAttempts + 4 <= fuel ->
  exists pre v,
    run fuel be (Feedback.handleSubmit articleId section feedbackText)
    = (pre ++ Returned "sendFeedback" v :: after_submit v, [])
    /\ existsb is_modal_success pre = false
    /\ returns pre = 0
    /\ (v = None <-> 1 <= errors pre).
Proof.
  intros Hvalid Hfuel. cbn [valid] in Hvalid.
  apply andb_prop in Hvalid as [Hid Htext].
  unfold Feedback.handleSubmit.
  apply negb_true_iff in Htext. rewrite Hid, Htext. cbn [negb orb].
  rewrite !run_act.
  match goal with
  | |- context [Feedback.sendFeedback ?a ?s ?t ?r] =>
      destruct (sendFeedback_returns_once a s t r be fuel Hfuel)
        as (pre & v & n & i & -> & Hn & Hquiet & Hret & Herr)
  end.
  cbn [fst snd].
  destruct (modal_return v n be i Hn) as [Hev Hrem].
  cbv zeta in Hev, Hrem. rewrite Hev, Hrem.
  exists (SetSuccess false :: SetError None :: pre), v.
  split; [reflexivity|]. split; [exact Hquiet|]. split; [exact Hret|].
  exact Herr.
Qed.

Lemma modal_closes_only_on_success_witness :
  valid (FeedbackRequest (Some "7") "headline" "Shorter") = true
  /\ 2 * Feedback.default_maxAttempts + 4 <= 40
  /\ exists pre v,
       run 40 two_then_done
         (Feedback.handleSubmit (Some "7") "headline" "Shorter")
       = (pre ++ Returned "sendFeedback" v :: after_submit v, [])
       /\ existsb is_modal_success pre = false
       /\ returns pre = 0
       /\ (v = None <-> 1 <= errors pre).
Proof.
  assert (Hfuel : 2 * Feedback.default_maxAttempts + 4 <= 40).
  { unfold Feedback.default_maxAttempts. lia. }
  split; [reflexivity|]. split; [exact Hfuel|].
  exact (modal_closes_only_on_success (Some "7") "headline" "Shorter"
           two_then_done 40 eq_refl Hfuel).
Defined.

(* ------------------------------------------------------------------ *)
(** ** The panels of the article form *)

(** *** What the article form shows at the end of a generation *)

Lemma view_after_app (st : FormView) (tr1 tr2 : list Event) :
  view_after st (tr1 ++ tr2) = view_after (view_after st tr1) tr2.
Proof. apply fold_left_app. Qed.

Lemma view_after_quiet (st : FormView) (tr : list Event) :
  view_quiet tr = true -> view_after st tr = st.
Proof.
  revert st. induction tr as [|e tr IH]; intros st H; [reflexivity|].
  cbn [view_quiet forallb] in H. apply andb_prop in H as [He Htr].
  cbn [view_after fold_left]. destruct e; try discriminate; now apply IH.
Qed.

(** A cycle that ends a generation run first does things that the form
    does not render, then tells one outcome that the form can show, then
    sets loading to false. *)
Lemma generation_cycle_outcome (maxAttempts interval attempts : nat)
    (reply : StatusReply) :
  ends_run Generation maxAttempts interval attempts reply = true ->
  exists quiet o,
    cycle_events Generation maxAttempts interval attempts reply
    = quiet ++ [o; SetLoading false]
    /\ view_quiet quiet = true /\ is_shown_outcome o = true.
Proof.
  unfold ends_run, cycle_events, poll_cycle, ArticleRequest.poll_cycle.
  assert (Hshown : forall o d, d <> "" ->
            is_shown_outcome (SetError (Some (or_default o d))) = true).
  { intros o d Hd. cbn. apply negb_true_iff, String.eqb_neq.
    now apply or_default_nonempty. }
  destruct reply as [err | [|] td].
  - simpl. split_budget; simpl; [discriminate|].
    intros _. eexists (_ :: nil), _. repeat split.
  - split_status td; simpl; split_budget; simpl; try discriminate; intros _;
      try solve [eexists nil, _; repeat split];
      try solve [eexists (_ :: nil), _; repeat split];
      try solve [eexists nil, _; split; [reflexivity|];
                 split; [reflexivity|]; now apply Hshown].
    unfold ArticleRequest.handleArticleResponse.
    destruct (rd_article_data result); eexists nil, _; repeat split.
  - intros _. eexists nil, _. repeat split.
Qed.

Lemma generation_cycles_outcome (taskId : string)
    (maxAttempts interval : nat) (be : Backend)
    (fuel attempts answered : nat) :
  maxAttempts <= attempts + fuel + 1 ->
  exists quiet o,
    cycles Generation taskId maxAttempts interval be fuel attempts answered
    = quiet ++ [o; SetLoading false]
    /\ view_quiet quiet = true /\ is_shown_outcome o = true.
Proof.
  revert attempts answered.
  induction fuel as [|fuel IH]; intros attempts answered Hfuel;
    rewrite cycles_unfold;
    destruct (ends_run _ _ _ _ _) eqn:Hend.
  - now apply generation_cycle_outcome.
  - apply retry_budget in Hend. lia.
  - now apply generation_cycle_outcome.
  - destruct (IH (S attempts) (S answered)) as (quiet & o & -> & Hq & Ho);
      [lia|].
    exists (SetAttempts (S attempts) :: TimerSet interval
              :: HttpGet (status_url taskId) :: quiet), o.
    repeat split; assumption.
Qed.

(** Every generation, once its request is posted, tells one outcome
    that the form can show and then sets loading to false; nothing else
    it does changes what the form renders from. *)
Lemma requestArticle_outcome_shape (requestData : RequestData)
    (be : Backend) (fuel : nat) :
  2 * ArticleRequest.default_maxAttempts + 3 <= fuel ->
  exists quiet1 o quiet2,
    fst (event_loop fuel be 0
           (snd (run_sync (ArticleRequest.requestArticle_call requestData))))
    = quiet1 ++ [o; SetLoading false] ++ quiet2
    /\ snd (event_loop fuel be 0
              (snd (run_sync
                      (ArticleRequest.requestArticle_call requestData))))
       = []
    /\ view_quiet quiet1 = true /\ view_quiet quiet2 = true
    /\ is_shown_outcome o = true.
Proof.
  intros Hfuel.
  assert (Hsync : fst (run_sync
                         (ArticleRequest.requestArticle_call requestData))
                  = [SetLoading true; SetError None; SetArticle None;
                     HttpPost "generate/"
                       (PGeneration
                          (ArticleRequest.build_payload requestData))])
    by reflexivity.
  assert (Hrun : run fuel be (ArticleRequest.requestArticle_call requestData)
                 = (fst (run_sync (ArticleRequest.requestArticle_call
                                     requestData))
                    ++ fst (event_loop fuel be 0
                              (snd (run_sync
                                      (ArticleRequest.requestArticle_call
                                         requestData)))),
                    snd (event_loop fuel be 0
                           (snd (run_sync
                                   (ArticleRequest.requestArticle_call
                                      requestData)))))).
  { unfold run. destruct (run_sync _) as [tr s]. cbn [fst snd].
    destruct (event_loop fuel be 0 s). reflexivity. }
  rewrite Hsync in Hrun.
  destruct (is_deferred (submit_reply be)) eqn:Hdeferred.
  - rewrite (requestArticle_deferred be fuel Hfuel requestData Hdeferred)
      in Hrun.
    destruct (generation_cycles_outcome (deferred_task (submit_reply be))
                ArticleRequest.default_maxAttempts
                ArticleRequest.default_interval be
                ArticleRequest.default_maxAttempts 0 0 ltac:(lia))
      as (quiet & o & Hcyc & Hq & Ho).
    rewrite Hcyc in Hrun.
    pose proof (f_equal fst Hrun) as Htr. pose proof (f_equal snd Hrun) as Hrem.
    cbn [fst snd] in Htr, Hrem.
    change (deferred_prefix requestData (deferred_task (submit_reply be))
              ++ quiet ++ [o; SetLoading false])
      with ([SetLoading true; SetError None; SetArticle None;
             HttpPost "generate/"
               (PGeneration (ArticleRequest.build_payload requestData))]
            ++ HttpGet (status_url (deferred_task (submit_reply be)))
               :: Returned "requestArticle" None
               :: quiet ++ [o; SetLoading false]) in Htr.
    apply app_inv_head in Htr.
    exists (HttpGet (status_url (deferred_task (submit_reply be)))
              :: Returned "requestArticle" None :: quiet), o, [].
    rewrite <- Htr, <- Hrem. repeat split; assumption.
  - rewrite requestArticle_immediate_trace in Hrun by (assumption || lia).
    pose proof (f_equal fst Hrun) as Htr. pose proof (f_equal snd Hrun) as Hrem.
    cbn [fst snd] in Htr, Hrem. unfold immediate_generation in Htr.
    apply app_inv_head in Htr.
    rewrite <- Htr, <- Hrem.
    destruct (submit_reply be) as [err | [|] message data].
    + exists [], (SetError (Some (first_truthy
                     [response_message err; response_detail err;
                      err_message err] ArticleRequest.msg_request_failed))),
        [Returned "requestArticle" None].
      repeat split. cbn -[first_truthy].
      apply negb_true_iff, String.eqb_neq. now apply first_truthy_nonempty.
    + unfold ArticleRequest.handleArticleResponse.
      destruct (rd_article_data data);
        eexists [], _, [Returned "requestArticle" None]; repeat split.
    + exists [], (SetError (Some (or_default message
                                    ArticleRequest.msg_generation_failed))),
        [Returned "requestArticle" None].
      repeat split. cbn -[or_default].
      apply negb_true_iff, String.eqb_neq. now apply or_default_nonempty.
Qed.

(** X10: after a complete run of the article form's handleSubmit on a
    valid input, whatever the backend answers and whatever the form
    showed before, the request form and the loading panel are hidden and
    exactly one of the error panel and the article panel is shown. *)
Theorem generation_ends_in_one_panel (rawContent instruction : string)
    (be : Backend) (fuel : nat) (st : FormView) :
  valid (GenerationRequest rawContent instruction) = true ->
  2 * ArticleRequest.default_maxAttempts + 3 <= fuel ->
  let final :=
    view_after st
      (trace fuel be (ArticleRequest.handleSubmit rawContent instruction)) in
  form_panel final = false
  /\ loading_panel final = false
  /\ xorb (error_panel final) (article_panel final) = true.
Proof.
  intros Hvalid Hfuel. cbn [valid] in Hvalid.
  apply negb_true_iff in Hvalid.
  unfold ArticleRequest.handleSubmit. rewrite Hvalid.
  match goal with
  | |- context [ArticleRequest.requestArticle_call ?rd] =>
      set (requestData := rd);
      destruct (requestArticle_outcome_shape rd be fuel Hfuel)
        as (q1 & o & q2 & Hloop & Hrem & Hq1 & Hq2 & Ho)
  end.
  unfold trace, run. rewrite run_sync_act. cbn [run_sync fst snd].
  assert (Hsync : run_sync (ArticleRequest.requestArticle_call requestData)
                  = ([SetLoading true; SetError None; SetArticle None;
                      HttpPost "generate/"
                        (PGeneration
                           (ArticleRequest.build_payload requestData))],
                     snd (run_sync (ArticleRequest.requestArticle_call
                                      requestData))))
    by reflexivity.
  rewrite Hsync. cbn [fst snd app]. rewrite app_nil_r.
  destruct (event_loop fuel be 0 _) as [tr rem]. cbn [fst snd] in *.
  subst tr.
  change (SetError None :: SetLoading true :: SetError None
            :: SetArticle None
            :: HttpPost "generate/"
                 (PGeneration (ArticleRequest.build_payload requestData))
            :: SetSubmitted true :: q1 ++ [o; SetLoading false] ++ q2)
    with ([SetError None; SetLoading true; SetError None; SetArticle None;
           HttpPost "generate/"
             (PGeneration (ArticleRequest.build_payload requestData));
           SetSubmitted true] ++ q1 ++ [o; SetLoading false] ++ q2).
  rewrite !view_after_app, (view_after_quiet _ q1 Hq1),
    (view_after_quiet _ q2 Hq2).
  clear Hsync Hrem.
  destruct o as [| [m|] | [a|] | | | | | | | | | | | |]; try discriminate;
    cbn -[String.eqb negb] in *; repeat split; try reflexivity.
  unfold error_panel, truthy.
  cbn [st_submitted st_error st_loading andb negb]. now rewrite Ho.
Qed.

Lemma generation_ends_in_one_panel_witness :
  valid (GenerationRequest "https://example.org/tender" "") = true
  /\ 2 * ArticleRequest.default_maxAttempts + 3 <= 130
  /\ article_panel
       (view_after
          {| st_loading := false; st_error := Some "old error";
             st_article := None; st_submitted := false |}
          (trace 130 two_then_done
             (ArticleRequest.handleSubmit "https://example.org/tender" "")))
     = true.
Proof.
  assert (Hfuel : 2 * ArticleRequest.default_maxAttempts + 3 <= 130).
  { unfold ArticleRequest.default_maxAttempts. lia. }
  split; [reflexivity|]. split; [exact Hfuel|].
  pose proof (generation_ends_in_one_panel "https://example.org/tender" ""
                two_then_done 130
                {| st_loading := false; st_error := Some "old error";
                   st_article := None; st_submitted := false |}
                eq_refl Hfuel) as (_ & _ & Hone).
  cbv zeta in Hone.
  destruct (article_panel _); [reflexivity|].
  destruct (error_panel _) eqn:He; [|discriminate Hone].
  exfalso. vm_compute in He. discriminate He.
Defined.

(* ------------------------------------------------------------------ *)
(** ** The text of the article panel *)

Lemma string_app_assoc (a b c : string) :
  ((a ++ b) ++ c = a ++ (b ++ c))%string.
Proof. induction a as [| x a IH]; cbn; [reflexivity | now rewrite IH]. Qed.

Lemma string_app_nil_r (a : string) : (a ++ "")%string = a.
Proof. induction a as [| x a IH]; cbn; [reflexivity | now rewrite IH]. Qed.

Lemma split_lines_nonempty (s : string) : split_lines s <> [].
Proof.
induction s as [| c s IH]; cbn [split_lines]; [easy |].
destruct (Ascii.eqb c LF); [easy |].
destruct (split_lines s); easy.
Qed.

Lemma join_cons (sep s l : string) (ls : list string) :
  join sep (s :: l :: ls) = (s ++ sep ++ join sep (l :: ls))%string.
Proof. reflexivity. Qed.

Lemma split_lines_app (a b : string) :
  split_lines (a ++ nl ++ b)%string = split_lines a ++ split_lines b.
Proof.
induction a as [| c a IH].
- reflexivity.
- cbn [append split_lines]. rewrite IH.
  destruct (Ascii.eqb c LF); [reflexivity |].
  pose proof (split_lines_nonempty a) as Hne.
  destruct (split_lines a); [contradiction | reflexivity].
Qed.

Lemma join_empty_snoc (l : list string) (s : string) :
  join "" (l ++ [s]) = (join "" l ++ s)%string.
Proof.
induction l as [| a l IH]; [reflexivity |].
destruct l as [| b l].
- cbn. reflexivity.
- change ((a :: b :: l) ++ [s]) with (a :: b :: (l ++ [s])).
  rewrite !join_cons. change (b :: l ++ [s]) with ((b :: l) ++ [s]).
  rewrite IH. cbn [append]. now rewrite string_app_assoc.
Qed.

Lemma join_push_field (article : JsObj) (field prefix : string)
  (l : list string) :
  join "" (push_field article field prefix l) =
  (join "" l ++ field_text article field prefix)%string.
Proof.
unfold push_field, field_text.
destruct (truthy (obj_get article field)).
- apply join_empty_snoc.
- now rewrite string_app_nil_r.
Qed.

(** The combined text is the concatenation of what the seven fields
    contribute, in the order of the source. *)
Lemma combined_text (article : JsObj) :
  getCombinedArticleContent (Some article) =
  Some (field_text article "content" "" ++
        field_text article "summary" (nl ++ nl ++ "SUMMARY:" ++ nl) ++
        field_text article "project_details" (nl ++ nl ++ "PROJECT DETAILS:" ++ nl) ++
        field_text article "participants" (nl ++ nl ++ "PARTICIPANTS:" ++ nl) ++
        field_text article "organizations" (nl ++ nl ++ "ORGANIZATIONS:" ++ nl) ++
        field_text article "lots" (nl ++ nl ++ "LOTS:" ++ nl) ++
        field_text article "key_points" (nl ++ nl ++ "KEY POINTS:" ++ nl))%string.
Proof.
unfold getCombinedArticleContent.
cbv zeta. rewrite !join_push_field. cbn [join].
rewrite !string_app_assoc. reflexivity.
Qed.

Lemma truthy_value (o : option string) :
  truthy o = true -> or_default o "" <> "".
Proof.
destruct o as [s |]; cbn; [| discriminate].
destruct (String.eqb_spec s ""); [discriminate | auto].
Qed.

Lemma string_app_empty (a b : string) :
  (a ++ b)%string = "" -> a = "" /\ b = "".
Proof. destruct a; cbn; [auto | discriminate]. Qed.

Lemma field_text_empty (article : JsObj) (field prefix : string) :
  field_text article field prefix = "" <->
  truthy (obj_get article field) = false.
Proof.
unfold field_text.
destruct (truthy (obj_get article field)) eqn:E.
- split; [| discriminate].
  intros H. apply string_app_empty in H. destruct H as [_ H].
  now apply truthy_value in E.
- split; reflexivity.
Qed.

(** X12: the article panel's text,
    renderArticleContent(getCombinedArticleContent()), is null exactly
    when there is no article or none of the fields content, summary,
    project_details, participants, organizations, lots and key_points
    of the article is truthy. *)
Theorem article_text_empty_iff (article : option JsObj) :
  renderArticleContent (getCombinedArticleContent article) = None <->
  match article with
  | None => True
  | Some a => forall field, In field text_fields ->
                            truthy (obj_get a field) = false
  end.
Proof.
destruct article as [a |]; [| cbn; tauto].
rewrite combined_text.
unfold renderArticleContent.
set (c := (_ ++ _)%string).
assert (Hc : c = "" <->
  forall field, In field text_fields -> truthy (obj_get a field) = false).
{ subst c. split.
  - intros H.
    repeat (apply string_app_empty in H; destruct H as [?H H]).
    repeat match goal with
           | Hf : field_text _ _ _ = "" |- _ => apply field_text_empty in Hf
           end.
    intros field Hin. cbn in Hin.
    repeat (destruct Hin as [<- | Hin]; [assumption |]). contradiction.
  - intros H.
    repeat match goal with
           | |- context [field_text a ?f ?p] =>
               let E := fresh "E" in
               assert (E : field_text a f p = "")
                 by (apply field_text_empty, H; cbn; auto 10);
               rewrite E; clear E
           end.
    reflexivity. }
unfold truthy. destruct (String.eqb_spec c "") as [E | E]; cbn [negb].
- split; [intros _; now apply Hc | reflexivity].
- split; [discriminate | intros H; apply Hc in H; contradiction].
Qed.

Lemma opens_line_app (a b : string) :
  opens_line a -> opens_line b -> opens_line (a ++ b)%string.
Proof.
intros [-> | [r ->]] Hb; [exact Hb |].
right. exists (r ++ b)%string. now rewrite string_app_assoc.
Qed.

Lemma field_text_opens_line (article : JsObj) (field h : string) :
  opens_line (field_text article field (nl ++ h)%string).
Proof.
unfold field_text. destruct (truthy (obj_get article field)); [| now left].
right. eexists. now rewrite string_app_assoc.
Qed.

Lemma split_lines_before (v s : string) :
  opens_line s ->
  exists post, split_lines (v ++ s)%string = split_lines v ++ post.
Proof.
intros [-> | [r ->]].
- exists []. now rewrite string_app_nil_r, app_nil_r.
- exists (split_lines r). apply split_lines_app.
Qed.

Lemma paragraph_texts_render (n : nat) (lines : list string) :
  paragraph_texts (render_lines n lines) = filter nonblank lines.
Proof.
revert n. induction lines as [| l ls IH]; intros n; [reflexivity |].
cbn [render_lines filter]. unfold nonblank at 1.
destruct (trim l =? ""); cbn [negb paragraph_texts]; now rewrite IH.
Qed.

Lemma split_lines_line (h : string) :
  no_line_feed h = true -> split_lines h = [h].
Proof.
unfold no_line_feed.
induction h as [| c h IH]; [reflexivity |].
cbn [list_ascii_of_string forallb split_lines].
intros H. apply andb_prop in H. destruct H as [Hc Hh].
apply negb_true_iff in Hc. rewrite Hc, (IH Hh). reflexivity.
Qed.

(** A headed part in the middle of a text: its heading and its value
    are rendered one after the other. *)
Lemma headed_part_rendered (before heading value rest : string) :
  no_line_feed heading = true ->
  nonblank heading = true ->
  opens_line rest ->
  exists pre post,
    filter nonblank
      (split_lines (before ++ (nl ++ nl ++ heading ++ nl ++ value) ++ rest)%string) =
    pre ++ heading :: filter nonblank (split_lines value) ++ post.
Proof.
intros Hlf Hnb Hrest.
destruct (split_lines_before value rest Hrest) as [post Hpost].
exists (filter nonblank (split_lines before)), (filter nonblank post).
rewrite !string_app_assoc.
rewrite split_lines_app.
change (nl ++ heading ++ nl ++ value ++ rest)%string
  with ("" ++ nl ++ heading ++ nl ++ value ++ rest)%string.
rewrite split_lines_app, split_lines_app, Hpost, (split_lines_line _ Hlf).
rewrite !filter_app. cbn [filter split_lines]. rewrite Hnb.
reflexivity.
Qed.

Lemma field_text_present (article : JsObj) (field prefix : string) :
  truthy (obj_get article field) = true ->
  field_text article field prefix =
  (prefix ++ or_default (obj_get article field) "")%string.
Proof. unfold field_text. now intros ->. Qed.

Lemma render_combined (article : JsObj) (c : string) :
  getCombinedArticleContent (Some article) = Some c ->
  c <> "" ->
  exists entries,
    renderArticleContent (getCombinedArticleContent (Some article)) =
    Some entries /\
    paragraph_texts entries = filter nonblank (split_lines c).
Proof.
intros -> Hc. apply String.eqb_neq in Hc.
exists (render_lines 0 (split_lines c)).
unfold renderArticleContent, truthy, or_default. rewrite Hc. cbn [negb].
split; [reflexivity | apply paragraph_texts_render].
Qed.

Lemma string_app_nonempty_r (a b : string) : b <> "" -> (a ++ b)%string <> "".
Proof. intros Hb H. apply string_app_empty in H. tauto. Qed.

Lemma string_app_nonempty_l (a b : string) : a <> "" -> (a ++ b)%string <> "".
Proof. intros Ha H. apply string_app_empty in H. tauto. Qed.

Ltac rest_opens_line :=
  repeat first
    [ apply field_text_opens_line
    | apply opens_line_app
    | now left ].

(** X13: each of the sections summary, project_details, participants,
    organizations, lots and key_points that the article has is rendered
    as a paragraph with its heading, followed at once by the paragraphs
    of the non-blank lines of the section's own text. *)
Theorem section_rendered_under_heading
  (article : JsObj) (field heading : string) :
  In (field, heading) headed_sections ->
  truthy (obj_get article field) = true ->
  exists entries pre post,
    renderArticleContent (getCombinedArticleContent (Some article)) =
    Some entries /\
    paragraph_texts entries =
    pre ++ heading ::
      filter nonblank (split_lines (or_default (obj_get article field) "")) ++
      post.
Proof.
intros Hin Hfield.
pose proof (combined_text article) as Hc.
pose proof (truthy_value _ Hfield) as Hv.
set (c := (_ ++ _)%string) in Hc.
assert (Hparts : c <> "" /\ exists before rest,
  c = (before ++ (nl ++ nl ++ heading ++ nl ++
                  or_default (obj_get article field) "") ++ rest)%string /\
  opens_line rest /\ no_line_feed heading = true /\ nonblank heading = true).
{ subst c. cbn in Hin.
  repeat (destruct Hin as [Hin | Hin];
    [ injection Hin as <- <- | ]); try contradiction.
  all: rewrite (field_text_present _ _ _ Hfield).
  all: split;
    [ repeat first [ apply string_app_nonempty_l; discriminate
                   | apply string_app_nonempty_r ];
      try (apply string_app_nonempty_l; discriminate)
    | ].
  - exists (field_text article "content" ""). eexists.
    split; [rewrite !string_app_assoc; reflexivity |].
    split; [rest_opens_line | split; reflexivity].
  - exists (field_text article "content" "" ++
            field_text article "summary" (nl ++ nl ++ "SUMMARY:" ++ nl))%string.
    eexists.
    split; [rewrite !string_app_assoc; reflexivity |].
    split; [rest_opens_line | split; reflexivity].
  - exists (field_text article "content" "" ++
            field_text article "summary" (nl ++ nl ++ "SUMMARY:" ++ nl) ++
            field_text article "project_details"
              (nl ++ nl ++ "PROJECT DETAILS:" ++ nl))%string.
    eexists.
    split; [rewrite !string_app_assoc; reflexivity |].
    split; [rest_opens_line | split; reflexivity].
  - exists (field_text article "content" "" ++
            field_text article "summary" (nl ++ nl ++ "SUMMARY:" ++ nl) ++
            field_text article "project_details"
              (nl ++ nl ++ "PROJECT DETAILS:" ++ nl) ++
            field_text article "participants"
              (nl ++ nl ++ "PARTICIPANTS:" ++ nl))%string.
    eexists.
    split; [rewrite !string_app_assoc; reflexivity |].
    split; [rest_opens_line | split; reflexivity].
  - exists (field_text article "content" "" ++
            field_text article "summary" (nl ++ nl ++ "SUMMARY:" ++ nl) ++
            field_text article "project_details"
              (nl ++ nl ++ "PROJECT DETAILS:" ++ nl) ++
            field_text article "participants"
              (nl ++ nl ++ "PARTICIPANTS:" ++ nl) ++
            field_text article "organizations"
              (nl ++ nl ++ "ORGANIZATIONS:" ++ nl))%string.
    eexists.
    split; [rewrite !string_app_assoc; reflexivity |].
    split; [rest_opens_line | split; reflexivity].
  - exists (field_text article "content" "" ++
            field_text article "summary" (nl ++ nl ++ "SUMMARY:" ++ nl) ++
            field_text article "project_details"
              (nl ++ nl ++ "PROJECT DETAILS:" ++ nl) ++
            field_text article "participants"
              (nl ++ nl ++ "PARTICIPANTS:" ++ nl) ++
            field_text article "organizations"
              (nl ++ nl ++ "ORGANIZATIONS:" ++ nl) ++
            field_text article "lots" (nl ++ nl ++ "LOTS:" ++ nl))%string.
    exists "".
    split; [rewrite !string_app_assoc, ?string_app_nil_r; reflexivity |].
    split; [now left | split; reflexivity]. }
destruct Hparts as (Hne & before & rest & Hshape & Hrest & Hlf & Hnb).
destruct (render_combined article c Hc Hne) as (entries & Hr & Htexts).
destruct (headed_part_rendered before heading
            (or_default (obj_get article field) "") rest Hlf Hnb Hrest)
  as (pre & post & Hsplit).
exists entries, pre, post. split; [exact Hr |].
rewrite Htexts, Hshape. exact Hsplit.
Qed.

Lemma section_rendered_under_heading_witness :
  exists entries pre post,
    renderArticleContent
      (getCombinedArticleContent
         (Some [("content", Some "Body"); ("lots", Some "Lot 1")])) =
    Some entries /\
    paragraph_texts entries =
    pre ++ "LOTS:" :: filter nonblank (split_lines "Lot 1") ++ post.
Proof.
apply (section_rendered_under_heading
         [("content", Some "Body"); ("lots", Some "Lot 1")] "lots" "LOTS:").
- cbn. auto 10.
- reflexivity.
Defined.

(** X14: when the article has a main content, the rendered paragraphs
    begin with the non-blank lines of that content, before any
    section. *)
Theorem main_content_rendered_first (article : JsObj) :
  truthy (obj_get article "content") = true ->
  exists entries post,
    renderArticleContent (getCombinedArticleContent (Some article)) =
    Some entries /\
    paragraph_texts entries =
    filter nonblank (split_lines (or_default (obj_get article "content") "")) ++
    post.
Proof.
intros Hfield.
pose proof (combined_text article) as Hc.
pose proof (truthy_value _ Hfield) as Hv.
rewrite (field_text_present _ _ _ Hfield) in Hc. cbn [append] in Hc.
set (rest := (field_text article "summary" _ ++ _)%string) in Hc.
assert (Hrest : opens_line rest) by (subst rest; rest_opens_line).
destruct (split_lines_before (or_default (obj_get article "content") "")
            rest Hrest) as [post Hpost].
destruct (render_combined article _ Hc) as (entries & Hr & Htexts).
{ now apply string_app_nonempty_l. }
exists entries, (filter nonblank post). split; [exact Hr |].
now rewrite Htexts, Hpost, filter_app.
Qed.

Lemma main_content_rendered_first_witness :
  exists entries post,
    renderArticleContent
      (getCombinedArticleContent
         (Some [("content", Some "Body"); ("lots", Some "Lot 1")])) =
    Some entries /\
    paragraph_texts entries = filter nonblank (split_lines "Body") ++ post.
Proof.
apply (main_content_rendered_first
         [("content", Some "Body"); ("lots", Some "Lot 1")]).
reflexivity.
Defined.

(** *** All that the article panel shows *)

Lemma sections_text_opens_line (article : JsObj) (l : list (string * string)) :
  opens_line (sections_text article l).
Proof.
induction l as [| [f h] l IH]; [now left |].
cbn [sections_text fst snd]. apply opens_line_app; [| exact IH].
apply (field_text_opens_line article f (nl ++ h ++ nl)).
Qed.

Lemma sections_rendered (article : JsObj) (l : list (string * string)) :
  Forall (fun section => no_line_feed (snd section) = true
                         /\ nonblank (snd section) = true) l ->
  forall v,
  filter nonblank (split_lines (v ++ sections_text article l)%string)
  = filter nonblank (split_lines v)
    ++ flat_map (section_paragraphs article) l.
Proof.
induction 1 as [| [f h] l [Hlf Hnb] Hl IH]; intros v.
- cbn [sections_text flat_map]. now rewrite string_app_nil_r, app_nil_r.
- cbn [sections_text flat_map fst snd] in *.
  unfold section_paragraphs at 1, field_text. cbn [fst snd].
  destruct (truthy (obj_get article f)) eqn:Hf.
  + rewrite !string_app_assoc.
    rewrite split_lines_app.
    change (nl ++ h ++ nl ++ or_default (obj_get article f) ""
              ++ sections_text article l)%string
      with ("" ++ nl ++ h ++ nl ++ or_default (obj_get article f) ""
              ++ sections_text article l)%string.
    rewrite split_lines_app, split_lines_app, (split_lines_line _ Hlf).
    rewrite !filter_app, IH. cbn [filter split_lines]. rewrite Hnb.
    cbn [app]. reflexivity.
  + cbn [append app]. apply IH.
Qed.

Lemma combined_sections (article : JsObj) :
  getCombinedArticleContent (Some article)
  = Some (or_default (obj_get article "content") ""
          ++ sections_text article headed_sections)%string.
Proof.
rewrite combined_text. f_equal.
cbn [sections_text headed_sections fst snd].
rewrite string_app_nil_r. f_equal.
unfold field_text, truthy, or_default.
destruct (obj_get article "content") as [s |]; [| reflexivity].
destruct (s =? ""); reflexivity.
Qed.

(** X11: the article panel shows all of the article's text and nothing
    else.  The paragraphs that
    renderArticleContent(getCombinedArticleContent()) renders are, in
    this order, the non-blank lines of the main content and then, for
    each of summary, project_details, participants, organizations, lots
    and key_points that the article has, the heading of the section
    followed by the non-blank lines of its text.  A line is blank when
    trimming leaves nothing of it, a line of no-break spaces
    included. *)
Theorem article_panel_paragraphs (article : JsObj)
    (entries : list (option Paragraph)) :
  renderArticleContent (getCombinedArticleContent (Some article))
  = Some entries ->
  paragraph_texts entries = article_paragraphs article.
Proof.
rewrite combined_sections. unfold renderArticleContent.
set (c := (or_default (obj_get article "content") ""
           ++ sections_text article headed_sections)%string).
destruct (truthy (Some c)) eqn:Hc; cbn [negb]; [| discriminate].
intros [= <-].
assert (Hor : or_default (Some c) "" = c).
{ unfold truthy in Hc. unfold or_default.
  destruct (c =? ""); [discriminate | reflexivity]. }
change (if c =? "" then "" else c) with (or_default (Some c) "").
rewrite Hor, paragraph_texts_render. subst c.
apply sections_rendered.
repeat constructor.
Qed.

Lemma article_panel_paragraphs_witness :
  let article :=
    [("content", Some ("Body" ++ nl ++ no_break_space)%string);
     ("lots", Some "Lot 1")] in
  let entries :=
    [Some {| p_key := 0; p_text := "Body" |}; None; None;
     Some {| p_key := 3; p_text := "LOTS:" |};
     Some {| p_key := 4; p_text := "Lot 1" |}] in
  renderArticleContent (getCombinedArticleContent (Some article))
  = Some entries
  /\ paragraph_texts entries = ["Body"; "LOTS:"; "Lot 1"].
Proof.
split; [reflexivity |].
apply (article_panel_paragraphs
         [("content", Some ("Body" ++ nl ++ no_break_space)%string);
          ("lots", Some "Lot 1")]).
reflexivity.
Defined.

(* ------------------------------------------------------------------ *)
(** ** The earlier copy of the generation hook *)

Lemma existsb_app_split {A : Type} (P : A -> bool) (l1 l2 : list A) :
  existsb P l1 = false -> existsb P l2 = false ->
  existsb P (l1 ++ l2) = false.
Proof. intros H1 H2. now rewrite existsb_app, H1, H2. Qed.

Lemma run_sync_avoids (P : Event -> bool) (t : Task) :
  avoids P t ->
  existsb P (fst (run_sync t)) = false /\
  Forall (suspended_avoids P) (snd (run_sync t)).
Proof.
induction 1 as [| e k He Hk [IH1 IH2] | ep b k He Hk _ | u k He Hk _
               | cb ms k He Hcb _ Hk [IH1 IH2]
               | c k Hc [IHc1 IHc2] Hk [IHk1 IHk2]];
  cbn [run_sync].
- split; [reflexivity | constructor].
- destruct (run_sync k) as [tr s]. cbn in *. now rewrite He, IH1.
- cbn. rewrite He. split; [reflexivity |]. repeat constructor. exact Hk.
- cbn. rewrite He. split; [reflexivity |]. repeat constructor. exact Hk.
- destruct (run_sync k) as [tr s]. cbn in *. rewrite He, IH1.
  split; [reflexivity |]. constructor; assumption.
- destruct (run_sync c) as [tr1 s1], (run_sync k) as [tr2 s2]. cbn in *.
  split; [now apply existsb_app_split | now apply Forall_app].
Qed.

Lemma event_loop_avoids (P : Event -> bool) (be : Backend) (fuel : nat) :
  forall (answered : nat) (pending : list Suspended),
  Forall (suspended_avoids P) pending ->
  existsb P (fst (event_loop fuel be answered pending)) = false.
Proof.
induction fuel as [| fuel IH]; intros answered pending Hall.
- destruct pending; reflexivity.
- destruct pending as [| p rest]; [reflexivity |].
  rewrite event_loop_cons.
  inversion Hall as [| ? ? Hp Hrest]; subst.
  set (step := match p with
               | OnPost k => (k (submit_reply be), answered)
               | OnGet k => (k (status_reply be answered), S answered)
               | OnTimer _ cb => (cb, answered)
               end).
  assert (Ht : avoids P (fst step)).
  { subst step. destruct p; cbn in *; auto. }
  destruct step as [t answered'].
  destruct (run_sync_avoids P t Ht) as [Htr Hs].
  destruct (run_sync t) as [tr s]. cbn [fst snd] in *.
  specialize (IH answered' (rest ++ s)).
  destruct (event_loop fuel be answered' (rest ++ s)) as [tr' rem].
  cbn [fst] in *. apply existsb_app_split; [exact Htr |].
  apply IH. now apply Forall_app.
Qed.

Lemma legacy_response_avoids_loading (responseData : ResponseData) :
  avoids is_set_loading
    (LegacyArticleRequest.handleArticleResponse responseData).
Proof.
unfold LegacyArticleRequest.handleArticleResponse.
destruct (rd_article_data responseData); repeat constructor.
Qed.

(** The earlier poller never touches the loading flag. *)
Lemma legacy_poll_avoids_loading (taskId : string)
  (maxAttempts interval fuel : nat) :
  forall attempts,
  avoids is_set_loading
    (LegacyArticleRequest.poll taskId maxAttempts interval fuel attempts).
Proof.
induction fuel as [| fuel IH]; intros attempts.
all: cbn [LegacyArticleRequest.poll]; constructor; [reflexivity |].
all: intros [e | [|] td]; cbn -[String.eqb Nat.ltb];
  try (repeat constructor; fail).
all: destruct (td_status td =? "completed");
  [ destruct (td_result td) as [r |];
    [ destruct (rd_success r);
      [ apply legacy_response_avoids_loading | repeat constructor ]
    | repeat constructor ]
  | ].
all: destruct (td_status td =? "failed"); [repeat constructor |].
all: destruct (td_status td =? "processing"); [| constructor].
all: constructor; [reflexivity |].
all: destruct (Nat.ltb (S attempts) maxAttempts); repeat constructor.
apply IH.
Qed.

Lemma legacy_deferred_run (be : Backend) (fuel : nat)
  (requestData : RequestData) :
  is_deferred (submit_reply be) = true ->
  run (S fuel) be (LegacyRequest.requestArticle requestData) =
  (legacy_deferred_prefix requestData (deferred_task (submit_reply be)) ++
   fst (event_loop fuel be 0
          [OnGet (LegacyArticleRequest.poll_cycle
                    LegacyArticleRequest.default_maxAttempts
                    LegacyArticleRequest.default_interval
                    (fun n =>
                       LegacyArticleRequest.poll
                         (deferred_task (submit_reply be))
                         LegacyArticleRequest.default_maxAttempts
                         LegacyArticleRequest.default_interval
                         (Nat.pred LegacyArticleRequest.default_maxAttempts) n)
                    0)]),
   snd (event_loop fuel be 0
          [OnGet (LegacyArticleRequest.poll_cycle
                    LegacyArticleRequest.default_maxAttempts
                    LegacyArticleRequest.default_interval
                    (fun n =>
                       LegacyArticleRequest.poll
                         (deferred_task (submit_reply be))
                         LegacyArticleRequest.default_maxAttempts
                         LegacyArticleRequest.default_interval
                         (Nat.pred LegacyArticleRequest.default_maxAttempts) n)
                    0)])).
Proof.
intros Hd.
unfold run, LegacyRequest.requestArticle.
cbn [run_sync]. rewrite event_loop_cons. cbn [app].
destruct (submit_reply be) as [err | [|] message responseData];
  try discriminate.
cbn [is_deferred] in Hd. rewrite Hd.
cbn [deferred_task].
destruct (event_loop fuel be 0 _) as [tr rem] eqn:E.
unfold LegacyArticleRequest.pollTaskStatus.
cbn -[event_loop LegacyArticleRequest.poll_cycle].
unfold LegacyArticleRequest.default_maxAttempts in *.
cbn -[event_loop LegacyArticleRequest.poll_cycle] in *.
rewrite E. reflexivity.
Qed.

(** X15: in the earlier copy of the generation hook, a deferred
    submission sets loading to false right after the first status query
    is issued (the [finally] block) and before any outcome; nothing in
    the rest of the run sets loading again. *)
Theorem legacy_loading_ends_with_first_query (be : Backend) (fuel : nat)
  (requestData : RequestData) :
  is_deferred (submit_reply be) = true ->
  1 <= fuel ->
  exists rest,
    trace fuel be (LegacyRequest.requestArticle requestData) =
    legacy_deferred_prefix requestData (deferred_task (submit_reply be)) ++
    rest /\
    existsb is_set_loading rest = false /\
    existsb is_generation_outcome
      (legacy_deferred_prefix requestData (deferred_task (submit_reply be))) =
    false.
Proof.
intros Hd Hfuel.
destruct fuel as [| fuel]; [lia |].
unfold trace. rewrite (legacy_deferred_run be fuel requestData Hd).
cbn [fst]. eexists. split; [reflexivity |].
split; [| reflexivity].
apply event_loop_avoids.
constructor; [| constructor].
intros r.
pose proof (legacy_poll_avoids_loading (deferred_task (submit_reply be))
              LegacyArticleRequest.default_maxAttempts
              LegacyArticleRequest.default_interval
              LegacyArticleRequest.default_maxAttempts 0) as Hpoll.
unfold LegacyArticleRequest.default_maxAttempts in Hpoll at 2.
cbn [LegacyArticleRequest.poll] in Hpoll.
inversion Hpoll as [| | | u k _ Hk | |]; subst.
apply Hk.
Qed.

Lemma legacy_loading_ends_with_first_query_witness :
  exists rest,
    trace 10 two_then_done (LegacyRequest.requestArticle url_request) =
    legacy_deferred_prefix url_request "t1" ++ rest /\
    existsb is_set_loading rest = false /\
    existsb is_generation_outcome
      (legacy_deferred_prefix url_request "t1") = false.
Proof.
apply (legacy_loading_ends_with_first_query two_then_done 10 url_request).
- reflexivity.
- lia.
Defined.

(** X16: in the earlier copy of the generation hook, when the first
    status reply of a deferred submission names a status other than
    "completed", "failed" and "processing" (for one, "pending"), the run
    ends there: no article and no error is ever set, and no further
    query or timer follows. *)
Theorem legacy_unnamed_status_ends_silently (be : Backend) (fuel : nat)
  (requestData : RequestData) (taskData : TaskData) :
  is_deferred (submit_reply be) = true ->
  status_reply be 0 = StatusBody true taskData ->
  td_status taskData <> "completed" ->
  td_status taskData <> "failed" ->
  td_status taskData <> "processing" ->
  2 <= fuel ->
  run fuel be (LegacyRequest.requestArticle requestData) =
  (legacy_deferred_prefix requestData (deferred_task (submit_reply be)), []) /\
  existsb is_generation_outcome
    (trace fuel be (LegacyRequest.requestArticle requestData)) = false.
Proof.
intros Hd Hreply Hc Hf Hp Hfuel.
destruct fuel as [| [| fuel]]; try lia.
assert (Hrun :
  run (S (S fuel)) be (LegacyRequest.requestArticle requestData) =
  (legacy_deferred_prefix requestData (deferred_task (submit_reply be)), [])).
{ rewrite (legacy_deferred_run be (S fuel) requestData Hd).
  rewrite event_loop_cons, Hreply.
  cbn -[String.eqb event_loop].
  apply String.eqb_neq in Hc, Hf, Hp. rewrite Hc, Hf, Hp.
  cbn -[event_loop]. rewrite event_loop_nil. reflexivity. }
split; [exact Hrun |].
unfold trace. rewrite Hrun. reflexivity.
Qed.

Lemma legacy_unnamed_status_ends_silently_witness :
  run 5 (always (with_status "pending"))
    (LegacyRequest.requestArticle url_request) =
  (legacy_deferred_prefix url_request "t1", []) /\
  existsb is_generation_outcome
    (trace 5 (always (with_status "pending"))
       (LegacyRequest.requestArticle url_request)) = false.
Proof.
apply (legacy_unnamed_status_ends_silently
         (always (with_status "pending")) 5 url_request
         {| td_status := "pending"; td_result := None; td_error := None |}).
- reflexivity.
- reflexivity.
- discriminate.
- discriminate.
- discriminate.
- lia.
Defined.

